(** * RecBole data loading: negative-sampling loaders and the Interaction
    container

    A shallow embedding of [data/dataloader.py] and [data/interaction.py].
    Python objects are records, attributes that a constructor may leave
    unset are options, exceptions are the [Raise] case of [result], and a
    method that mutates [self] is a function from the loader to the loader
    it leaves behind paired with what it returns or raises. *)

From stdpp Require Import base strings gmap list.
From Stdlib Require Import ZArith Lia.

Local Open Scope Z_scope.

(** ** The Python runtime the loaders rely on *)

Module Py.

(** The exceptions that the loaders and the libraries under them raise.
    [Unmodelled] is no exception of Python: it is the outcome of the
    embedding on a value that it does not represent (a cell that is no
    whole number where a number is stored in a tensor), so that no
    statement is made about what the code does there. *)
Inductive exn : Type :=
| ValueError (msg : string)
| PermissionError (msg : string)
| TypeError (msg : string)
| KeyError (key : string)
| AttributeError (attr : string)
| NameError (name : string)
| IndexError (msg : string)
| ZeroDivisionError
| StopIteration
| OverflowError (msg : string)
| RuntimeError (msg : string)
| Unmodelled (what : string).

Inductive result (A : Type) : Type :=
| Ok (a : A)
| Raise (e : exn).
Arguments Ok {A} a.
Arguments Raise {A} e.

Definition bind {A B} (r : result A) (k : A -> result B) : result B :=
  match r with
  | Ok a => k a
  | Raise e => Raise e
  end.

Definition is_ok {A} (r : result A) : bool :=
  match r with Ok _ => true | Raise _ => false end.

(** [a // b]: floor division; [Z.div] rounds towards minus infinity for
    either sign of the divisor, as Python does. *)
Definition floordiv (a b : Z) : result Z :=
  if b =? 0 then Raise ZeroDivisionError else Ok (a / b).

(** [a % b]: the remainder takes the sign of the divisor, as [Z.modulo]. *)
Definition mod_ (a b : Z) : result Z :=
  if b =? 0 then Raise ZeroDivisionError else Ok (a mod b).

(** [l[:e]]: a negative [e] counts from the end. *)
Definition slice_to {A} (l : list A) (e : Z) : list A :=
  if e <? 0 then take (Z.to_nat (Z.of_nat (length l) + e)) l
  else take (Z.to_nat e) l.

(** [l[a:b]] for [0 <= a], [0 <= b]. *)
Definition slice {A} (l : list A) (a b : nat) : list A :=
  take (b - a) (drop a l).

(** The position that a slice bound [i] stands for in a sequence of
    length [n]: a negative bound counts from the end. *)
Definition bound (n : nat) (i : Z) : nat :=
  if i <? 0 then Z.to_nat (Z.of_nat n + i) else Z.to_nat i.

(** [[x] * n]: a count below one gives the empty list. *)
Definition list_times {A} (x : A) (n : Z) : list A :=
  replicate (Z.to_nat n) x.

(** A [dict] keeps insertion order: assigning to a key that is present
    keeps its place, a new key goes last. *)
Abbreviation dict V := (list (string * V)) (only parsing).

Fixpoint dict_get {V} (d : dict V) (k : string) : option V :=
  match d with
  | [] => None
  | (k', v) :: d' => if decide (k' = k) then Some v else dict_get d' k
  end.

Fixpoint dict_set {V} (d : dict V) (k : string) (v : V) : dict V :=
  match d with
  | [] => [(k, v)]
  | (k', v') :: d' =>
      if decide (k' = k) then (k, v) :: d' else (k', v') :: dict_set d' k v
  end.

Definition dict_keys {V} (d : dict V) : list string := d.*1.

(** [d[k]], raising [KeyError] when [k] is absent. *)
Definition getitem {V} (d : dict V) (k : string) : result V :=
  match dict_get d k with
  | Some v => Ok v
  | None => Raise (KeyError k)
  end.

(** [{k1: v1, k2: v2, ...}]: a repeated key keeps its first place and
    takes the last value. *)
Definition dict_literal {V} (kvs : list (string * V)) : dict V :=
  foldl (fun d kv => dict_set d kv.1 kv.2) [] kvs.

End Py.
Import Py.

Notation "x <~ e ;; k" := (Py.bind e (fun x => k))
  (at level 100, e at next level, right associativity, only parsing).

(** ** numpy arrays of [int64], as far as the loaders use them *)

Module Np.

(** The values of an [int64] entry: from [- 2 ** 63] to [2 ** 63 - 1]. *)
Definition int64 (z : Z) : Prop :=
  -9223372036854775808 <= z < 9223372036854775808.

Global Instance int64_dec (z : Z) : Decision (int64 z).
Proof. unfold int64. apply _. Defined.

Definition overflow : exn :=
  OverflowError "Python int too large to convert to C long".

(** The conversion of a Python integer, and of a list of them, to the
    type of the array that takes them: an assignment converts its right
    side before it writes anything. *)
Definition to_int64 (z : Z) : result Z :=
  if decide (int64 z) then Ok z else Raise overflow.

Fixpoint to_int64s (zs : list Z) : result (list Z) :=
  match zs with
  | [] => Ok []
  | z :: zs' => x <~ to_int64 z ;; xs <~ to_int64s zs' ;; Ok (x :: xs)
  end.

(** [np.zeros(n, dtype=np.int64)]. *)
Definition zeros (n : Z) : result (list Z) :=
  if n <? 0 then Raise (ValueError "negative dimensions are not allowed")
  else Ok (replicate (Z.to_nat n) 0).

(** The part of [a] that [a[lo:hi]] selects, for [0 <= lo], [0 <= hi]:
    both ends are clamped to the length. *)
Definition start (a : list Z) (lo : nat) : nat := (lo `min` length a)%nat.
Definition stop (a : list Z) (lo hi : nat) : nat :=
  (start a lo `max` (hi `min` length a))%nat.

(** [a[lo:hi] = x] for a scalar [x] of the array's type. *)
Definition set_slice_scalar (a : list Z) (lo hi : nat) (x : Z) : list Z :=
  take (start a lo) a
    ++ replicate (stop a lo hi - start a lo) x
    ++ drop (stop a lo hi) a.

(** [a[lo:hi] = vs] for a sequence [vs] of values of the array's type:
    the lengths must agree, except that a single value is broadcast. *)
Definition set_slice (a : list Z) (lo hi : nat) (vs : list Z)
  : result (list Z) :=
  let m := (stop a lo hi - start a lo)%nat in
  if decide (length vs = m) then
    Ok (take (start a lo) a ++ vs ++ drop (stop a lo hi) a)
  else
    match vs with
    | [x] => Ok (set_slice_scalar a lo hi x)
    | _ => Raise (ValueError "could not broadcast input array")
    end.

End Np.

(** ** pandas tables

    Cells are whole numbers, sequences of whole numbers or the missing
    value; a number with a fraction is not represented.  A table stores its
    row count beside its named columns, as a [DataFrame] has an index even
    when it has no column. *)

Inductive cell : Type :=
| CInt (z : Z)
| CSeq (l : list Z)
| CNaN.

Global Instance cell_eq_dec : EqDecision cell.
Proof. solve_decision. Defined.

Record DataFrame : Type := mkDataFrame {
  nrows : nat;
  columns : dict (list cell);
}.

Module Pd.

Definition len (df : DataFrame) : nat := nrows df.

(** [df[k]]. *)
Definition col (df : DataFrame) (k : string) : result (list cell) :=
  getitem (columns df) k.

(** [df[a:b]]: rows [a] to [b - 1]. *)
Definition rows (df : DataFrame) (a b : nat) : DataFrame :=
  {| nrows := length (slice (seq 0 (nrows df)) a b);
     columns := (fun kv => (kv.1, slice kv.2 a b)) <$> columns df |}.

(** [df[k] = vs]: the column is replaced in place or added last. *)
Definition set_col (df : DataFrame) (k : string) (vs : list cell)
  : result DataFrame :=
  if decide (length vs = nrows df) then
    Ok {| nrows := nrows df; columns := dict_set (columns df) k vs |}
  else Raise (ValueError "Length of values does not match length of index").

(** [df.insert(len(df.columns), k, vs)]: a column that is present is
    refused. *)
Definition insert_last (df : DataFrame) (k : string) (vs : list cell)
  : result DataFrame :=
  match dict_get (columns df) k with
  | Some _ => Raise (ValueError "cannot insert, already exists")
  | None =>
      if decide (length vs = nrows df) then
        Ok {| nrows := nrows df; columns := columns df ++ [(k, vs)] |}
      else
        Raise (ValueError "Length of values does not match length of index")
  end.

(** [pd.concat(dfs, ignore_index=True)] for frames that have the columns
    of the first one, which is how the loader calls it (copies of one
    frame). *)
Definition concat (dfs : list DataFrame) : result DataFrame :=
  match dfs with
  | [] => Raise (ValueError "No objects to concatenate")
  | df :: _ =>
      Ok {| nrows := foldr (fun d n => (nrows d + n)%nat) 0%nat dfs;
            columns :=
              (fun kv =>
                 (kv.1,
                  concat ((fun d => default [] (dict_get (columns d) kv.1))
                            <$> dfs)))
                <$> columns df |}
  end.

(** [df.add_prefix(p)]. *)
Definition add_prefix (p : string) (df : DataFrame) : DataFrame :=
  {| nrows := nrows df;
     columns := (fun kv => (p +:+ kv.1, kv.2)) <$> columns df |}.

(** [pd.DataFrame(d)] for a dict of [int64] arrays; the first array gives
    the row count. *)
Definition of_arrays (d : dict (list Z)) : DataFrame :=
  {| nrows := match d with [] => 0%nat | (_, a) :: _ => length a end;
     columns := (fun kv : string * list Z => (kv.1, CInt <$> kv.2)) <$> d |}.


(** The rows of [rk] that hold the key [c], from row [j] on. *)
Fixpoint matches (c : cell) (rk : list cell) (j : nat) : list nat :=
  match rk with
  | [] => []
  | c' :: rk' =>
      if decide (c' = c) then j :: matches c rk' (S j)
      else matches c rk' (S j)
  end.

(** The row pairs of a left join: every left row, in order, with each
    right row of the same key, or with no right row. *)
Definition left_pairs (lk rk : list cell) : list (nat * option nat) :=
  mjoin (imap (fun i c =>
                 match matches c rk 0 with
                 | [] => [(i, None)]
                 | js => (fun j => (i, Some j)) <$> js
                 end) lk).

Definition suffixed (others : list string) (key sfx name : string) : string :=
  if decide (name ≠ key ∧ name ∈ others) then name +:+ sfx else name.

(** [pd.merge(left, right, on=key, how='left', suffixes=(sl, sr))]. *)
Definition merge_left (left right : DataFrame) (key sl sr : string)
  : result DataFrame :=
  lk <~ col left key ;;
  rk <~ col right key ;;
  let pairs := left_pairs lk rk in
  let lcols :=
    (fun kv : string * list cell =>
       (suffixed (columns right).*1 key sl kv.1,
        (fun p : nat * option nat => default CNaN (kv.2 !! p.1)) <$> pairs))
      <$> columns left in
  let rcols :=
    (fun kv : string * list cell =>
       (suffixed (columns left).*1 key sr kv.1,
        (fun p : nat * option nat =>
           default CNaN (j ← p.2; kv.2 !! j)) <$> pairs))
      <$> filter (fun kv : string * list cell => kv.1 ≠ key) (columns right) in
  Ok {| nrows := length pairs; columns := lcols ++ rcols |}.

End Pd.

(** ** Tensors and the Interaction container ([data/interaction.py]) *)

Inductive dtype : Type := Long | Float.

Inductive tensor : Type :=
| Tensor1 (dt : dtype) (data : list Z)
| Tensor2 (dt : dtype) (data : list (list Z)).

Module Torch.

(** [t.shape[0]]. *)
Definition shape0 (t : tensor) : nat :=
  match t with
  | Tensor1 _ data => length data
  | Tensor2 _ data => length data
  end.

(** The whole number that a cell holds.  A tensor of this embedding
    holds whole numbers only: the missing value, which a [FloatTensor]
    stores as [nan], and a list where a number is expected are not
    represented. *)
Definition int_of_cell (c : cell) : result Z :=
  match c with
  | CInt z => Ok z
  | CSeq _ => Raise (Unmodelled "a list where a number is expected")
  | CNaN => Raise (Unmodelled "nan")
  end.

(** The [float32] value nearest to the whole number [z]: 24 significant
    bits are kept, and a tie goes to the even one. *)
Definition float32 (z : Z) : Z :=
  let a := Z.abs z in
  if a <? 16777216 then z
  else
    let e := Z.log2 a - 23 in
    let q := a / 2 ^ e in
    let r := a mod 2 ^ e in
    let h := 2 ^ (e - 1) in
    Z.sgn z * ((if (h <? r) || ((r =? h) && Z.odd q) then q + 1 else q)
               * 2 ^ e).

(** What a tensor of type [dt] stores for the Python integer [z]: a
    [LongTensor] takes the [int64] values and raises on the others; a
    [FloatTensor] rounds to [float32], the whole numbers up to [2 ** 53]
    being exact as [double] on the way; beyond them torch raises or
    rounds twice according to its version, which is not represented. *)
Definition scalar (dt : dtype) (z : Z) : result Z :=
  match dt with
  | Long =>
      if decide (Np.int64 z) then Ok z
      else Raise (RuntimeError "Overflow when unpacking long")
  | Float =>
      if decide (Z.abs z <= 9007199254740992) then Ok (float32 z)
      else Raise (Unmodelled "a whole number beyond 2 ** 53 in a FloatTensor")
  end.

Fixpoint scalars (dt : dtype) (zs : list Z) : result (list Z) :=
  match zs with
  | [] => Ok []
  | z :: zs' => x <~ scalar dt z ;; xs <~ scalars dt zs' ;; Ok (x :: xs)
  end.

Fixpoint entries_of_cells (dt : dtype) (cs : list cell) : result (list Z) :=
  match cs with
  | [] => Ok []
  | c :: cs' =>
      z <~ int_of_cell c ;;
      x <~ scalar dt z ;;
      xs <~ entries_of_cells dt cs' ;;
      Ok (x :: xs)
  end.

(** [torch.LongTensor(xs)] and [torch.FloatTensor(xs)] of a flat list of
    numbers. *)
Definition of_cells (dt : dtype) (cs : list cell) : result tensor :=
  xs <~ entries_of_cells dt cs ;; Ok (Tensor1 dt xs).

Definition of_ints (dt : dtype) (zs : list Z) : result tensor :=
  xs <~ scalars dt zs ;; Ok (Tensor1 dt xs).

Definition row_of (t : tensor) : result (list Z) :=
  match t with
  | Tensor1 _ data => Ok data
  | Tensor2 _ _ => Raise (ValueError "expected a sequence of 1-D tensors")
  end.

Fixpoint rows_of (ts : list tensor) : result (list (list Z)) :=
  match ts with
  | [] => Ok []
  | t :: ts' => r <~ row_of t ;; rs <~ rows_of ts' ;; Ok (r :: rs)
  end.

(** [rnn_utils.pad_sequence(ts, batch_first=True)]: every row is filled
    with zeros on the right up to the longest one. *)
Definition pad_sequence (ts : list tensor) : result tensor :=
  match ts with
  | [] => Raise (IndexError "list index out of range")
  | Tensor1 dt _ :: _ =>
      rs <~ rows_of ts ;;
      let w := foldr (fun (r : list Z) (m : nat) => (length r `max` m)%nat) 0%nat rs in
      Ok (Tensor2 dt
            ((fun r : list Z => r ++ replicate (w - length r) 0) <$> rs))
  | Tensor2 _ _ :: _ =>
      Raise (ValueError "expected a sequence of 1-D tensors")
  end.

End Torch.

Module Interaction.

Record t : Type := mk {
  interaction : dict tensor;
  length : option nat;
}.

(** The loop over the fields stops after its first turn: [length] is set
    from the first field, and stays unset when there is none. *)
Definition __init__ (interaction : dict tensor) : t :=
  {| interaction := interaction;
     length :=
       match interaction with
       | [] => None
       | (k, v) :: _ => Some (Torch.shape0 v)
       end |}.

Definition __len__ (self : t) : result nat :=
  match length self with
  | Some n => Ok n
  | None => Raise (AttributeError "length")
  end.

(** [self[index]] for a field name. *)
Definition __getitem__ (self : t) (index : string) : result tensor :=
  getitem (interaction self) index.

Definition update (self new_inter : t) : t :=
  {| interaction :=
       foldl (fun d (kv : string * tensor) => dict_set d kv.1 kv.2)
             (interaction self) (interaction new_inter);
     length := length self |}.

End Interaction.

(** ** Collaborators of the loaders *)

(** [config], as far as the loaders read it. *)
Record Config : Type := mkConfig {
  USER_ID_FIELD : string;
  ITEM_ID_FIELD : string;
  LABEL_FIELD : string;
  NEG_PREFIX : string;
}.

(** [neg_sample_args]; the keys [by] and [to] are spelled [by_] and [to_]. *)
Record NegSampleArgs : Type := mkNegSampleArgs {
  strategy : string;
  by_ : Z;
  to_ : Z;
  real_time : bool;
}.

(** The sampler draws at random, so two calls with the same arguments may
    differ: the per-user draws take the number of the group they are made
    for. *)
Record Sampler : Type := mkSampler {
  sample_by_user_ids : string -> list cell -> Z -> list Z;
  sample_full_by_user_id : nat -> string -> Z -> list Z;
  sample_by_user_id : nat -> string -> Z -> Z -> list Z;
}.

(** The group table [uid2items]: one row per user, with the list of the
    user's positive items. *)
Abbreviation Groups := (list (Z * list Z)) (only parsing).

Module Dataset.

(** The dataset object, which the loader shares with its caller.  [join],
    [shuffle] and [sample] stand for methods whose code is in the dataset
    and in pandas: the feature join, and the two random reorderings. *)
Record t : Type := mk {
  inter_feat : DataFrame;
  item_feat : option DataFrame;
  uid2items : Groups;
  item_num : Z;
  field2type : gmap string string;
  field2source : gmap string string;
  field2seqlen : gmap string Z;
  join : DataFrame -> DataFrame;
  shuffle : DataFrame -> DataFrame;
  sample : Groups -> Groups;
}.

Definition with_inter_feat (df : DataFrame) (d : t) : t :=
  mk df (item_feat d) (uid2items d) (item_num d) (field2type d)
     (field2source d) (field2seqlen d) (join d) (shuffle d) (sample d).

(** [field2type[k] = v], [field2source[k] = v], [field2seqlen[k] = n]. *)
Definition set_type (k v : string) (d : t) : t :=
  mk (inter_feat d) (item_feat d) (uid2items d) (item_num d)
     (<[k := v]> (field2type d)) (field2source d) (field2seqlen d)
     (join d) (shuffle d) (sample d).
Definition set_source (k v : string) (d : t) : t :=
  mk (inter_feat d) (item_feat d) (uid2items d) (item_num d)
     (field2type d) (<[k := v]> (field2source d)) (field2seqlen d)
     (join d) (shuffle d) (sample d).
Definition set_seqlen (k : string) (n : Z) (d : t) : t :=
  mk (inter_feat d) (item_feat d) (uid2items d) (item_num d)
     (field2type d) (field2source d) (<[k := n]> (field2seqlen d))
     (join d) (shuffle d) (sample d).

(** Modelled from the spec: the dataset's [__len__] is not in the sources;
    the spec has the dataset expose its row count, taken here as the row
    count of [inter_feat]. *)
Definition __len__ (d : t) : nat := Pd.len (inter_feat d).

(** Modelled from the spec: the dataset's [__getitem__] is not in the
    sources; the spec has the dataset expose a slice by range, taken here
    as the rows [a] to [b - 1] of [inter_feat]. *)
Definition __getitem__ (d : t) (a b : Z) : DataFrame :=
  Pd.rows (inter_feat d)
    (bound (nrows (inter_feat d)) a) (bound (nrows (inter_feat d)) b).

End Dataset.

(** ** The loader object

    One record holds the attributes of the three classes; those that a
    constructor sets on some paths only are options.  [dataset] is the
    state of the shared dataset object. *)
Record Loader : Type := mkLoader {
  config : Config;
  dataset : Dataset.t;
  batch_size : Z;
  shuffle : bool;
  pr : Z;
  sampler : Sampler;
  phase : string;
  neg_sample_args : NegSampleArgs;
  dl_format : string;
  real_time_neg_sampling : bool;
  step : option Z;
  neg_sample_by : option Z;
  label_field : option string;
  times : option Z;
  uid2items : option Groups;
  full : option bool;
  next : option (gmap Z Z);
}.

Definition set_dataset (v : Dataset.t) (s : Loader) : Loader :=
  mkLoader (config s) v (batch_size s) (shuffle s) (pr s) (sampler s)
    (phase s) (neg_sample_args s) (dl_format s) (real_time_neg_sampling s)
    (step s) (neg_sample_by s) (label_field s) (times s) (uid2items s)
    (full s) (next s).
Definition set_batch_size_attr (v : Z) (s : Loader) : Loader :=
  mkLoader (config s) (dataset s) v (shuffle s) (pr s) (sampler s)
    (phase s) (neg_sample_args s) (dl_format s) (real_time_neg_sampling s)
    (step s) (neg_sample_by s) (label_field s) (times s) (uid2items s)
    (full s) (next s).
Definition set_pr (v : Z) (s : Loader) : Loader :=
  mkLoader (config s) (dataset s) (batch_size s) (shuffle s) v (sampler s)
    (phase s) (neg_sample_args s) (dl_format s) (real_time_neg_sampling s)
    (step s) (neg_sample_by s) (label_field s) (times s) (uid2items s)
    (full s) (next s).
Definition set_neg_sample_args (v : NegSampleArgs) (s : Loader) : Loader :=
  mkLoader (config s) (dataset s) (batch_size s) (shuffle s) (pr s)
    (sampler s) (phase s) v (dl_format s) (real_time_neg_sampling s)
    (step s) (neg_sample_by s) (label_field s) (times s) (uid2items s)
    (full s) (next s).
Definition set_step (v : Z) (s : Loader) : Loader :=
  mkLoader (config s) (dataset s) (batch_size s) (shuffle s) (pr s)
    (sampler s) (phase s) (neg_sample_args s) (dl_format s)
    (real_time_neg_sampling s) (Some v) (neg_sample_by s) (label_field s)
    (times s) (uid2items s) (full s) (next s).
Definition set_times (v : Z) (s : Loader) : Loader :=
  mkLoader (config s) (dataset s) (batch_size s) (shuffle s) (pr s)
    (sampler s) (phase s) (neg_sample_args s) (dl_format s)
    (real_time_neg_sampling s) (step s) (neg_sample_by s) (label_field s)
    (Some v) (uid2items s) (full s) (next s).
Definition set_neg_sample_by (v : Z) (s : Loader) : Loader :=
  mkLoader (config s) (dataset s) (batch_size s) (shuffle s) (pr s)
    (sampler s) (phase s) (neg_sample_args s) (dl_format s)
    (real_time_neg_sampling s) (step s) (Some v) (label_field s)
    (times s) (uid2items s) (full s) (next s).
Definition set_label_field (v : string) (s : Loader) : Loader :=
  mkLoader (config s) (dataset s) (batch_size s) (shuffle s) (pr s)
    (sampler s) (phase s) (neg_sample_args s) (dl_format s)
    (real_time_neg_sampling s) (step s) (neg_sample_by s) (Some v)
    (times s) (uid2items s) (full s) (next s).
Definition set_full (v : bool) (s : Loader) : Loader :=
  mkLoader (config s) (dataset s) (batch_size s) (shuffle s) (pr s)
    (sampler s) (phase s) (neg_sample_args s) (dl_format s)
    (real_time_neg_sampling s) (step s) (neg_sample_by s) (label_field s)
    (times s) (uid2items s) (Some v) (next s).
Definition on_dataset (f : Dataset.t -> Dataset.t) (s : Loader) : Loader :=
  set_dataset (f (dataset s)) s.
Definition set_uid2items (v : Groups) (s : Loader) : Loader :=
  mkLoader (config s) (dataset s) (batch_size s) (shuffle s) (pr s)
    (sampler s) (phase s) (neg_sample_args s) (dl_format s)
    (real_time_neg_sampling s) (step s) (neg_sample_by s) (label_field s)
    (times s) (Some v) (full s) (next s).
Definition set_next (v : gmap Z Z) (s : Loader) : Loader :=
  mkLoader (config s) (dataset s) (batch_size s) (shuffle s) (pr s)
    (sampler s) (phase s) (neg_sample_args s) (dl_format s)
    (real_time_neg_sampling s) (step s) (neg_sample_by s) (label_field s)
    (times s) (uid2items s) (full s) (Some v).

(** A method that may assign attributes of [self] and may raise: the loader
    it leaves behind, and its outcome. *)
Definition M (A : Type) : Type := Loader -> Loader * result A.

Definition ret {A} (a : A) : M A := fun s => (s, Ok a).
Definition raise {A} (e : exn) : M A := fun s => (s, Raise e).
Definition mbind' {A B} (m : M A) (k : A -> M B) : M B :=
  fun s =>
    match m s with
    | (s', Ok a) => k a s'
    | (s', Raise e) => (s', Raise e)
    end.
Definition gets {A} (f : Loader -> A) : M A := fun s => (s, Ok (f s)).
Definition modify (f : Loader -> Loader) : M unit := fun s => (f s, Ok tt).
Definition lift {A} (r : result A) : M A := fun s => (s, r).

(** Reading an attribute that may be unset. *)
Definition getattr {A} (name : string) (f : Loader -> option A) : M A :=
  fun s =>
    match f s with
    | Some a => (s, Ok a)
    | None => (s, Raise (AttributeError name))
    end.

(** [reg[k]] on one of the dataset's registries. *)
Definition read_registry {V} (reg : Dataset.t -> gmap string V) (k : string)
  : M V :=
  fun s =>
    match reg (dataset s) !! k with
    | Some v => (s, Ok v)
    | None => (s, Raise (KeyError k))
    end.

Notation "x <- e ;; k" := (mbind' e (fun x => k))
  (at level 100, e at next level, right associativity, only parsing).
Notation "e ;;; k" := (mbind' e (fun _ => k))
  (at level 100, right associativity, only parsing).

(** The object as allocated, before any [__init__] has run.  The first ten
    attributes are assigned by the constructors before anything reads
    them. *)
Definition new (dataset : Dataset.t) : Loader :=
  {| config := mkConfig "" "" "" "";
     dataset := dataset;
     batch_size := 1;
     shuffle := false;
     pr := 0;
     sampler := mkSampler (fun _ _ _ => []) (fun _ _ _ => [])
                          (fun _ _ _ _ => []);
     phase := "";
     neg_sample_args := mkNegSampleArgs "" 0 0 false;
     dl_format := "";
     real_time_neg_sampling := false;
     step := None;
     neg_sample_by := None;
     label_field := None;
     times := None;
     uid2items := None;
     full := None;
     next := None |}.

(** ** [class AbstractDataLoader] *)

Module AbstractDataLoader.

(** [self.dataset = dataset] binds the attribute to the shared object,
    whose state the record carries from the allocation on. *)
Definition __init__ (config' : Config) (batch_size' : Z) (shuffle' : bool)
  : M unit :=
  modify (fun s =>
    mkLoader config' (dataset s) batch_size' shuffle' 0 (sampler s)
      (phase s) (neg_sample_args s) (dl_format s)
      (real_time_neg_sampling s) (step s) (neg_sample_by s)
      (label_field s) (times s) (uid2items s) (full s) (next s)).

(** The values a field of [data] holds during the conversion, and the
    two kinds of object the variable [data] is bound to. *)
Inductive pyval : Type :=
| Cells (cs : list cell)
| Tensor (t : tensor).

Inductive datavar : Type :=
| DDict (d : dict pyval)
| DList (l : list tensor).

(** [data[k]] and [data[k] = v]: a list takes no string index. *)
Definition data_get (data : datavar) (k : string) : result pyval :=
  match data with
  | DDict d => getitem d k
  | DList _ =>
      Raise (TypeError "list indices must be integers or slices, not str")
  end.

Definition data_set (data : datavar) (k : string) (v : pyval)
  : result datavar :=
  match data with
  | DDict d => Ok (DDict (dict_set d k v))
  | DList _ =>
      Raise (TypeError "list indices must be integers or slices, not str")
  end.

Definition registry {V} (reg : gmap string V) (k : string) : result V :=
  match reg !! k with
  | Some v => Ok v
  | None => Raise (KeyError k)
  end.

Definition tensor_of (dt : dtype) (v : pyval) : result tensor :=
  match v with
  | Cells cs => Torch.of_cells dt cs
  | Tensor _ => Raise (TypeError "expected a list")
  end.

(** [[torch.LongTensor(d[:seqlen[k]]) for d in v]]. *)
Fixpoint cut_rows (dt : dtype) (seqlen : gmap string Z) (k : string)
    (cs : list cell) : result (list tensor) :=
  match cs with
  | [] => Ok []
  | c :: cs' =>
      n <~ registry seqlen k ;;
      t <~ match c with
           | CSeq l => Torch.of_ints dt (slice_to l n)
           | _ => Raise (TypeError "object is not subscriptable")
           end ;;
      ts <~ cut_rows dt seqlen k cs' ;;
      Ok (t :: ts)
  end.

Definition cut (dt : dtype) (seqlen : gmap string Z) (k : string)
    (v : pyval) : result (list tensor) :=
  match v with
  | Cells cs => cut_rows dt seqlen k cs
  | Tensor _ => Raise (TypeError "expected a list")
  end.

(** One turn of the loop [for k in data].  In the two sequence branches
    the variable [data] is bound anew to the list of cut rows, and the
    assignment [data[k] = ...] that follows is made to that list. *)
Definition convert_field (self : Loader) (data : datavar) (k : string)
  : result datavar :=
  let seqlen := Dataset.field2seqlen (dataset self) in
  ftype <~ registry (Dataset.field2type (dataset self)) k ;;
  if decide (ftype = "token") then
    v <~ data_get data k ;;
    t <~ tensor_of Long v ;;
    data_set data k (Tensor t)
  else if decide (ftype = "float") then
    v <~ data_get data k ;;
    t <~ tensor_of Float v ;;
    data_set data k (Tensor t)
  else if decide (ftype = "token_seq") then
    v <~ data_get data k ;;
    l <~ cut Long seqlen k v ;;
    let data := DList l in
    p <~ Torch.pad_sequence l ;;
    data_set data k (Tensor p)
  else if decide (ftype = "float_seq") then
    v <~ data_get data k ;;
    l <~ cut Float seqlen k v ;;
    let data := DList l in
    p <~ Torch.pad_sequence l ;;
    data_set data k (Tensor p)
  else Raise (ValueError ("Illegal ftype [" +:+ ftype +:+ "]")).

Fixpoint convert_fields (self : Loader) (data : datavar) (ks : list string)
  : result datavar :=
  match ks with
  | [] => Ok data
  | k :: ks' =>
      data' <~ convert_field self data k ;;
      convert_fields self data' ks'
  end.

(** [data.to_dict(orient='list')]. *)
Definition to_dict (df : DataFrame) : dict pyval :=
  dict_literal ((fun kv : string * list cell => (kv.1, Cells kv.2))
                  <$> columns df).

Fixpoint tensors (d : dict pyval) : result (dict tensor) :=
  match d with
  | [] => Ok []
  | (k, Tensor t) :: d' => ts <~ tensors d' ;; Ok ((k, t) :: ts)
  | (k, Cells _) :: _ => Raise (AttributeError "shape")
  end.

Definition _dataframe_to_interaction (self : Loader) (data : DataFrame)
  : result Interaction.t :=
  let data := to_dict data in
  data' <~ convert_fields self (DDict data) (dict_keys data) ;;
  match data' with
  | DDict d => ts <~ tensors d ;; Ok (Interaction.__init__ ts)
  | DList _ => Raise (TypeError "list indices must be integers")
  end.

Definition busy : exn :=
  PermissionError "Cannot change dataloader's batch_size while iteration".

Definition set_batch_size (batch_size' : Z) : M unit :=
  p <- gets pr ;;
  if negb (p =? 0) then raise busy
  else
    b <- gets batch_size ;;
    if negb (b =? batch_size') then modify (set_batch_size_attr batch_size')
    else ret tt.

Section Virtual.

(** The methods that the subclasses supply. *)
Variable pr_end : Loader -> result Z.
Variable _shuffle : M unit.
Variable _next_dataframe : M DataFrame.

(** The part of [__next__] before the conversion: the end of a pass is
    the exception [StopIteration]. *)
Definition fetch : M DataFrame :=
  p <- gets pr ;;
  e <- (fun s => (s, pr_end s)) ;;
  if e <=? p then
    modify (set_pr 0) ;;;
    sh <- gets shuffle ;;
    (if sh : bool then _shuffle else ret tt) ;;;
    raise StopIteration
  else _next_dataframe.

Definition __next__ : M Interaction.t :=
  cur_data <- fetch ;;
  (fun s => (s, _dataframe_to_interaction s cur_data)).

(** One pass of [for batch in loader]: the tables that the calls of
    [__next__] fetch until [StopIteration]; [None] when [fuel] calls do not
    reach the end of the pass. *)
Fixpoint pass (fuel : nat) (s : Loader)
  : option (Loader * result (list DataFrame)) :=
  match fuel with
  | O => None
  | S fuel' =>
      match fetch s with
      | (s', Raise StopIteration) => Some (s', Ok [])
      | (s', Raise e) => Some (s', Raise e)
      | (s', Ok df) =>
          match pass fuel' s' with
          | Some (s'', Ok dfs) => Some (s'', Ok (df :: dfs))
          | other => other
          end
      end
  end.

End Virtual.

End AbstractDataLoader.

(** ** [class NegSampleBasedDataLoader] *)

Module NegSampleBasedDataLoader.

Section Virtual.

Variable _batch_size_adaptation : M unit.
Variable _pre_neg_sampling : M unit.

Definition __init__ (config' : Config) (sampler' : Sampler)
    (phase' : string) (neg_sample_args' : NegSampleArgs)
    (batch_size' : Z) (dl_format' : string) (shuffle' : bool) : M unit :=
  if negb (bool_decide (dl_format' ∈ ["pointwise"; "pairwise"])) then
    raise (ValueError ("dl_format [" +:+ dl_format' +:+ "] has not been implemented"))
  else if negb (bool_decide (strategy neg_sample_args' ∈ ["by"; "to"])) then
    raise (ValueError ("neg_sample strategy [" +:+ strategy neg_sample_args'
             +:+ "] has not been implemented"))
  else
    AbstractDataLoader.__init__ config' batch_size' shuffle' ;;;
    modify (fun s =>
      mkLoader (config s) (dataset s) (batch_size s) (shuffle s) (pr s)
        sampler' phase' neg_sample_args' dl_format'
        (real_time neg_sample_args') (step s) (neg_sample_by s)
        (label_field s) (times s) (uid2items s) (full s) (next s)) ;;;
    _batch_size_adaptation ;;;
    rt <- gets real_time_neg_sampling ;;
    if negb rt then _pre_neg_sampling else ret tt.

End Virtual.

End NegSampleBasedDataLoader.

(** ** [class GeneralInteractionBasedDataLoader] *)

Module GeneralInteractionBasedDataLoader.

Definition _batch_size_adaptation : M unit :=
  fmt <- gets dl_format ;;
  if decide (fmt = "pairwise") then
    b <- gets batch_size ;;
    modify (set_step b)
  else
    k <- getattr "neg_sample_by" neg_sample_by ;;
    modify (set_times (1 + k)) ;;;
    b <- gets batch_size ;;
    t <- getattr "times" times ;;
    batch_num <- lift (floordiv b t) ;;
    let new_batch_size := (batch_num + 1) * t in
    rt <- gets real_time_neg_sampling ;;
    modify (set_step (if rt : bool then batch_num + 1 else new_batch_size)) ;;;
    AbstractDataLoader.set_batch_size new_batch_size.

Definition pr_end (self : Loader) : result Z :=
  Ok (Z.of_nat (Dataset.__len__ (dataset self))).

Definition _shuffle : M unit :=
  modify (on_dataset (fun d =>
    Dataset.with_inter_feat (Dataset.shuffle d (Dataset.inter_feat d)) d)).

Definition _neg_sample_by_pair_wise_sampling (self : Loader)
    (uid_field iid_field : string) (neg_iids : list Z)
    (inter_feat : DataFrame) : result DataFrame :=
  let neg_prefix := NEG_PREFIX (config self) in
  let neg_item_id := neg_prefix +:+ iid_field in
  inter_feat <~ Pd.insert_last inter_feat neg_item_id (CInt <$> neg_iids) ;;
  match Dataset.item_feat (dataset self) with
  | Some item_feat =>
      let neg_item_feat := Pd.add_prefix neg_prefix item_feat in
      Pd.merge_left inter_feat neg_item_feat neg_item_id "_inter" "_item"
  | None => Ok inter_feat
  end.

(** [a[lo:] = vs] on the values of a column. *)
Definition set_tail (a : list cell) (lo : nat) (vs : list cell)
  : result (list cell) :=
  let lo' := (lo `min` length a)%nat in
  if decide (length vs = (length a - lo')%nat) then Ok (take lo' a ++ vs)
  else
    match vs with
    | [x] => Ok (take lo' a ++ replicate (length a - lo') x)
    | _ => Raise (ValueError "could not broadcast input array")
    end.

(** The assignment to [new_df[iid_field].values[pos_inter_num:]] writes
    through to the column of [new_df], as it does for a frame that [concat]
    has just built. *)
Definition _neg_sample_by_point_wise_sampling (self : Loader)
    (uid_field iid_field : string) (neg_iids : list Z)
    (inter_feat : DataFrame) : result DataFrame :=
  let pos_inter_num := Pd.len inter_feat in
  t <~ match times self with
       | Some t => Ok t
       | None => Raise (AttributeError "times")
       end ;;
  new_df <~ Pd.concat (list_times inter_feat t) ;;
  iids <~ Pd.col new_df iid_field ;;
  iids' <~ set_tail iids pos_inter_num (CInt <$> neg_iids) ;;
  let new_df :=
    {| nrows := nrows new_df;
       columns := dict_set (columns new_df) iid_field iids' |} in
  zs <~ Np.zeros (Z.of_nat pos_inter_num * t) ;;
  let labels := Np.set_slice_scalar zs 0 pos_inter_num 1 in
  lf <~ match label_field self with
        | Some lf => Ok lf
        | None => Raise (AttributeError "label_field")
        end ;;
  new_df <~ Pd.set_col new_df lf (CInt <$> labels) ;;
  Ok (if real_time_neg_sampling self then Dataset.join (dataset self) new_df
      else new_df).

Definition _neg_sampling (self : Loader) (inter_feat : DataFrame)
  : result DataFrame :=
  let uid_field := USER_ID_FIELD (config self) in
  let iid_field := ITEM_ID_FIELD (config self) in
  uids <~ Pd.col inter_feat uid_field ;;
  k <~ match neg_sample_by self with
       | Some k => Ok k
       | None => Raise (AttributeError "neg_sample_by")
       end ;;
  let neg_iids := sample_by_user_ids (sampler self) (phase self) uids k in
  if decide (dl_format self = "pointwise") then
    _neg_sample_by_point_wise_sampling self uid_field iid_field neg_iids
      inter_feat
  else if decide (dl_format self = "pairwise") then
    _neg_sample_by_pair_wise_sampling self uid_field iid_field neg_iids
      inter_feat
  else Raise (ValueError ("`neg sampling by` with dl_format [" +:+ dl_format self
                       +:+ "] not been implemented")).

Definition _next_dataframe : M DataFrame :=
  p <- gets pr ;;
  st <- getattr "step" step ;;
  cur_data <- gets (fun s => Dataset.__getitem__ (dataset s) p (p + st)) ;;
  modify (set_pr (p + st)) ;;;
  rt <- gets real_time_neg_sampling ;;
  if rt : bool then (fun s => (s, _neg_sampling s cur_data))
  else ret cur_data.

Definition _pre_neg_sampling : M unit :=
  df <- (fun s => (s, _neg_sampling s (Dataset.inter_feat (dataset s)))) ;;
  modify (on_dataset (Dataset.with_inter_feat df)).

(** One turn of the loop that declares the negative item columns. *)
Definition register_negative (neg_prefix item_feat_col : string) : M unit :=
  let neg_item_feat_col := neg_prefix +:+ item_feat_col in
  ty <- read_registry Dataset.field2type item_feat_col ;;
  modify (on_dataset (Dataset.set_type neg_item_feat_col ty)) ;;;
  src <- read_registry Dataset.field2source item_feat_col ;;
  modify (on_dataset (Dataset.set_source neg_item_feat_col src)) ;;;
  n <- read_registry Dataset.field2seqlen item_feat_col ;;
  modify (on_dataset (Dataset.set_seqlen neg_item_feat_col n)).

Definition __init__ (config' : Config) (sampler' : Sampler)
    (phase' : string) (neg_sample_args' : NegSampleArgs) (batch_size' : Z)
    (dl_format' : string) (shuffle' : bool) : M unit :=
  if decide (strategy neg_sample_args' ≠ "by") then
    raise (ValueError
      "neg_sample strategy in GeneralInteractionBasedDataLoader() should be `by`")
  else if decide (dl_format' = "pairwise" ∧ by_ neg_sample_args' ≠ 1) then
    raise (ValueError "Pairwise dataloader can only neg sample by 1")
  else
    modify (set_neg_sample_by (by_ neg_sample_args')) ;;;
    (if decide (dl_format' = "pointwise") then
       let label := LABEL_FIELD config' in
       modify (set_label_field label) ;;;
       modify (on_dataset (Dataset.set_type label "float")) ;;;
       modify (on_dataset (Dataset.set_source label "inter")) ;;;
       modify (on_dataset (Dataset.set_seqlen label 1))
     else ret tt) ;;;
    NegSampleBasedDataLoader.__init__ _batch_size_adaptation
      _pre_neg_sampling config' sampler' phase' neg_sample_args'
      batch_size' dl_format' shuffle' ;;;
    fmt <- gets dl_format ;;
    if decide (fmt = "pairwise") then
      cfg <- gets config ;;
      let neg_prefix := NEG_PREFIX cfg in
      let iid_field := ITEM_ID_FIELD cfg in
      ds <- gets dataset ;;
      let cols :=
        match Dataset.item_feat ds with
        | None => [iid_field]
        | Some item_feat => (columns item_feat).*1
        end in
      foldr (fun item_feat_col rest =>
             register_negative neg_prefix item_feat_col ;;; rest)
          (ret tt) cols
  else ret tt.

End GeneralInteractionBasedDataLoader.

(** ** [class GeneralGroupedDataLoader] *)

Module GeneralGroupedDataLoader.

Definition _batch_size_adaptation : M unit :=
  nsa <- gets neg_sample_args ;;
  (if to_ nsa =? -1 then
     n <- gets (fun s => Dataset.item_num (dataset s)) ;;
     modify (set_neg_sample_args
               (mkNegSampleArgs (strategy nsa) (by_ nsa) n (real_time nsa)))
   else ret tt) ;;;
  b <- gets batch_size ;;
  nsa <- gets neg_sample_args ;;
  batch_num <- lift (floordiv b (to_ nsa)) ;;
  let new_batch_size := (batch_num + 1) * to_ nsa in
  modify (set_step (batch_num + 1)) ;;;
  AbstractDataLoader.set_batch_size new_batch_size.

Definition pr_end (self : Loader) : result Z :=
  if real_time_neg_sampling self then
    match uid2items self with
    | Some u => Ok (Z.of_nat (length u))
    | None => Raise (AttributeError "uid2items")
    end
  else Ok (Z.of_nat (Dataset.__len__ (dataset self))).

Definition _shuffle : M unit :=
  rt <- gets real_time_neg_sampling ;;
  if rt : bool then
    u <- getattr "uid2items" uid2items ;;
    ds <- gets dataset ;;
    modify (set_uid2items (Dataset.sample ds u))
  else
    modify (on_dataset (fun d =>
      Dataset.with_inter_feat (Dataset.shuffle d (Dataset.inter_feat d)) d)).

Definition next_pr : M Z :=
  nx <- getattr "next" next ;;
  p <- gets pr ;;
  match nx !! p with
  | Some q => ret q
  | None => raise (KeyError "next[pr]")
  end.

(** The local variables of [_neg_sampling]; [last_pr] is unbound until
    the first breakpoint is taken. *)
Record locals : Type := mkLocals {
  new_inter : dict (list Z);
  new_inter_num : nat;
  last_pr : option Z;
}.

(** [new_inter[field][lo:hi] = x] and [new_inter[field][lo:hi] = vs]:
    the right side is converted to [int64], and the array that the dict
    holds is written in place. *)
Definition fill (field : string) (lo hi : nat) (x : Z)
    (d : dict (list Z)) : result (dict (list Z)) :=
  a <~ getitem d field ;;
  x <~ Np.to_int64 x ;;
  Ok (dict_set d field (Np.set_slice_scalar a lo hi x)).

Definition write (field : string) (lo hi : nat) (vs : list Z)
    (d : dict (list Z)) : result (dict (list Z)) :=
  a <~ getitem d field ;;
  vs <~ Np.to_int64s vs ;;
  a' <~ Np.set_slice a lo hi vs ;;
  Ok (dict_set d field a').

(** The lines that write one group into the buffers, from row
    [new_inter_num] on. *)
Definition write_group (uid_field iid_field label_field : string)
    (new_inter_num : nat) (uid : Z) (pos_item_id neg_item_id : list Z)
    (d : dict (list Z)) : result (dict (list Z)) :=
  let pos_num := length pos_item_id in
  let neg_num := length neg_item_id in
  let neg_start := (new_inter_num + pos_num)%nat in
  let neg_end := (new_inter_num + pos_num + neg_num)%nat in
  d <~ fill uid_field new_inter_num neg_end uid d ;;
  d <~ write iid_field new_inter_num neg_start pos_item_id d ;;
  d <~ write iid_field neg_start neg_end neg_item_id d ;;
  fill label_field new_inter_num neg_start 1 d.

(** The end of a turn, with the group written and counted: in
    pre-materialized mode every [step]-th group takes a breakpoint, the
    first one by starting the map [next]. *)
Definition take_break (i : nat) (l : locals) : M locals :=
  rt <- gets real_time_neg_sampling ;;
  if rt : bool then ret l
  else
    st <- getattr "step" step ;;
    r <- lift (mod_ (Z.of_nat i) st) ;;
    if r =? 0 then
      if (i =? 0)%nat then
        modify (set_next ∅) ;;;
        ret (mkLocals (new_inter l) (new_inter_num l) (Some 0))
      else
        nx <- getattr "next" next ;;
        match last_pr l with
        | None => raise (NameError "last_pr")
        | Some lp =>
            modify (set_next (<[lp := Z.of_nat (new_inter_num l)]> nx)) ;;;
            ret (mkLocals (new_inter l) (new_inter_num l)
                   (Some (Z.of_nat (new_inter_num l))))
        end
    else ret l.

(** One turn of the loop over the groups. *)
Definition group_body (uid_field iid_field label_field : string)
    (neg_sample_to : Z) (i : nat) (row : Z * list Z) (l : locals)
  : M locals :=
  let uid := row.1 in
  fl <- getattr "full" full ;;
  smp <- gets sampler ;;
  ph <- gets phase ;;
  let pos_item_id :=
    if fl : bool then row.2 else slice_to row.2 (neg_sample_to - 1) in
  let pos_num := length pos_item_id in
  let neg_item_id :=
    if fl : bool then sample_full_by_user_id smp i ph uid
    else sample_by_user_id smp i ph uid (neg_sample_to - Z.of_nat pos_num) in
  let neg_num := length neg_item_id in
  d <- lift (write_group uid_field iid_field label_field (new_inter_num l)
               uid pos_item_id neg_item_id (new_inter l)) ;;
  let n := (new_inter_num l + (pos_num + neg_num))%nat in
  take_break i (mkLocals d n (last_pr l)).

(** [for i, row in enumerate(uid2items.itertuples())], from index [i]. *)
Fixpoint groups_loop (uid_field iid_field label_field : string)
    (neg_sample_to : Z) (i : nat) (rows : Groups) (l : locals)
  : M locals :=
  match rows with
  | [] => ret l
  | row :: rows' =>
      l' <- group_body uid_field iid_field label_field neg_sample_to
              i row l ;;
      groups_loop uid_field iid_field label_field neg_sample_to
        (S i) rows' l'
  end.

(** [new_inter[field] = new_inter[field][: n]]. *)
Definition cut_field (n : nat) (d : dict (list Z)) (field : string)
  : result (dict (list Z)) :=
  a <~ getitem d field ;; Ok (dict_set d field (take n a)).

Definition _neg_sampling (uid2items' : Groups) : M DataFrame :=
  cfg <- gets config ;;
  let uid_field := USER_ID_FIELD cfg in
  let iid_field := ITEM_ID_FIELD cfg in
  let label_field := LABEL_FIELD cfg in
  nsa <- gets neg_sample_args ;;
  let neg_sample_to := to_ nsa in
  let size := Z.of_nat (length uid2items') * neg_sample_to in
  zu <- lift (Np.zeros size) ;;
  zi <- lift (Np.zeros size) ;;
  zl <- lift (Np.zeros size) ;;
  let buffers :=
    dict_literal [(uid_field, zu); (iid_field, zi); (label_field, zl)] in
  l <- groups_loop uid_field iid_field label_field neg_sample_to 0
         uid2items' (mkLocals buffers 0 None) ;;
  d <- lift (cut_field (new_inter_num l) (new_inter l) uid_field) ;;
  d <- lift (cut_field (new_inter_num l) d iid_field) ;;
  d <- lift (cut_field (new_inter_num l) d label_field) ;;
  let frame := Pd.of_arrays d in
  rt <- gets real_time_neg_sampling ;;
  if negb rt then
    nx <- getattr "next" next ;;
    match last_pr l with
    | None => raise (NameError "last_pr")
    | Some lp =>
        modify (set_next (<[lp := Z.of_nat (Pd.len frame)]> nx)) ;;;
        ret frame
    end
  else
    ds <- gets dataset ;;
    ret (Dataset.join ds frame).

Definition _next_dataframe : M DataFrame :=
  rt <- gets real_time_neg_sampling ;;
  if rt : bool then
    p <- gets pr ;;
    st <- getattr "step" step ;;
    u <- getattr "uid2items" uid2items ;;
    cur_data <- _neg_sampling
                  (slice u (bound (length u) p) (bound (length u) (p + st))) ;;
    p <- gets pr ;;
    st <- getattr "step" step ;;
    modify (set_pr (p + st)) ;;;
    ret cur_data
  else
    p <- gets pr ;;
    q <- next_pr ;;
    cur_data <- gets (fun s => Dataset.__getitem__ (dataset s) p q) ;;
    q <- next_pr ;;
    modify (set_pr q) ;;;
    ret cur_data.

Definition _pre_neg_sampling : M unit :=
  u <- getattr "uid2items" uid2items ;;
  df <- _neg_sampling u ;;
  modify (on_dataset (Dataset.with_inter_feat df)).

Definition __next__ : M Interaction.t :=
  AbstractDataLoader.__next__ pr_end _shuffle _next_dataframe.

Definition pass (fuel : nat) (s : Loader)
  : option (Loader * result (list DataFrame)) :=
  AbstractDataLoader.pass pr_end _shuffle _next_dataframe fuel s.

Definition __init__ (config' : Config) (sampler' : Sampler)
    (phase' : string) (neg_sample_args' : NegSampleArgs) (batch_size' : Z)
    (dl_format' : string) (shuffle' : bool) : M unit :=
  if decide (strategy neg_sample_args' ≠ "to") then
    raise (ValueError
      "neg_sample strategy in GeneralGroupedDataLoader() should be `to`")
  else if decide (dl_format' = "pairwise") then
    raise (ValueError "pairwise dataloader cannot neg sample to")
  else
    ds <- gets dataset ;;
    modify (set_uid2items (Dataset.uid2items ds)) ;;;
    modify (set_full (to_ neg_sample_args' =? -1)) ;;;
    NegSampleBasedDataLoader.__init__ _batch_size_adaptation
      _pre_neg_sampling config' sampler' phase' neg_sample_args'
      batch_size' dl_format' shuffle' ;;;
    cfg <- gets config ;;
    let label_field := LABEL_FIELD cfg in
    modify (on_dataset (Dataset.set_type label_field "float")) ;;;
    modify (on_dataset (Dataset.set_source label_field "inter")) ;;;
    modify (on_dataset (Dataset.set_seqlen label_field 1)).

End GeneralGroupedDataLoader.

(** The two declared types of sequence fields. *)
Definition is_seq_type (ty : string) : Prop :=
  ty = "token_seq" \/ ty = "float_seq".

(** * Sample data *)

Module Sample.

Definition cfg : Config := mkConfig "user_id" "item_id" "label" "neg_".

Definition inter : DataFrame :=
  {| nrows := 3;
     columns := [("user_id", [CInt 1; CInt 2; CInt 3]);
                 ("item_id", [CInt 10; CInt 20; CInt 30])] |}.

Definition items : DataFrame :=
  {| nrows := 3;
     columns := [("item_id", [CInt 10; CInt 99; CInt 40]);
                 ("price", [CInt 5; CInt 6; CInt 7])] |}.

Definition groups : Groups :=
  [(1, [10; 11; 12; 13; 14]); (2, [20]); (3, [30; 31])].

Definition registries : gmap string string :=
  {[ "user_id" := "token"; "item_id" := "token"; "price" := "float";
     "history" := "token_seq" ]}.

Definition seqlens : gmap string Z :=
  {[ "user_id" := 1; "item_id" := 1; "price" := 1; "history" := 5 ]}.

(** A dataset whose [join] adds a constant column. *)
Definition data (item_feat : option DataFrame) : Dataset.t :=
  Dataset.mk inter item_feat groups 50 registries
    ((fun _ => "inter") <$> registries) seqlens
    (fun df =>
       {| nrows := nrows df;
          columns := columns df ++ [("age", replicate (nrows df) (CInt 7))] |})
    (fun df => df) (fun g => g).

(** A sampler that answers every request for [k] ids with [k] ids. *)
Definition smp : Sampler :=
  mkSampler
    (fun _ uids k => replicate (length uids * Z.to_nat k) 99)
    (fun _ _ _ => [97; 98])
    (fun i _ _ k => replicate (Z.to_nat k) (100 + Z.of_nat i)).

Definition by_args (k : Z) (rt : bool) : NegSampleArgs :=
  mkNegSampleArgs "by" k 0 rt.

Definition to_args (n : Z) (rt : bool) : NegSampleArgs :=
  mkNegSampleArgs "to" 0 n rt.

(** The loader of the spec's example: [by = 2], pointwise, a requested
    batch size of nine. *)
Definition pointwise_loader (rt : bool) : Loader * result unit :=
  GeneralInteractionBasedDataLoader.__init__ cfg smp "train" (by_args 2 rt)
    9 "pointwise" false (new (data None)).

Definition pairwise_loader (rt : bool) : Loader * result unit :=
  GeneralInteractionBasedDataLoader.__init__ cfg smp "train" (by_args 1 rt)
    9 "pairwise" false (new (data (Some items))).

Definition grouped_loader (n : Z) (rt : bool) : Loader * result unit :=
  GeneralGroupedDataLoader.__init__ cfg smp "train" (to_args n rt)
    9 "pointwise" false (new (data None)).

(** A grouped loader as its constructor leaves it before the sampling:
    [to = 4] and a batch size of [4 * st]. *)
Definition grouped_self (rt : bool) (st : Z) : Loader :=
  mkLoader cfg (data None) (4 * st) false 0 smp "train" (to_args 4 rt)
    "pointwise" rt (Some st) None None None (Some groups) (Some false) None.

(** Interaction-based loaders as their constructors leave them before
    the sampling. *)
Definition pointwise_self (rt : bool) : Loader :=
  mkLoader cfg (data None) 12 false 0 smp "train" (by_args 2 rt)
    "pointwise" rt (Some (if rt then 4 else 12)) (Some 2) (Some "label")
    (Some 3) None None None.

Definition pairwise_self (item_feat : option DataFrame) : Loader :=
  mkLoader cfg (data item_feat) 9 false 0 smp "train" (by_args 1 true)
    "pairwise" true (Some 9) (Some 1) None None None None None.

(** An item table in which the id 99 comes twice. *)
Definition twice : DataFrame :=
  {| nrows := 2;
     columns := [("item_id", [CInt 99; CInt 99]);
                 ("price", [CInt 5; CInt 6])] |}.

(** A table with a sequence field. *)
Definition seq_table : DataFrame :=
  {| nrows := 2;
     columns := [("user_id", [CInt 1; CInt 2]);
                 ("history", [CSeq [4; 5]; CSeq [6]])] |}.

End Sample.

(** * What the grouped sampling is expected to build

    The rows that the group of index [j] contributes, column by column,
    and the bookkeeping of the breakpoints, as functions of the group
    table. *)

Module Expected.

(** [cs] continues the chain of [nx] from the cursor [c]: each cursor is
    mapped to the next one, which is greater. *)
Fixpoint chain (nx : gmap Z Z) (c : Z) (cs : list Z) : Prop :=
  match cs with
  | [] => True
  | c' :: cs' => nx !! c = Some c' /\ c < c' /\ chain nx c' cs'
  end.



Section Groups.

Variable smp : Sampler.
Variable ph : string.
Variable fl : bool.
Variable to : Z.

Definition positives (row : Z * list Z) : list Z :=
  if fl then row.2 else slice_to row.2 (to - 1).

Definition negatives (j : nat) (row : Z * list Z) : list Z :=
  if fl then sample_full_by_user_id smp j ph row.1
  else sample_by_user_id smp j ph row.1
         (to - Z.of_nat (length (positives row))).

Definition width (j : nat) (row : Z * list Z) : nat :=
  (length (positives row) + length (negatives j row))%nat.

(** The ids that the group of index [j] writes into the buffers are
    [int64] values. *)
Definition in_range (j : nat) (row : Z * list Z) : Prop :=
  Np.int64 row.1
  /\ Forall Np.int64 (positives row)
  /\ Forall Np.int64 (negatives j row).

Fixpoint ranged (j : nat) (rows : Groups) : Prop :=
  match rows with
  | [] => True
  | row :: rows' => in_range j row /\ ranged (S j) rows'
  end.

Fixpoint uids (j : nat) (rows : Groups) : list Z :=
  match rows with
  | [] => []
  | row :: rows' => replicate (width j row) row.1 ++ uids (S j) rows'
  end.

Fixpoint iids (j : nat) (rows : Groups) : list Z :=
  match rows with
  | [] => []
  | row :: rows' => positives row ++ negatives j row ++ iids (S j) rows'
  end.

Fixpoint labels (j : nat) (rows : Groups) : list Z :=
  match rows with
  | [] => []
  | row :: rows' =>
      replicate (length (positives row)) 1
        ++ replicate (length (negatives j row)) 0
        ++ labels (S j) rows'
  end.

(** The number of rows of the groups from index [j] on. *)
Fixpoint total (j : nat) (rows : Groups) : nat :=
  match rows with
  | [] => 0
  | row :: rows' => (width j row + total (S j) rows')%nat
  end.

(** The breakpoints taken from group [j] on, for [0 < j]: [n] rows are
    written so far, [nx] is the map [next] and [lp] the last breakpoint. *)
Fixpoint breaks (st : Z) (j : nat) (rows : Groups) (n : nat)
    (nx : gmap Z Z) (lp : Z) : gmap Z Z * Z :=
  match rows with
  | [] => (nx, lp)
  | row :: rows' =>
      let n' := (n + width j row)%nat in
      if Z.of_nat j mod st =? 0
      then breaks st (S j) rows' n' (<[lp := Z.of_nat n']> nx) (Z.of_nat n')
      else breaks st (S j) rows' n' nx lp
  end.

(** The cursor at the boundary after the first [k] groups. *)
Definition boundary (rows : Groups) (k : nat) : Z :=
  Z.of_nat (total 0 (take k rows)).

(** The cursor [c] is a breakpoint of the first [j] groups: the boundary
    after a group whose index is a multiple of [st], the first group
    apart. *)
Definition breakpoint (st : Z) (all : Groups) (j : nat) (c : Z) : Prop :=
  exists k, (0 < k < j)%nat /\ Z.of_nat k mod st = 0
            /\ c = boundary all (S k).

(** What holds of the map [next], the last breakpoint [lp] and the cursors
    [cs] taken so far, when the first [j] groups of [all] are done. *)
Definition taken (st : Z) (all : Groups) (j : nat) (nx : gmap Z Z) (lp : Z)
    (cs : list Z) : Prop :=
  chain nx 0 cs
  /\ last (0 :: cs) = Some lp
  /\ lp <= boundary all j
  /\ Forall (fun c => exists k, (k <= length all)%nat
                       /\ c = boundary all k) (0 :: cs)
  /\ (forall k, (0 < k < j)%nat -> Z.of_nat k mod st = 0 ->
        boundary all (S k) ∈ 0 :: cs)
  /\ Forall (breakpoint st all j) cs.


(** The table of the whole pass. *)
Definition frame (uid_field iid_field label_field : string) (rows : Groups)
  : DataFrame :=
  Pd.of_arrays [(uid_field, uids 0 rows); (iid_field, iids 0 rows);
                (label_field, labels 0 rows)].

(** The map [next] once the pass over a table with a first group is over. *)
Definition next_map (st : Z) (rows : Groups) : gmap Z Z :=
  match rows with
  | [] => ∅
  | row :: rows' =>
      let b := breaks st 1 rows' (width 0 row) ∅ 0 in
      <[b.2 := Z.of_nat (total 0 rows)]> b.1
  end.

End Groups.

End Expected.

(** * The configurations that the constructors refuse *)

Module Checks.

(** The configurations that the spec lists as invalid. *)
Definition listed_interaction (dl_format : string) (nsa : NegSampleArgs)
  : Prop :=
  dl_format ∉ ["pointwise"; "pairwise"]
  \/ strategy nsa ∉ ["by"; "to"]
  \/ (dl_format = "pairwise" /\ by_ nsa <> 1).

Definition listed_grouped (dl_format : string) (nsa : NegSampleArgs) : Prop :=
  dl_format ∉ ["pointwise"; "pairwise"]
  \/ strategy nsa ∉ ["by"; "to"]
  \/ dl_format = "pairwise".

(** The configurations that the checks of the two constructors refuse:
    each loader takes its own strategy only. *)
Definition refused_interaction (dl_format : string) (nsa : NegSampleArgs)
  : Prop :=
  strategy nsa <> "by"
  \/ (dl_format = "pairwise" /\ by_ nsa <> 1)
  \/ dl_format ∉ ["pointwise"; "pairwise"].

Definition refused_grouped (dl_format : string) (nsa : NegSampleArgs) : Prop :=
  strategy nsa <> "to"
  \/ dl_format = "pairwise"
  \/ dl_format ∉ ["pointwise"; "pairwise"].

(** The fields that the pairwise constructor declares a negative twin
    for. *)
Definition negative_columns (cfg : Config) (d : Dataset.t) : list string :=
  match Dataset.item_feat d with
  | None => [ITEM_ID_FIELD cfg]
  | Some item_feat => (columns item_feat).*1
  end.

(** The field [c] is declared in the three registries of [d]. *)
Definition declared (d : Dataset.t) (c : string) : Prop :=
  is_Some (Dataset.field2type d !! c)
  /\ is_Some (Dataset.field2source d !! c)
  /\ is_Some (Dataset.field2seqlen d !! c).

End Checks.

(** * The other methods of the Interaction container *)

Module InteractionMethods.

(** What indexing a tensor gives: an integer index takes one dimension
    away, so that a one-dimensional tensor gives a tensor without
    dimension. *)
Inductive item : Type :=
| Scalar (dt : dtype) (z : Z)
| Sub (t : tensor).

(** The index of [self[index]] when it is no field name: an integer, or a
    range [a:b] with both bounds. *)
Inductive index : Type :=
| At (i : Z)
| Range (a b : Z).

Definition out_of_bounds : exn := IndexError "index out of bounds".

(** [l[i]] on the first dimension: a negative [i] counts from the end. *)
Definition nth_item {A} (l : list A) (i : Z) : result A :=
  let n := Z.of_nat (length l) in
  if (i <? - n) || (n <=? i) then Raise out_of_bounds
  else
    match l !! Z.to_nat (if i <? 0 then n + i else i) with
    | Some x => Ok x
    | None => Raise out_of_bounds
    end.

(** [t[index]]. *)
Definition tensor_getitem (t : tensor) (ix : index) : result item :=
  match t, ix with
  | Tensor1 dt data, At i => z <~ nth_item data i ;; Ok (Scalar dt z)
  | Tensor2 dt data, At i => r <~ nth_item data i ;; Ok (Sub (Tensor1 dt r))
  | Tensor1 dt data, Range a b =>
      Ok (Sub (Tensor1 dt
                 (slice data (bound (length data) a) (bound (length data) b))))
  | Tensor2 dt data, Range a b =>
      Ok (Sub (Tensor2 dt
                 (slice data (bound (length data) a) (bound (length data) b))))
  end.

(** [x.shape[0]]: a tensor without dimension has an empty shape. *)
Definition item_shape0 (x : item) : result nat :=
  match x with
  | Scalar _ _ => Raise (IndexError "tuple index out of range")
  | Sub t => Ok (Torch.shape0 t)
  end.

(** The loop [for k in self.interaction: ret[k] = self.interaction[k][index]]. *)
Fixpoint index_fields (d : dict tensor) (ix : index) : result (dict item) :=
  match d with
  | [] => Ok []
  | (k, t) :: d' =>
      x <~ tensor_getitem t ix ;;
      ret <~ index_fields d' ix ;;
      Ok ((k, x) :: ret)
  end.

(** [Interaction(ret)] for the fields that indexing gives: the fields and
    the length attribute of the new container. *)
Definition of_items (ret : dict item) : result (dict item * option nat) :=
  match ret with
  | [] => Ok (ret, None)
  | (k, x) :: _ => n <~ item_shape0 x ;; Ok (ret, Some n)
  end.

(** [self[index]] for an index that is no field name. *)
Definition __getitem__ (self : Interaction.t) (ix : index)
  : result (dict item * option nat) :=
  ret <~ index_fields (Interaction.interaction self) ix ;;
  of_items ret.

(** The tensors of one dimension. *)
Definition one_dimensional (t : tensor) : Prop :=
  match t with Tensor1 _ _ => True | Tensor2 _ _ => False end.

(** The tuple [sizes] of [repeat]: one or two counts; more would give
    tensors of more than two dimensions. *)
Inductive sizes : Type :=
| Sizes1 (k : nat)
| Sizes2 (k m : nat).

Inductive torch_error : Type :=
| RuntimeError (msg : string).

(** [k] copies of [l], end to end. *)
Definition tile {A} (k : nat) (l : list A) : list A := mjoin (replicate k l).

(** [t.repeat(sizes)]: the tensor is tiled along each dimension; there may
    not be fewer sizes than dimensions. *)
Definition tensor_repeat (t : tensor) (s : sizes) : torch_error + tensor :=
  match t, s with
  | Tensor1 dt data, Sizes1 k => inr (Tensor1 dt (tile k data))
  | Tensor1 dt data, Sizes2 k m => inr (Tensor2 dt (replicate k (tile m data)))
  | Tensor2 dt data, Sizes1 _ =>
      inl (RuntimeError
             "Number of dimensions of repeat dims can not be smaller than number of dimensions of tensor")
  | Tensor2 dt data, Sizes2 k m => inr (Tensor2 dt (tile k (tile m <$> data)))
  end.

Fixpoint repeat_fields (d : dict tensor) (s : sizes)
  : torch_error + dict tensor :=
  match d with
  | [] => inr []
  | (k, t) :: d' =>
      match tensor_repeat t s with
      | inl e => inl e
      | inr t' =>
          match repeat_fields d' s with
          | inl e => inl e
          | inr ret => inr ((k, t') :: ret)
          end
      end
  end.

Definition repeat (self : Interaction.t) (s : sizes)
  : torch_error + Interaction.t :=
  match repeat_fields (Interaction.interaction self) s with
  | inl e => inl e
  | inr ret => inr (Interaction.__init__ ret)
  end.

(** The entries of a tensor in row order. *)
Definition entries (t : tensor) : list Z :=
  match t with
  | Tensor1 _ data => data
  | Tensor2 _ data => mjoin data
  end.

Definition tensor_dtype (t : tensor) : dtype :=
  match t with
  | Tensor1 dt _ => dt
  | Tensor2 dt _ => dt
  end.

(** [t.repeat_interleave(repeats)] without a dimension: the tensor is
    flattened and every entry comes [repeats] times in a row. *)
Definition repeat_interleave (repeats : nat) (t : tensor) : tensor :=
  Tensor1 (tensor_dtype t) (entries t ≫= replicate repeats).

(** [to(device)] moves a tensor and leaves its values as they are. *)
Definition to_device_repeat_interleave (self : Interaction.t) (repeats : nat)
  : Interaction.t :=
  Interaction.__init__
    ((fun kv : string * tensor => (kv.1, repeat_interleave repeats kv.2))
       <$> Interaction.interaction self).

End InteractionMethods.

(** * Iterating over the interaction-based loader *)

Module InteractionBasedIteration.

Definition __next__ : M Interaction.t :=
  AbstractDataLoader.__next__ GeneralInteractionBasedDataLoader.pr_end
    GeneralInteractionBasedDataLoader._shuffle
    GeneralInteractionBasedDataLoader._next_dataframe.

Definition pass (fuel : nat) (s : Loader)
  : option (Loader * result (list DataFrame)) :=
  AbstractDataLoader.pass GeneralInteractionBasedDataLoader.pr_end
    GeneralInteractionBasedDataLoader._shuffle
    GeneralInteractionBasedDataLoader._next_dataframe fuel s.

End InteractionBasedIteration.

(** * What a pass with a fixed stride is expected to fetch *)

Module Strides.



End Strides.

(** * Tables of numbers

    What the conversion of a table is expected to give for the columns
    that hold whole numbers and are declared [token] or [float]. *)

Module Flat.

Definition numbers (cs : list cell) : list Z :=
  (fun c => match c with CInt z => z | _ => 0 end) <$> cs.

Definition dtype_of (reg : gmap string string) (k : string) : dtype :=
  if decide (reg !! k = Some "token") then Long else Float.

(** What a tensor of type [dt] holds for a whole number that it takes:
    the number itself in a [LongTensor], the nearest [float32] in a
    [FloatTensor]. *)
Definition stored (dt : dtype) (z : Z) : Z :=
  match dt with Long => z | Float => Torch.float32 z end.

(** The whole numbers that a tensor of type [dt] takes: the [int64]
    values for a [LongTensor], those up to [2 ** 53] for a
    [FloatTensor]. *)
Definition taken (dt : dtype) (z : Z) : Prop :=
  match dt with
  | Long => Np.int64 z
  | Float => Z.abs z <= 9007199254740992
  end.

Definition converted (reg : gmap string string) (cols : dict (list cell))
  : dict tensor :=
  (fun kv : string * list cell =>
     (kv.1, Tensor1 (dtype_of reg kv.1)
              (stored (dtype_of reg kv.1) <$> numbers kv.2))) <$> cols.

(** A column of whole numbers whose field is declared [token] or [float]
    and whose numbers the tensor of that type takes. *)
Definition flat (reg : gmap string string) (kv : string * list cell) : Prop :=
  (reg !! kv.1 = Some "token" \/ reg !! kv.1 = Some "float")
  /\ Forall (fun c => exists z, c = CInt z /\ taken (dtype_of reg kv.1) z)
       kv.2.

(** The four declared types that the conversion knows. *)
Definition known_types : list string :=
  ["token"; "float"; "token_seq"; "float_seq"].

End Flat.

(** * Methods that do not read an attribute

    [respects f m]: running the method [m] after the assignment [f] gives
    the outcome of [m], and the loader that [m] leaves with [f] applied. *)

Module Independence.

Definition respects {A} (f : Loader -> Loader) (m : M A) : Prop :=
  forall s, m (f s) = (f (m s).1, (m s).2).

End Independence.


(** * Properties *)

(** ** Changing the batch size *)

Lemma set_batch_size_idle (self : Loader) (n : Z) :
  pr self = 0 ->
  AbstractDataLoader.set_batch_size n self =
    (if decide (batch_size self = n) then self else set_batch_size_attr n self,
     Ok tt).
Proof.
  intros Hpr. unfold AbstractDataLoader.set_batch_size, mbind', gets.
  rewrite Hpr. simpl.
  destruct (Z.eqb_spec (batch_size self) n) as [Heq | Hne]; simpl.
  - destruct (decide (batch_size self = n)); [reflexivity | contradiction].
  - destruct (decide (batch_size self = n)); [contradiction | reflexivity].
Qed.

Lemma set_batch_size_busy (self : Loader) (n : Z) :
  pr self <> 0 ->
  AbstractDataLoader.set_batch_size n self = (self, Raise AbstractDataLoader.busy).
Proof.
  intros Hpr. unfold AbstractDataLoader.set_batch_size, mbind', gets.
  apply Z.eqb_neq in Hpr. rewrite Hpr. reflexivity.
Qed.

(** C8: [set_batch_size] raises whenever the cursor [pr] is not zero,
    whatever value is passed, and leaves the loader as it was; at [pr = 0]
    the current value changes nothing, and another value becomes the batch
    size. *)
Theorem set_batch_size_spec (self : Loader) (n : Z) :
  (pr self <> 0 ->
     AbstractDataLoader.set_batch_size n self = (self, Raise AbstractDataLoader.busy)
     /\ AbstractDataLoader.set_batch_size (batch_size self) self
          = (self, Raise AbstractDataLoader.busy))
  /\ (pr self = 0 ->
        AbstractDataLoader.set_batch_size (batch_size self) self
          = (self, Ok tt))
  /\ (pr self = 0 -> n <> batch_size self ->
        AbstractDataLoader.set_batch_size n self
          = (set_batch_size_attr n self, Ok tt)
        /\ batch_size (set_batch_size_attr n self) = n).
Proof.
  split; [| split].
  - intros Hpr. split; apply set_batch_size_busy; assumption.
  - intros Hpr. rewrite set_batch_size_idle by assumption.
    destruct (decide (batch_size self = batch_size self)); congruence.
  - intros Hpr Hn. rewrite set_batch_size_idle by assumption.
    destruct (decide (batch_size self = n)); [congruence |].
    split; reflexivity.
Qed.

Lemma set_batch_size_spec_witness :
  AbstractDataLoader.set_batch_size 5 (set_pr 3 (new (Sample.data None)))
    = (set_pr 3 (new (Sample.data None)), Raise AbstractDataLoader.busy)
  /\ AbstractDataLoader.set_batch_size 1 (new (Sample.data None))
       = (new (Sample.data None), Ok tt)
  /\ batch_size
       (AbstractDataLoader.set_batch_size 5 (new (Sample.data None))).1 = 5.
Proof.
  split; [| split].
  - apply (set_batch_size_spec (set_pr 3 (new (Sample.data None))) 5).
    simpl. lia.
  - apply (set_batch_size_spec (new (Sample.data None)) 5). reflexivity.
  - destruct (set_batch_size_spec (new (Sample.data None)) 5)
      as (_ & _ & H).
    destruct H as [H _]; [reflexivity | simpl; lia |].
    rewrite H. reflexivity.
Defined.

(** ** Batch-size adaptation *)

(** C5: the grouped loader sets [step = floor(batch_size / to) + 1] and the
    batch size to [step * to], where a configured [to = -1] is first
    replaced by the dataset's item count. *)
Theorem grouped_batch_size_adaptation (self : Loader) (to' : Z) :
  pr self = 0 ->
  to' = (if to_ (neg_sample_args self) =? -1
         then Dataset.item_num (dataset self)
         else to_ (neg_sample_args self)) ->
  to' <> 0 ->
  exists self',
    GeneralGroupedDataLoader._batch_size_adaptation self = (self', Ok tt)
    /\ to_ (neg_sample_args self') = to'
    /\ step self' = Some (batch_size self / to' + 1)
    /\ batch_size self' = (batch_size self / to' + 1) * to'.
Proof.
  intros Hpr -> Hto.
  unfold GeneralGroupedDataLoader._batch_size_adaptation, mbind', gets,
    modify, lift, floordiv.
  destruct (to_ (neg_sample_args self) =? -1) eqn:Hfull; simpl;
    apply Z.eqb_neq in Hto; rewrite Hto; simpl;
    rewrite set_batch_size_idle by (simpl; assumption); simpl;
    eexists; (split; [reflexivity |]);
    match goal with
    | |- context [decide (?a = ?b)] => destruct (decide (a = b)) as [E | E]
    end; simpl; auto.
Qed.

Lemma grouped_batch_size_adaptation_witness :
  exists self',
    GeneralGroupedDataLoader._batch_size_adaptation
      (set_neg_sample_args (Sample.to_args (-1) true)
         (set_batch_size_attr 120 (new (Sample.data None))))
      = (self', Ok tt)
    /\ to_ (neg_sample_args self') = 50
    /\ step self' = Some 3
    /\ batch_size self' = 150.
Proof.
  apply (grouped_batch_size_adaptation
           (set_neg_sample_args (Sample.to_args (-1) true)
              (set_batch_size_attr 120 (new (Sample.data None)))) 50);
    [reflexivity | reflexivity | lia].
Defined.

(** C1, as the code has it: in pointwise format, with [times = 1 + by] and
    [batch_num = floor(batch_size / times)], the batch size becomes
    [(batch_num + 1) * times], and [step] is [batch_num + 1] when sampling
    is real-time and the new batch size otherwise; in pairwise format
    [step] is the batch size, which stays. *)
Theorem interaction_batch_size_adaptation (self : Loader) :
  pr self = 0 ->
  (dl_format self = "pairwise" ->
     GeneralInteractionBasedDataLoader._batch_size_adaptation self
       = (set_step (batch_size self) self, Ok tt))
  /\ (forall k : Z,
        dl_format self <> "pairwise" ->
        neg_sample_by self = Some k ->
        1 + k <> 0 ->
        let times' := 1 + k in
        let batch_num := batch_size self / times' in
        exists self',
          GeneralInteractionBasedDataLoader._batch_size_adaptation self
            = (self', Ok tt)
          /\ times self' = Some times'
          /\ batch_size self' = (batch_num + 1) * times'
          /\ step self' =
               Some (if real_time_neg_sampling self then batch_num + 1
                     else (batch_num + 1) * times')).
Proof.
  intros Hpr. split.
  - intros Hfmt.
    unfold GeneralInteractionBasedDataLoader._batch_size_adaptation, mbind',
      gets, modify.
    rewrite Hfmt. reflexivity.
  - intros k Hfmt Hby Hk times' batch_num.
    unfold GeneralInteractionBasedDataLoader._batch_size_adaptation, mbind',
      gets, modify, getattr, lift, floordiv.
    destruct (decide (dl_format self = "pairwise")); [contradiction |].
    rewrite Hby. simpl.
    apply Z.eqb_neq in Hk. rewrite Hk. simpl.
    rewrite set_batch_size_idle by (simpl; assumption). simpl.
    eexists; split; [reflexivity |].
    fold times' batch_num.
    destruct (decide (batch_size self = (batch_num + 1) * times'))
      as [E | E]; simpl; auto.
Qed.

Lemma interaction_batch_size_adaptation_witness :
  step (GeneralInteractionBasedDataLoader._batch_size_adaptation
          (set_neg_sample_by 2
             (set_batch_size_attr 9 (new (Sample.data None))))).1
    = Some 12.
Proof.
  destruct (interaction_batch_size_adaptation
              (set_neg_sample_by 2
                 (set_batch_size_attr 9 (new (Sample.data None)))))
    as [_ H]; [reflexivity |].
  destruct (H 2) as (self' & E & _ & _ & Hs);
    [simpl; congruence | reflexivity | lia |].
  rewrite E. simpl. rewrite Hs. reflexivity.
Defined.

(** C1 as stated fails: for [by = 2] and a requested batch size of nine the
    constructed loader has [times = 3], but its [step] is not three and its
    batch size is twelve. *)
Lemma interaction_batch_size_adaptation_counterexample :
  let self := (Sample.pointwise_loader true).1 in
  (Sample.pointwise_loader true).2 = Ok tt
  /\ times self = Some 3
  /\ ~ (step self = Some (9 / 3) /\ batch_size self = 9)
  /\ step self = Some 4
  /\ batch_size self = 12.
Proof.
  vm_compute. repeat split; try reflexivity.
  intros [H _]. discriminate H.
Qed.

(** ** Ordered dicts *)

Section Dict.

Context {V : Type}.
Implicit Types (d : list (string * V)) (k : string) (v : V).

Lemma dict_get_set d k k' v :
  dict_get (dict_set d k v) k' =
    if decide (k = k') then Some v else dict_get d k'.
Proof.
  induction d as [| [k0 v0] d IH]; simpl.
  - reflexivity.
  - destruct (decide (k0 = k)) as [-> | Hne]; simpl.
    + destruct (decide (k = k')); reflexivity.
    + rewrite IH.
      destruct (decide (k0 = k')) as [-> | ?]; [| reflexivity].
      destruct (decide (k = k')); congruence.
Qed.

Lemma dict_get_None d k : k ∉ d.*1 -> dict_get d k = None.
Proof.
  induction d as [| [k0 v0] d IH]; simpl; [reflexivity |].
  intros Hk. apply not_elem_of_cons in Hk as [Hne Hk].
  destruct (decide (k0 = k)); [congruence | auto].
Qed.

Lemma dict_set_keys d k v k' : k' ∈ (dict_set d k v).*1 <-> k' = k \/ k' ∈ d.*1.
Proof.
  induction d as [| [k0 v0] d IH]; simpl.
  - rewrite list_elem_of_singleton, elem_of_nil. tauto.
  - destruct (decide (k0 = k)) as [-> | Hne]; simpl.
    + rewrite !elem_of_cons. tauto.
    + rewrite !elem_of_cons, IH. tauto.
Qed.

(** Assigning the entries of [l] in turn: a key of [l] takes its value
    from [l], any other key keeps its own. *)
Lemma dict_get_assign l d k :
  NoDup l.*1 ->
  dict_get (foldl (fun d (kv : string * V) => dict_set d kv.1 kv.2) d l) k =
    match dict_get l k with
    | Some v => Some v
    | None => dict_get d k
    end.
Proof.
  revert d. induction l as [| [k0 v0] l IH]; intros d Hnd; simpl.
  - reflexivity.
  - apply NoDup_cons in Hnd as [Hk0 Hnd].
    rewrite IH by assumption. rewrite dict_get_set.
    destruct (decide (k0 = k)) as [-> | Hne]; [| reflexivity].
    rewrite dict_get_None by assumption. reflexivity.
Qed.

Lemma dict_literal_keys (l : list (string * V)) k :
  k ∈ l.*1 -> k ∈ dict_keys (dict_literal l).
Proof.
  unfold dict_literal, dict_keys.
  assert (H : forall d, k ∈ d.*1 \/ k ∈ l.*1 ->
            k ∈ (foldl (fun d (kv : string * V) => dict_set d kv.1 kv.2) d l).*1).
  { induction l as [| [k0 v0] l IH]; intros d [Hd | Hl]; simpl.
    - assumption.
    - inversion Hl.
    - apply IH. left. apply dict_set_keys. auto.
    - apply elem_of_cons in Hl as [-> | Hl].
      + apply IH. left. apply dict_set_keys. auto.
      + apply IH. auto. }
  intros Hk. apply H. auto.
Qed.

End Dict.

(** ** The Interaction container *)

(** C10: the length reported is the first-dimension length of the first
    field, taken at construction, hence the common length when all fields
    agree; [update] overwrites the fields of the other container, keeps the
    rest, and leaves the reported length as it was. *)
Theorem interaction_length_update (k0 : string) (v0 : tensor)
    (rest : list (string * tensor)) (other : Interaction.t) :
  NoDup (Interaction.interaction other).*1 ->
  let self := Interaction.__init__ ((k0, v0) :: rest) in
  Interaction.__len__ self = Ok (Torch.shape0 v0)
  /\ (forall L : nat,
        Forall (fun kv : string * tensor => Torch.shape0 kv.2 = L)
               ((k0, v0) :: rest) ->
        Interaction.__len__ self = Ok L)
  /\ (forall k v,
        dict_get (Interaction.interaction other) k = Some v ->
        dict_get (Interaction.interaction (Interaction.update self other)) k
          = Some v)
  /\ (forall k,
        dict_get (Interaction.interaction other) k = None ->
        dict_get (Interaction.interaction (Interaction.update self other)) k
          = dict_get (Interaction.interaction self) k)
  /\ Interaction.__len__ (Interaction.update self other)
       = Ok (Torch.shape0 v0).
Proof.
  intros Hnd self. repeat split.
  - intros L HL. apply Forall_cons in HL as [HL _]. simpl in HL.
    unfold self, Interaction.__len__. simpl. congruence.
  - intros k v Hk. unfold Interaction.update. simpl.
    rewrite dict_get_assign by assumption. rewrite Hk. reflexivity.
  - intros k Hk. unfold Interaction.update. simpl.
    rewrite dict_get_assign by assumption. rewrite Hk. reflexivity.
Qed.

Lemma interaction_length_update_witness :
  let self :=
    Interaction.__init__
      [("user_id", Tensor1 Long [1; 2; 3]); ("item_id", Tensor1 Long [7; 8; 9])] in
  let other := Interaction.__init__ [("user_id", Tensor1 Long [5])] in
  Interaction.__len__ self = Ok 3%nat
  /\ Interaction.__getitem__ (Interaction.update self other) "user_id"
       = Ok (Tensor1 Long [5])
  /\ Interaction.__len__ (Interaction.update self other) = Ok 3%nat.
Proof.
  intros self other.
  destruct (interaction_length_update "user_id" (Tensor1 Long [1; 2; 3])
              [("item_id", Tensor1 Long [7; 8; 9])] other)
    as (H1 & _ & H2 & _ & H3).
  - simpl. apply NoDup_singleton.
  - split; [exact H1 | split; [| exact H3]].
    unfold Interaction.__getitem__, getitem.
    fold self in H2. rewrite (H2 "user_id" (Tensor1 Long [5])); reflexivity.
Defined.

(** ** Conversion of a table to an Interaction *)

(** Once the variable [data] holds the list of cut rows, the assignment to
    [data[k]] raises: no turn of the loop on a sequence field ends well. *)
Lemma convert_field_seq_raises (self : Loader) data k ty :
  Dataset.field2type (dataset self) !! k = Some ty ->
  is_seq_type ty ->
  exists e, AbstractDataLoader.convert_field self data k = Raise e.
Proof.
  intros Hty Hseq. unfold AbstractDataLoader.convert_field,
    AbstractDataLoader.registry at 1.
  rewrite Hty. simpl.
  destruct Hseq as [-> | ->]; simpl.
  - destruct (AbstractDataLoader.data_get data k) as [v | e]; simpl; [| eauto].
    destruct (AbstractDataLoader.cut _ _ _ _) as [l | e]; simpl; [| eauto].
    destruct (Torch.pad_sequence l) as [p | e]; simpl; eauto.
  - destruct (AbstractDataLoader.data_get data k) as [v | e]; simpl; [| eauto].
    destruct (AbstractDataLoader.cut _ _ _ _) as [l | e]; simpl; [| eauto].
    destruct (Torch.pad_sequence l) as [p | e]; simpl; eauto.
Qed.

Lemma convert_fields_seq_raises (self : Loader) ks data k ty :
  k ∈ ks ->
  Dataset.field2type (dataset self) !! k = Some ty ->
  is_seq_type ty ->
  exists e, AbstractDataLoader.convert_fields self data ks = Raise e.
Proof.
  intros Hk Hty Hseq. revert data.
  induction ks as [| k' ks IH]; intros data; [inversion Hk |].
  simpl.
  destruct (AbstractDataLoader.convert_field self data k') as [data' | e] eqn:E;
    simpl; [| eauto].
  apply elem_of_cons in Hk as [<- | Hk].
  - destruct (convert_field_seq_raises self data k ty Hty Hseq) as [e He].
    congruence.
  - apply IH. assumption.
Qed.

(** No table with a sequence field is converted. *)
Lemma dataframe_to_interaction_seq_raises (self : Loader) (df : DataFrame) k ty :
  k ∈ (columns df).*1 ->
  Dataset.field2type (dataset self) !! k = Some ty ->
  is_seq_type ty ->
  exists e, AbstractDataLoader._dataframe_to_interaction self df = Raise e.
Proof.
  intros Hk Hty Hseq. unfold AbstractDataLoader._dataframe_to_interaction.
  destruct (convert_fields_seq_raises self
              (dict_keys (AbstractDataLoader.to_dict df))
              (AbstractDataLoader.DDict (AbstractDataLoader.to_dict df))
              k ty) as [e He]; try assumption.
  - apply dict_literal_keys.
    rewrite <- list_fmap_compose.
    apply list_elem_of_fmap. apply list_elem_of_fmap in Hk as (kv & -> & Hkv).
    exists kv. split; [reflexivity | assumption].
  - rewrite He. eauto.
Qed.

(** A table of [token] and [float] fields is converted field by field. *)
Lemma dataframe_to_interaction_flat :
  AbstractDataLoader._dataframe_to_interaction
    (Sample.pairwise_loader true).1
    {| nrows := 2;
       columns := [("item_id", [CInt 10; CInt 20]);
                   ("price", [CInt 5; CInt 6])] |}
  = Ok (Interaction.__init__
          [("item_id", Tensor1 Long [10; 20]);
           ("price", Tensor1 Float [5; 6])]).
Proof. vm_compute. reflexivity. Qed.

(** A field whose declared type is none of the four raises. *)
Lemma dataframe_to_interaction_illegal :
  AbstractDataLoader._dataframe_to_interaction
    (on_dataset (Dataset.set_type "item_id" "image")
       (Sample.pairwise_loader true).1)
    Sample.inter
  = Raise (ValueError "Illegal ftype [image]").
Proof. vm_compute. reflexivity. Qed.

(** C4 fails on the code: a table with a [token_seq] field, two rows that
    are shorter than the registered [seqlen], is not converted; the
    assignment of the padded rows raises [TypeError]. *)
Theorem dataframe_to_interaction_token_seq :
  AbstractDataLoader._dataframe_to_interaction
    (Sample.pointwise_loader true).1 Sample.seq_table
  = Raise (TypeError "list indices must be integers or slices, not str").
Proof. vm_compute. reflexivity. Qed.

(** ** Writing into a zero-filled buffer *)

Lemma set_slice_scalar_at (P Zs : list Z) (w : nat) (x : Z) :
  (w <= length Zs)%nat ->
  Np.set_slice_scalar (P ++ Zs) (length P) (length P + w) x
    = P ++ replicate w x ++ drop w Zs.
Proof.
  intros Hw. unfold Np.set_slice_scalar, Np.stop, Np.start.
  rewrite length_app.
  replace (length P `min` (length P + length Zs))%nat with (length P) by lia.
  replace (length P `max` ((length P + w) `min` (length P + length Zs)))%nat
    with (length P + w)%nat by lia.
  rewrite take_app_length, drop_app_add'  by reflexivity.
  replace (length P + w - length P)%nat with w by lia.
  reflexivity.
Qed.

Lemma set_slice_at (P Zs vs : list Z) :
  (length vs <= length Zs)%nat ->
  Np.set_slice (P ++ Zs) (length P) (length P + length vs) vs
    = Ok (P ++ vs ++ drop (length vs) Zs).
Proof.
  intros Hw. unfold Np.set_slice, Np.stop, Np.start.
  rewrite length_app.
  replace (length P `min` (length P + length Zs))%nat with (length P) by lia.
  replace (length P `max`
             ((length P + length vs) `min` (length P + length Zs)))%nat
    with (length P + length vs)%nat by lia.
  rewrite take_app_length, drop_app_add' by reflexivity.
  destruct (decide _) as [_ | Hne]; [reflexivity | lia].
Qed.

Lemma drop_zeros (w r : nat) : drop w (replicate r 0) = replicate (r - w) 0.
Proof. apply drop_replicate. Qed.

Lemma to_int64_ok (z : Z) : Np.int64 z -> Np.to_int64 z = Ok z.
Proof.
  intros Hz. unfold Np.to_int64.
  destruct (decide (Np.int64 z)); [reflexivity | contradiction].
Qed.

Lemma to_int64s_ok (zs : list Z) :
  Forall Np.int64 zs -> Np.to_int64s zs = Ok zs.
Proof.
  induction 1 as [| z zs Hz _ IH]; [reflexivity |].
  simpl. rewrite (to_int64_ok z Hz), IH. reflexivity.
Qed.

Lemma int64_one : Np.int64 1.
Proof. unfold Np.int64. lia. Qed.

(** ** The three buffers of the grouped sampling *)

Section Buffers.

Variables u i l : string.
Hypothesis Hui : u <> i.
Hypothesis Hul : u <> l.
Hypothesis Hil : i <> l.

Lemma buffers_literal (a b c : list Z) :
  dict_literal [(u, a); (i, b); (l, c)] = [(u, a); (i, b); (l, c)].
Proof.
  unfold dict_literal. simpl.
  repeat (destruct (decide _); try congruence; simpl); reflexivity.
Qed.

Lemma fill_uid (a b c : list Z) lo hi x :
  Np.int64 x ->
  GeneralGroupedDataLoader.fill u lo hi x [(u, a); (i, b); (l, c)]
    = Ok [(u, Np.set_slice_scalar a lo hi x); (i, b); (l, c)].
Proof.
  intros Hx. unfold GeneralGroupedDataLoader.fill, getitem.
  rewrite (to_int64_ok x Hx). simpl.
  repeat (destruct (decide _); try congruence; simpl); reflexivity.
Qed.

Lemma fill_label (a b c : list Z) lo hi x :
  Np.int64 x ->
  GeneralGroupedDataLoader.fill l lo hi x [(u, a); (i, b); (l, c)]
    = Ok [(u, a); (i, b); (l, Np.set_slice_scalar c lo hi x)].
Proof.
  intros Hx. unfold GeneralGroupedDataLoader.fill, getitem.
  rewrite (to_int64_ok x Hx). simpl.
  repeat (destruct (decide _); try congruence; simpl); reflexivity.
Qed.

Lemma write_iid (a b b' c : list Z) lo hi vs :
  Forall Np.int64 vs ->
  Np.set_slice b lo hi vs = Ok b' ->
  GeneralGroupedDataLoader.write i lo hi vs [(u, a); (i, b); (l, c)]
    = Ok [(u, a); (i, b'); (l, c)].
Proof.
  intros Hvs Hb. unfold GeneralGroupedDataLoader.write, getitem.
  rewrite (to_int64s_ok vs Hvs). simpl.
  repeat (destruct (decide _); try congruence; simpl).
  rewrite Hb. simpl.
  repeat (destruct (decide _); try congruence; simpl); reflexivity.
Qed.

Lemma cut_uid (a b c : list Z) (n : nat) :
  GeneralGroupedDataLoader.cut_field n [(u, a); (i, b); (l, c)] u
    = Ok [(u, take n a); (i, b); (l, c)].
Proof.
  unfold GeneralGroupedDataLoader.cut_field, getitem. simpl.
  repeat (destruct (decide _); try congruence; simpl); reflexivity.
Qed.

Lemma cut_iid (a b c : list Z) (n : nat) :
  GeneralGroupedDataLoader.cut_field n [(u, a); (i, b); (l, c)] i
    = Ok [(u, a); (i, take n b); (l, c)].
Proof.
  unfold GeneralGroupedDataLoader.cut_field, getitem. simpl.
  repeat (destruct (decide _); try congruence; simpl); reflexivity.
Qed.

Lemma cut_label (a b c : list Z) (n : nat) :
  GeneralGroupedDataLoader.cut_field n [(u, a); (i, b); (l, c)] l
    = Ok [(u, a); (i, b); (l, take n c)].
Proof.
  unfold GeneralGroupedDataLoader.cut_field, getitem. simpl.
  repeat (destruct (decide _); try congruence; simpl); reflexivity.
Qed.

End Buffers.

Section GroupedLoop.

Variables u i l : string.
Hypothesis Hui : u <> i.
Hypothesis Hul : u <> l.
Hypothesis Hil : i <> l.

(** A group that fits the zeros left in the buffers extends each column by
    its part. *)
Lemma write_group_spec (Pu Pi Pl pos neg : list Z) (r : nat) (uid : Z) :
  length Pi = length Pu ->
  length Pl = length Pu ->
  (length pos + length neg <= r)%nat ->
  Np.int64 uid ->
  Forall Np.int64 pos ->
  Forall Np.int64 neg ->
  GeneralGroupedDataLoader.write_group u i l (length Pu) uid pos neg
    [(u, Pu ++ replicate r 0); (i, Pi ++ replicate r 0);
     (l, Pl ++ replicate r 0)]
  = Ok [(u, (Pu ++ replicate (length pos + length neg) uid)
               ++ replicate (r - (length pos + length neg)) 0);
        (i, (Pi ++ pos ++ neg)
               ++ replicate (r - (length pos + length neg)) 0);
        (l, (Pl ++ replicate (length pos) 1 ++ replicate (length neg) 0)
               ++ replicate (r - (length pos + length neg)) 0)].
Proof.
  intros HPi HPl Hfit Huid Hpos Hneg.
  unfold GeneralGroupedDataLoader.write_group.
  set (p := length pos). set (q := length neg).
  rewrite fill_uid by assumption. simpl.
  replace (Np.set_slice_scalar (Pu ++ replicate r 0) (length Pu)
             (length Pu + p + q) uid)
    with (Pu ++ replicate (p + q) uid ++ replicate (r - (p + q)) 0).
  2:{ rewrite <- Nat.add_assoc, set_slice_scalar_at, drop_zeros;
        [reflexivity | rewrite length_replicate; lia]. }
  erewrite write_iid; try assumption; cycle 1.
  { rewrite <- HPi. apply set_slice_at. rewrite length_replicate. lia. }
  simpl. rewrite drop_zeros. fold p.
  erewrite write_iid; try assumption; cycle 1.
  { rewrite <- HPi.
    replace (Pi ++ pos ++ replicate (r - p) 0)
      with ((Pi ++ pos) ++ replicate (r - p) 0)
      by (rewrite <- app_assoc; reflexivity).
    replace (length Pi + p)%nat with (length (Pi ++ pos))
      by (rewrite length_app; reflexivity).
    apply set_slice_at. rewrite length_replicate. lia. }
  simpl. rewrite drop_zeros. fold q.
  rewrite fill_label by (assumption || apply int64_one).
  rewrite <- HPl.
  rewrite set_slice_scalar_at by (rewrite length_replicate; lia).
  rewrite drop_zeros.
  rewrite <- !app_assoc.
  replace (r - p - q)%nat with (r - (p + q))%nat by lia.
  replace (replicate (r - p) 0)
    with (replicate q 0 ++ replicate (r - (p + q)) 0).
  2:{ rewrite <- replicate_add. f_equal. lia. }
  reflexivity.
Qed.

Variable to : Z.

Lemma uids_length smp ph fl j rows :
  length (Expected.uids smp ph fl to j rows) = Expected.total smp ph fl to j rows.
Proof.
  revert j. induction rows as [| row rows IH]; intros j; simpl; [reflexivity |].
  rewrite length_app, length_replicate, IH. reflexivity.
Qed.

Lemma iids_length smp ph fl j rows :
  length (Expected.iids smp ph fl to j rows) = Expected.total smp ph fl to j rows.
Proof.
  revert j. induction rows as [| row rows IH]; intros j; simpl; [reflexivity |].
  rewrite !length_app, IH. unfold Expected.width. lia.
Qed.

Lemma labels_length smp ph fl j rows :
  length (Expected.labels smp ph fl to j rows) = Expected.total smp ph fl to j rows.
Proof.
  revert j. induction rows as [| row rows IH]; intros j; simpl; [reflexivity |].
  rewrite !length_app, !length_replicate, IH. unfold Expected.width. lia.
Qed.

(** One turn of the loop writes the group and goes on to the breakpoint. *)
Lemma group_body_spec (self : Loader) (fl : bool) (j : nat) (row : Z * list Z)
    (Pu Pi Pl : list Z) (r : nat) (lp : option Z) :
  full self = Some fl ->
  length Pi = length Pu ->
  length Pl = length Pu ->
  let w := Expected.width (sampler self) (phase self) fl to j row in
  let pos := Expected.positives fl to row in
  let neg := Expected.negatives (sampler self) (phase self) fl to j row in
  (w <= r)%nat ->
  Expected.in_range (sampler self) (phase self) fl to j row ->
  GeneralGroupedDataLoader.group_body u i l to j row
    (GeneralGroupedDataLoader.mkLocals
       [(u, Pu ++ replicate r 0); (i, Pi ++ replicate r 0);
        (l, Pl ++ replicate r 0)] (length Pu) lp) self
  = GeneralGroupedDataLoader.take_break j
      (GeneralGroupedDataLoader.mkLocals
         [(u, (Pu ++ replicate w row.1) ++ replicate (r - w) 0);
          (i, (Pi ++ pos ++ neg) ++ replicate (r - w) 0);
          (l, (Pl ++ replicate (length pos) 1 ++ replicate (length neg) 0)
                ++ replicate (r - w) 0)]
         (length Pu + w) lp) self.
Proof.
  intros Hfull HPi HPl w pos neg Hfit (Huid & Hpos & Hneg).
  unfold GeneralGroupedDataLoader.group_body, mbind', getattr, gets, lift.
  rewrite Hfull. simpl.
  pose proof (write_group_spec Pu Pi Pl pos neg r row.1 HPi HPl Hfit
                Huid Hpos Hneg) as H.
  unfold pos, neg, Expected.positives, Expected.negatives in H.
  destruct fl; simpl in H |- *; rewrite H; reflexivity.
Qed.

Lemma take_break_rt (self : Loader) j lc :
  real_time_neg_sampling self = true ->
  GeneralGroupedDataLoader.take_break j lc self = (self, Ok lc).
Proof.
  intros Hrt. unfold GeneralGroupedDataLoader.take_break, mbind', gets.
  rewrite Hrt. reflexivity.
Qed.

Lemma take_break_first (self : Loader) st d n lp :
  real_time_neg_sampling self = false ->
  step self = Some st ->
  st <> 0 ->
  GeneralGroupedDataLoader.take_break 0
    (GeneralGroupedDataLoader.mkLocals d n lp) self
  = (set_next ∅ self, Ok (GeneralGroupedDataLoader.mkLocals d n (Some 0))).
Proof.
  intros Hrt Hst Hnz.
  unfold GeneralGroupedDataLoader.take_break, mbind', gets, getattr, lift,
    mod_.
  rewrite Hrt, Hst. apply Z.eqb_neq in Hnz. rewrite Hnz. reflexivity.
Qed.

Lemma take_break_later (self : Loader) st j d n nx lp :
  real_time_neg_sampling self = false ->
  step self = Some st ->
  st <> 0 ->
  next self = Some nx ->
  GeneralGroupedDataLoader.take_break (S j)
    (GeneralGroupedDataLoader.mkLocals d n (Some lp)) self
  = if Z.of_nat (S j) mod st =? 0
    then (set_next (<[lp := Z.of_nat n]> nx) self,
          Ok (GeneralGroupedDataLoader.mkLocals d n (Some (Z.of_nat n))))
    else (self, Ok (GeneralGroupedDataLoader.mkLocals d n (Some lp))).
Proof.
  intros Hrt Hst Hnz Hnx.
  unfold GeneralGroupedDataLoader.take_break, mbind', gets, getattr, lift,
    mod_.
  rewrite Hrt, Hst. apply Z.eqb_neq in Hnz. rewrite Hnz. simpl.
  destruct (Z.of_nat (S j) mod st =? 0); [| reflexivity].
  rewrite Hnx. reflexivity.
Qed.

Lemma set_next_same (self : Loader) nx :
  next self = Some nx -> set_next nx self = self.
Proof. destruct self; simpl; intros ->; reflexivity. Qed.

(** The loop in real-time mode: the buffers take the rows of the groups,
    and nothing else changes. *)
Lemma groups_loop_rt (self : Loader) (fl : bool) (rows : Groups) :
  real_time_neg_sampling self = true ->
  full self = Some fl ->
  forall (j : nat) (Pu Pi Pl : list Z) (r : nat) (lp : option Z),
    length Pi = length Pu ->
    length Pl = length Pu ->
    let t := Expected.total (sampler self) (phase self) fl to j rows in
    (t <= r)%nat ->
    Expected.ranged (sampler self) (phase self) fl to j rows ->
    GeneralGroupedDataLoader.groups_loop u i l to j rows
      (GeneralGroupedDataLoader.mkLocals
         [(u, Pu ++ replicate r 0); (i, Pi ++ replicate r 0);
          (l, Pl ++ replicate r 0)] (length Pu) lp) self
    = (self,
       Ok (GeneralGroupedDataLoader.mkLocals
             [(u, (Pu ++ Expected.uids (sampler self) (phase self) fl to j rows)
                    ++ replicate (r - t) 0);
              (i, (Pi ++ Expected.iids (sampler self) (phase self) fl to j rows)
                    ++ replicate (r - t) 0);
              (l, (Pl ++ Expected.labels (sampler self) (phase self) fl to j rows)
                    ++ replicate (r - t) 0)]
             (length Pu + t) lp)).
Proof.
  intros Hrt Hfull. induction rows as [| row rows IH];
    intros j Pu Pi Pl r lp HPi HPl t Hfit Hrg; subst t;
    cbn [Expected.ranged] in Hrg; simpl in *.
  - unfold ret. rewrite !app_nil_r, Nat.sub_0_r, Nat.add_0_r. reflexivity.
  - destruct Hrg as [Hin Hrg]. unfold mbind'.
    rewrite (group_body_spec self fl j row Pu Pi Pl r lp Hfull HPi HPl)
      by (lia || exact Hin).
    rewrite take_break_rt by assumption.
    set (w := Expected.width (sampler self) (phase self) fl to j row) in *.
    replace (length Pu + w)%nat with (length (Pu ++ replicate w row.1))
      by (rewrite length_app, length_replicate; reflexivity).
    rewrite IH.
    + rewrite length_app, length_replicate, <- !app_assoc.
      replace (r - w - Expected.total (sampler self) (phase self) fl to (S j) rows)%nat
        with (r - (w + Expected.total (sampler self) (phase self) fl to (S j) rows))%nat
        by lia.
      rewrite Nat.add_assoc. reflexivity.
    + rewrite !length_app, !length_replicate. unfold w, Expected.width. lia.
    + rewrite !length_app, !length_replicate. unfold w, Expected.width. lia.
    + lia.
    + exact Hrg.
Qed.

(** The loop in pre-materialized mode, after the first group: the buffers
    take the rows of the groups and [next] takes the breakpoints. *)
Lemma groups_loop_pre (smp : Sampler) (ph : string) (fl : bool) (st : Z)
    (rows : Groups) :
  st <> 0 ->
  forall (self : Loader) (j : nat) (Pu Pi Pl : list Z) (r : nat)
         (nx : gmap Z Z) (lp : Z),
    sampler self = smp ->
    phase self = ph ->
    real_time_neg_sampling self = false ->
    step self = Some st ->
    full self = Some fl ->
    next self = Some nx ->
    length Pi = length Pu ->
    length Pl = length Pu ->
    let t := Expected.total smp ph fl to (S j) rows in
    let b := Expected.breaks smp ph fl to st (S j) rows (length Pu) nx lp in
    (t <= r)%nat ->
    Expected.ranged smp ph fl to (S j) rows ->
    GeneralGroupedDataLoader.groups_loop u i l to (S j) rows
      (GeneralGroupedDataLoader.mkLocals
         [(u, Pu ++ replicate r 0); (i, Pi ++ replicate r 0);
          (l, Pl ++ replicate r 0)] (length Pu) (Some lp)) self
    = (set_next b.1 self,
       Ok (GeneralGroupedDataLoader.mkLocals
             [(u, (Pu ++ Expected.uids smp ph fl to (S j) rows)
                    ++ replicate (r - t) 0);
              (i, (Pi ++ Expected.iids smp ph fl to (S j) rows)
                    ++ replicate (r - t) 0);
              (l, (Pl ++ Expected.labels smp ph fl to (S j) rows)
                    ++ replicate (r - t) 0)]
             (length Pu + t) (Some b.2))).
Proof.
  intros Hnz. induction rows as [| row rows IH];
    intros self j Pu Pi Pl r nx lp Hsmp Hph Hrt Hst Hfull Hnx HPi HPl t b Hfit
      Hrg;
    subst t b.
  - simpl. unfold ret.
    rewrite !app_nil_r, Nat.sub_0_r, Nat.add_0_r, set_next_same by assumption.
    reflexivity.
  - cbn [GeneralGroupedDataLoader.groups_loop Expected.total Expected.breaks
         Expected.uids Expected.iids Expected.labels Expected.ranged] in *.
    destruct Hrg as [Hin Hrg].
    unfold mbind'.
    rewrite (group_body_spec self fl (S j) row Pu Pi Pl r (Some lp)
               Hfull HPi HPl) by (rewrite Hsmp, Hph; (lia || exact Hin)).
    rewrite (take_break_later self st j _ _ nx lp) by assumption.
    rewrite Hsmp, Hph.
    set (w := Expected.width smp ph fl to (S j) row) in *.
    assert (Hlen : length (Pu ++ replicate w row.1) = (length Pu + w)%nat)
      by (rewrite length_app, length_replicate; reflexivity).
    assert (HPi' : length (Pi ++ Expected.positives fl to row
                              ++ Expected.negatives smp ph fl to (S j) row)
                   = length (Pu ++ replicate w row.1))
      by (rewrite !length_app, !length_replicate; unfold w, Expected.width; lia).
    assert (HPl' : length (Pl ++ replicate (length (Expected.positives fl to row)) 1
                              ++ replicate (length (Expected.negatives smp ph fl to (S j) row)) 0)
                   = length (Pu ++ replicate w row.1))
      by (rewrite !length_app, !length_replicate; unfold w, Expected.width; lia).
    rewrite <- Hlen.
    destruct (Z.of_nat (S j) mod st =? 0).
    + rewrite (IH (set_next _ self) (S j) _ _ _ (r - w)%nat
                 (<[lp := Z.of_nat (length (Pu ++ replicate w row.1))]> nx)
                 (Z.of_nat (length (Pu ++ replicate w row.1))));
        try assumption; try reflexivity; [| lia].
      rewrite Hlen, <- !app_assoc.
      replace (r - w - Expected.total smp ph fl to (S (S j)) rows)%nat
        with (r - (w + Expected.total smp ph fl to (S (S j)) rows))%nat by lia.
      rewrite Nat.add_assoc. reflexivity.
    + rewrite (IH self (S j) _ _ _ (r - w)%nat nx lp);
        try assumption; try reflexivity; [| lia].
      rewrite Hlen, <- !app_assoc.
      replace (r - w - Expected.total smp ph fl to (S (S j)) rows)%nat
        with (r - (w + Expected.total smp ph fl to (S (S j)) rows))%nat by lia.
      rewrite Nat.add_assoc. reflexivity.
Qed.

Lemma zeros_ok (n : nat) (size : Z) :
  Z.of_nat n <= size ->
  Np.zeros size = Ok (replicate (Z.to_nat size) 0).
Proof.
  intros Hn. unfold Np.zeros.
  destruct (Z.ltb_spec size 0); [lia | reflexivity].
Qed.

(** The sampling of a group table in real-time mode. *)
Lemma neg_sampling_rt (self : Loader) (fl : bool) (rows : Groups) :
  USER_ID_FIELD (config self) = u ->
  ITEM_ID_FIELD (config self) = i ->
  LABEL_FIELD (config self) = l ->
  to_ (neg_sample_args self) = to ->
  real_time_neg_sampling self = true ->
  full self = Some fl ->
  Z.of_nat (Expected.total (sampler self) (phase self) fl to 0 rows)
    <= Z.of_nat (length rows) * to ->
  Expected.ranged (sampler self) (phase self) fl to 0 rows ->
  GeneralGroupedDataLoader._neg_sampling rows self
  = (self,
     Ok (Dataset.join (dataset self)
           (Expected.frame (sampler self) (phase self) fl to u i l rows))).
Proof.
  intros Hu Hi Hl Hto Hrt Hfull Hfit Hrg.
  unfold GeneralGroupedDataLoader._neg_sampling, mbind', gets, lift.
  rewrite Hu, Hi, Hl, Hto.
  rewrite (zeros_ok _ _ Hfit).
  rewrite buffers_literal by assumption.
  set (R := Z.to_nat (Z.of_nat (length rows) * to)).
  pose proof (groups_loop_rt self fl rows Hrt Hfull 0 [] [] [] R None
                eq_refl eq_refl) as Hloop.
  simpl in Hloop. rewrite Hloop by (lia || exact Hrg). clear Hloop.
  cbn [GeneralGroupedDataLoader.new_inter GeneralGroupedDataLoader.new_inter_num].
  rewrite cut_uid by assumption. rewrite cut_iid by assumption.
  rewrite cut_label by assumption.
  rewrite Hrt. simpl.
  rewrite !take_app_length'
    by (rewrite ?uids_length, ?iids_length, ?labels_length; reflexivity).
  reflexivity.
Qed.

(** The sampling of a group table with a first group in pre-materialized
    mode. *)
Lemma neg_sampling_pre (self : Loader) (fl : bool) (st : Z)
    (row : Z * list Z) (rows : Groups) :
  USER_ID_FIELD (config self) = u ->
  ITEM_ID_FIELD (config self) = i ->
  LABEL_FIELD (config self) = l ->
  to_ (neg_sample_args self) = to ->
  real_time_neg_sampling self = false ->
  step self = Some st ->
  st <> 0 ->
  full self = Some fl ->
  Z.of_nat (Expected.total (sampler self) (phase self) fl to 0 (row :: rows))
    <= Z.of_nat (length (row :: rows)) * to ->
  Expected.ranged (sampler self) (phase self) fl to 0 (row :: rows) ->
  GeneralGroupedDataLoader._neg_sampling (row :: rows) self
  = (set_next
       (Expected.next_map (sampler self) (phase self) fl to st (row :: rows))
       self,
     Ok (Expected.frame (sampler self) (phase self) fl to u i l (row :: rows))).
Proof.
  intros Hu Hi Hl Hto Hrt Hst Hnz Hfull Hfit [Hin Hrg].
  unfold GeneralGroupedDataLoader._neg_sampling, mbind', gets, lift.
  rewrite Hu, Hi, Hl, Hto.
  rewrite (zeros_ok _ _ Hfit).
  rewrite buffers_literal by assumption.
  set (R := Z.to_nat (Z.of_nat (length (row :: rows)) * to)).
  assert (HR : (Expected.total (sampler self) (phase self) fl to 0 (row :: rows)
                <= R)%nat) by lia.
  cbn [GeneralGroupedDataLoader.groups_loop Expected.total] in *.
  unfold mbind'.
  pose proof (group_body_spec self fl 0 row [] [] [] R None Hfull
                eq_refl eq_refl) as Hbody.
  simpl in Hbody. rewrite Hbody by (lia || exact Hin). clear Hbody.
  rewrite (take_break_first self st) by assumption.
  set (w := Expected.width (sampler self) (phase self) fl to 0 row) in *.
  pose proof (groups_loop_pre (sampler self) (phase self) fl st rows Hnz
                (set_next ∅ self) 0
                (replicate w row.1)
                (Expected.positives fl to row
                   ++ Expected.negatives (sampler self) (phase self) fl to 0 row)
                (replicate (length (Expected.positives fl to row)) 1
                   ++ replicate
                        (length (Expected.negatives (sampler self) (phase self)
                                   fl to 0 row)) 0)
                (R - w)%nat ∅ 0 eq_refl eq_refl Hrt Hst Hfull eq_refl)
    as Hloop.
  rewrite length_replicate in Hloop.
  rewrite Hloop; clear Hloop;
    [| rewrite ?length_app, ?length_replicate; reflexivity
     | rewrite ?length_app, ?length_replicate; reflexivity
     | lia
     | exact Hrg].
  cbn [GeneralGroupedDataLoader.new_inter GeneralGroupedDataLoader.new_inter_num
       GeneralGroupedDataLoader.last_pr].
  rewrite cut_uid by assumption. rewrite cut_iid by assumption.
  rewrite cut_label by assumption.
  cbn [real_time_neg_sampling set_next]. rewrite Hrt.
  unfold getattr, modify, ret. simpl.
  rewrite !take_app_length'
    by (rewrite ?length_app, ?length_replicate,
          ?uids_length, ?iids_length, ?labels_length;
        unfold w, Expected.width; lia).
  unfold Expected.frame, Expected.next_map, Pd.len, Pd.of_arrays. simpl.
  rewrite !length_app, !length_replicate, uids_length.
  rewrite <- !app_assoc.
  reflexivity.
Qed.

End GroupedLoop.

(** ** The rows of one group *)

Section GroupRows.

Variable smp : Sampler.
Variable ph : string.
Variable fl : bool.
Variable to : Z.

Lemma by_groups (G : nat -> Groups -> list Z)
    (F : nat -> Z * list Z -> list Z) :
  (forall j, G j [] = []) ->
  (forall j row rows, G j (row :: rows) = F j row ++ G (S j) rows) ->
  forall rows j, G j rows = mjoin (imap (fun k => F (j + k)%nat) rows).
Proof.
  intros Hnil Hcons. induction rows as [| row rows IH]; intros j.
  - rewrite Hnil. reflexivity.
  - rewrite Hcons, IH. simpl. rewrite Nat.add_0_r. do 2 f_equal.
    apply imap_ext. intros k x _. simpl. f_equal. lia.
Qed.

Lemma uids_by_groups rows :
  Expected.uids smp ph fl to 0 rows
  = mjoin (imap (fun j row => replicate (Expected.width smp ph fl to j row) row.1)
             rows).
Proof.
  apply (by_groups (Expected.uids smp ph fl to)
           (fun j row => replicate (Expected.width smp ph fl to j row) row.1));
    reflexivity.
Qed.

Lemma iids_by_groups rows :
  Expected.iids smp ph fl to 0 rows
  = mjoin (imap (fun j row => Expected.positives fl to row
                                ++ Expected.negatives smp ph fl to j row)
             rows).
Proof.
  apply (by_groups (Expected.iids smp ph fl to)
           (fun j row => Expected.positives fl to row
                           ++ Expected.negatives smp ph fl to j row));
    [reflexivity |].
  intros j row rows'. simpl. rewrite <- app_assoc. reflexivity.
Qed.

Lemma labels_by_groups rows :
  Expected.labels smp ph fl to 0 rows
  = mjoin (imap (fun j row =>
                   replicate (length (Expected.positives fl to row)) 1
                     ++ replicate
                          (length (Expected.negatives smp ph fl to j row)) 0)
             rows).
Proof.
  apply (by_groups (Expected.labels smp ph fl to)
           (fun j row =>
              replicate (length (Expected.positives fl to row)) 1
                ++ replicate (length (Expected.negatives smp ph fl to j row)) 0));
    [reflexivity |].
  intros j row rows'. simpl. rewrite <- app_assoc. reflexivity.
Qed.

(** Groups of at most [W] rows fill at most [W] rows each. *)
Lemma total_le (W : nat) rows :
  forall j,
    (forall k row, rows !! k = Some row ->
                   (Expected.width smp ph fl to (j + k) row <= W)%nat) ->
    (Expected.total smp ph fl to j rows <= length rows * W)%nat.
Proof.
  induction rows as [| row rows IH]; intros j Hw; simpl; [lia |].
  pose proof (Hw 0%nat row eq_refl) as H0. rewrite Nat.add_0_r in H0.
  assert (Expected.total smp ph fl to (S j) rows <= length rows * W)%nat.
  { apply IH. intros k row' Hk.
    replace (S j + k)%nat with (j + S k)%nat by lia. apply Hw. exact Hk. }
  lia.
Qed.

(** Groups whose ids are [int64] values, whatever their place. *)
Lemma ranged_lookup rows :
  forall j,
    (forall k row, rows !! k = Some row ->
                   Expected.in_range smp ph fl to (j + k) row) ->
    Expected.ranged smp ph fl to j rows.
Proof.
  induction rows as [| row rows IH]; intros j Hin; simpl; [exact I |].
  split.
  - pose proof (Hin 0%nat row eq_refl) as H0. rewrite Nat.add_0_r in H0.
    exact H0.
  - apply IH. intros k row' Hk.
    replace (S j + k)%nat with (j + S k)%nat by lia. apply Hin. exact Hk.
Qed.

End GroupRows.

(** In the mode that is not full, a group keeps its first [to - 1]
    positives and is filled up by the sampler. *)
Lemma positives_kept (to : Z) (row : Z * list Z) :
  1 <= to ->
  Expected.positives false to row = take (Z.to_nat (to - 1)) row.2.
Proof.
  intros Hto. unfold Expected.positives, slice_to.
  destruct (Z.ltb_spec (to - 1) 0); [lia | reflexivity].
Qed.

Lemma width_at_most (smp : Sampler) (ph : string) (to : Z) j row :
  1 <= to ->
  (forall j uid k,
     (length (sample_by_user_id smp j ph uid k) <= Z.to_nat k)%nat) ->
  (Expected.width smp ph false to j row <= Z.to_nat to)%nat.
Proof.
  intros Hto Hsmp. unfold Expected.width, Expected.negatives.
  pose proof (Hsmp j row.1
                (to - Z.of_nat (length (Expected.positives false to row)))).
  rewrite positives_kept in * by assumption.
  rewrite length_take in *. lia.
Qed.

(** ** Grouped sampling, group by group *)

(** C3: in the mode that is not full, with a candidate-set size [to] of at
    least one and a sampler that returns at most the number of ids it is
    asked for, every group keeps the first [min(pos_count, to - 1)] of its
    positives, asks the sampler for [to - pos_num] negatives, and gives the
    table its kept positives with label 1 followed by the drawn negatives
    with label 0, all under the user's id: at most [to] rows, and exactly
    [to] when the sampler returns as many ids as asked.  In real-time mode
    the table is handed to the dataset's join.  The ids are [int64]
    values, as the buffers take no others. *)
Theorem grouped_sampling_groups (self : Loader) (rows : Groups) :
  let u := USER_ID_FIELD (config self) in
  let i := ITEM_ID_FIELD (config self) in
  let l := LABEL_FIELD (config self) in
  let to := to_ (neg_sample_args self) in
  let kept (row : Z * list Z) := take (Z.to_nat (to - 1)) row.2 in
  let drawn (j : nat) (row : Z * list Z) :=
    sample_by_user_id (sampler self) j (phase self) row.1
      (to - Z.of_nat (length (kept row))) in
  u <> i -> u <> l -> i <> l ->
  full self = Some false ->
  1 <= to ->
  (forall j uid k,
     (length (sample_by_user_id (sampler self) j (phase self) uid k)
      <= Z.to_nat k)%nat) ->
  (forall j row, rows !! j = Some row ->
     Np.int64 row.1
     /\ Forall Np.int64 row.2
     /\ Forall Np.int64 (drawn j row)) ->
  (real_time_neg_sampling self = false ->
   rows <> [] /\ exists st, step self = Some st /\ st <> 0) ->
  exists self' frame,
    GeneralGroupedDataLoader._neg_sampling rows self
      = (self',
         Ok (if real_time_neg_sampling self
             then Dataset.join (dataset self) frame else frame))
    /\ columns frame =
         [(u, CInt <$> mjoin (imap (fun j row =>
                 replicate (length (kept row ++ drawn j row)) row.1) rows));
          (i, CInt <$> mjoin (imap (fun j row => kept row ++ drawn j row) rows));
          (l, CInt <$> mjoin (imap (fun j row =>
                 replicate (length (kept row)) 1
                   ++ replicate (length (drawn j row)) 0) rows))]
    /\ nrows frame
         = length (mjoin (imap (fun j row => kept row ++ drawn j row) rows))
    /\ (forall row,
          length (kept row) = (length row.2 `min` Z.to_nat (to - 1))%nat)
    /\ (forall j row, (length (kept row ++ drawn j row) <= Z.to_nat to)%nat)
    /\ (forall j row,
          length (drawn j row) = Z.to_nat (to - Z.of_nat (length (kept row))) ->
          length (kept row ++ drawn j row) = Z.to_nat to).
Proof.
  intros u i l to kept drawn Hui Hul Hil Hfull Hto Hsmp Hrange Hpre.
  assert (Hrg : Expected.ranged (sampler self) (phase self) false to 0 rows).
  { apply ranged_lookup. intros k row Hk.
    destruct (Hrange k row Hk) as (H1 & H2 & H3).
    split; [exact H1 | split].
    - rewrite positives_kept by assumption. apply Forall_take. exact H2.
    - unfold Expected.negatives. rewrite positives_kept by assumption.
      exact H3. }
  assert (Hwidth : forall j row,
            Expected.width (sampler self) (phase self) false to j row
            = length (kept row ++ drawn j row)).
  { intros j row. unfold Expected.width, Expected.negatives.
    rewrite positives_kept by assumption. rewrite length_app. reflexivity. }
  assert (Hle : forall j row, (length (kept row ++ drawn j row) <= Z.to_nat to)%nat).
  { intros j row. rewrite <- Hwidth. apply width_at_most; assumption. }
  assert (Hfit : Z.of_nat (Expected.total (sampler self) (phase self) false to 0 rows)
                 <= Z.of_nat (length rows) * to).
  { pose proof (total_le (sampler self) (phase self) false to (Z.to_nat to) rows 0)
      as H.
    assert (Expected.total (sampler self) (phase self) false to 0 rows
            <= length rows * Z.to_nat to)%nat; [| nia].
    apply H. intros k row _. rewrite Hwidth. apply Hle. }
  assert (Hframe :
    columns (Expected.frame (sampler self) (phase self) false to u i l rows) =
      [(u, CInt <$> mjoin (imap (fun j row =>
              replicate (length (kept row ++ drawn j row)) row.1) rows));
       (i, CInt <$> mjoin (imap (fun j row => kept row ++ drawn j row) rows));
       (l, CInt <$> mjoin (imap (fun j row =>
              replicate (length (kept row)) 1
                ++ replicate (length (drawn j row)) 0) rows))]
    /\ nrows (Expected.frame (sampler self) (phase self) false to u i l rows)
       = length (mjoin (imap (fun j row => kept row ++ drawn j row) rows))).
  { unfold Expected.frame, Pd.of_arrays. simpl.
    rewrite uids_length, <- (iids_length to (sampler self) (phase self) false).
    rewrite uids_by_groups, iids_by_groups, labels_by_groups.
    assert (E1 : imap (fun j row =>
                   replicate (Expected.width (sampler self) (phase self) false to j row)
                     row.1) rows
                 = imap (fun j row =>
                     replicate (length (kept row ++ drawn j row)) row.1) rows).
    { apply imap_ext. intros j row _. cbv beta. rewrite Hwidth. reflexivity. }
    assert (E2 : imap (fun j row =>
                   Expected.positives false to row
                     ++ Expected.negatives (sampler self) (phase self) false to j row)
                   rows
                 = imap (fun j row => kept row ++ drawn j row) rows).
    { apply imap_ext. intros j row _. cbv beta. unfold Expected.negatives.
      rewrite positives_kept by assumption. reflexivity. }
    assert (E3 : imap (fun j row =>
                   replicate (length (Expected.positives false to row)) 1
                     ++ replicate
                          (length (Expected.negatives (sampler self) (phase self)
                                     false to j row)) 0) rows
                 = imap (fun j row =>
                     replicate (length (kept row)) 1
                       ++ replicate (length (drawn j row)) 0) rows).
    { apply imap_ext. intros j row _. cbv beta. unfold Expected.negatives.
      rewrite positives_kept by assumption. reflexivity. }
    rewrite E1, E2, E3. split; reflexivity. }
  destruct Hframe as [Hcols Hrows].
  assert (Hrest :
    (forall row, length (kept row) = (length row.2 `min` Z.to_nat (to - 1))%nat)
    /\ (forall j row, (length (kept row ++ drawn j row) <= Z.to_nat to)%nat)
    /\ (forall j row,
          length (drawn j row) = Z.to_nat (to - Z.of_nat (length (kept row))) ->
          length (kept row ++ drawn j row) = Z.to_nat to)).
  { split; [| split].
    - intros row. unfold kept. rewrite length_take. lia.
    - exact Hle.
    - intros j row Hd. rewrite length_app, Hd.
      assert (length (kept row) <= Z.to_nat (to - 1))%nat
        by (unfold kept; rewrite length_take; lia).
      lia. }
  destruct (real_time_neg_sampling self) eqn:Hrt.
  - exists self, (Expected.frame (sampler self) (phase self) false to u i l rows).
    split; [| split; [exact Hcols | split; [exact Hrows | exact Hrest]]].
    apply neg_sampling_rt; auto.
  - destruct (Hpre eq_refl) as (Hne & st & Hst & Hnz).
    destruct rows as [| row rows]; [congruence |].
    eexists _, (Expected.frame (sampler self) (phase self) false to u i l
                  (row :: rows)).
    split; [| split; [exact Hcols | split; [exact Hrows | exact Hrest]]].
    apply (neg_sampling_pre u i l Hui Hul Hil to self false st); auto.
Qed.

(** ** The chain of breakpoints *)





Section Breaks.

Variable smp : Sampler.
Variable ph : string.
Variable fl : bool.
Variable to : Z.
Variable st : Z.





End Breaks.

Section NextMap.

Variable smp : Sampler.
Variable ph : string.
Variable fl : bool.
Variable to : Z.
Variable st : Z.



End NextMap.

(** ** One pass over the pre-materialized table *)


Lemma dict_get_fmap {V W} (f : V -> W) (d : list (string * V)) k :
  dict_get ((fun kv : string * V => (kv.1, f kv.2)) <$> d) k
  = f <$> dict_get d k.
Proof.
  induction d as [| [k0 v0] d IH]; simpl; [reflexivity |].
  destruct (decide (k0 = k)); [reflexivity | exact IH].
Qed.

Lemma bound_nonneg (n : nat) (c : Z) : 0 <= c -> bound n c = Z.to_nat c.
Proof.
  intros Hc. unfold bound. destruct (Z.ltb_spec c 0); [lia | reflexivity].
Qed.













(** Closed statements about ids in range are settled by computation. *)
Ltac in_range :=
  unfold Expected.in_range;
  refine (bool_decide_unpack _ _); vm_compute; exact I.

Lemma grouped_sampling_groups_witness :
  exists self' frame,
    GeneralGroupedDataLoader._neg_sampling Sample.groups
      (Sample.grouped_self true 3)
    = (self', Ok (Dataset.join (Sample.data None) frame))
    /\ nrows frame = 12%nat.
Proof.
  destruct (grouped_sampling_groups (Sample.grouped_self true 3) Sample.groups)
    as (self' & frame & Hrun & _ & Hrows & _).
  - discriminate.
  - discriminate.
  - discriminate.
  - reflexivity.
  - simpl. lia.
  - intros j uid k. simpl. rewrite length_replicate. lia.
  - intros j row Hj.
    destruct j as [| [| [| j]]]; simpl in Hj; try discriminate Hj;
      injection Hj as <-; in_range.
  - intros H. discriminate H.
  - exists self', frame. split; [exact Hrun | rewrite Hrows; reflexivity].
Defined.


(** ** Pointwise sampling *)

Lemma dict_get_fmap_key {V W} (g : string -> V -> W) (d : list (string * V)) k :
  dict_get ((fun kv : string * V => (kv.1, g kv.1 kv.2)) <$> d) k
  = g k <$> dict_get d k.
Proof.
  induction d as [| [k0 v0] d IH]; simpl; [reflexivity |].
  destruct (decide (k0 = k)) as [-> | ?]; [reflexivity | exact IH].
Qed.





(** ** Pairwise sampling *)

Lemma append_inj (p a b : string) : p +:+ a = p +:+ b -> a = b.
Proof.
  induction p as [| ch p IH]; simpl; intros H; [exact H |].
  injection H as H. apply IH. exact H.
Qed.

Lemma dict_get_add_prefix (p : string) (d : list (string * list cell)) k :
  dict_get ((fun kv : string * list cell => (p +:+ kv.1, kv.2)) <$> d) (p +:+ k)
  = dict_get d k.
Proof.
  induction d as [| [k0 v0] d IH]; simpl; [reflexivity |].
  destruct (decide (p +:+ k0 = p +:+ k)) as [E | Hne];
    destruct (decide (k0 = k)) as [-> | Hne']; try reflexivity.
  - apply append_inj in E. contradiction.
  - congruence.
  - exact IH.
Qed.

Lemma dict_get_app {V} (d1 d2 : list (string * V)) k :
  dict_get (d1 ++ d2) k
  = match dict_get d1 k with
    | Some v => Some v
    | None => dict_get d2 k
    end.
Proof.
  induction d1 as [| [k0 v0] d1 IH]; simpl; [reflexivity |].
  destruct (decide (k0 = k)); [reflexivity | exact IH].
Qed.

Lemma dict_get_Some_key {V} (d : list (string * V)) k v :
  dict_get d k = Some v -> k ∈ d.*1.
Proof.
  induction d as [| [k0 v0] d IH]; simpl; [discriminate |].
  destruct (decide (k0 = k)) as [-> | ?]; intros H.
  - apply elem_of_cons. left. reflexivity.
  - apply elem_of_cons. right. auto.
Qed.

Lemma dict_get_filter_ne (d : list (string * list cell)) key k :
  k <> key ->
  dict_get (filter (fun kv : string * list cell => kv.1 <> key) d) k
  = dict_get d k.
Proof.
  intros Hk. induction d as [| [k0 v0] d IH]; [reflexivity |].
  rewrite filter_cons. simpl.
  destruct (decide (k0 <> key)) as [Hne | Heq]; simpl.
  - destruct (decide (k0 = k)); [reflexivity | exact IH].
  - destruct (decide (k0 = k)); [| exact IH].
    exfalso. apply Heq. congruence.
Qed.

Lemma matches_absent (c : cell) (rk : list cell) : forall j,
  c ∉ rk -> Pd.matches c rk j = [].
Proof.
  induction rk as [| c' rk IH]; intros j Hc; simpl; [reflexivity |].
  apply not_elem_of_cons in Hc as [Hne Hc].
  destruct (decide (c' = c)); [congruence | apply IH; exact Hc].
Qed.

(** When the keys of the right table are distinct, a key matches no row or
    one row. *)
Lemma matches_unique (c : cell) (rk : list cell) :
  NoDup rk ->
  forall j0,
    (Pd.matches c rk j0 = [] /\ c ∉ rk)
    \/ exists j, Pd.matches c rk j0 = [(j0 + j)%nat] /\ rk !! j = Some c.
Proof.
  induction 1 as [| c' rk Hc' Hnd IH]; intros j0; simpl.
  - left. split; [reflexivity | apply not_elem_of_nil].
  - destruct (decide (c' = c)) as [-> | Hne].
    + right. exists 0%nat. rewrite matches_absent by assumption.
      rewrite Nat.add_0_r. split; reflexivity.
    + destruct (IH (S j0)) as [[Hm Hc] | (j & Hm & Hj)].
      * left. split; [exact Hm |]. apply not_elem_of_cons. split; congruence.
      * right. exists (S j). rewrite Hm.
        replace (S j0 + j)%nat with (j0 + S j)%nat by lia.
        split; [reflexivity | exact Hj].
Qed.

Lemma join_singletons {A B} (g : nat -> A -> B) (l : list A) :
  mjoin (imap (fun i x => [g i x]) l) = imap g l.
Proof.
  revert g. induction l as [| x l IH]; intros g; [reflexivity |].
  simpl. f_equal. apply (IH (g ∘ S)).
Qed.

Lemma left_pairs_unique (lk rk : list cell) :
  NoDup rk ->
  Pd.left_pairs lk rk
  = imap (fun i c => (i, head (Pd.matches c rk 0))) lk.
Proof.
  intros Hnd. unfold Pd.left_pairs.
  rewrite <- (join_singletons (fun i c => (i, head (Pd.matches c rk 0))) lk).
  f_equal. apply imap_ext.
  intros i c _. simpl.
  destruct (matches_unique c rk Hnd 0) as [[-> _] | (j & -> & _)];
    reflexivity.
Qed.

(** Picking the rows [0 .. n - 1] of a column of [n] rows gives the column
    back. *)
Lemma pick_all {A} (vs : list cell) (lk : list A) (g : A -> option nat) :
  length vs = length lk ->
  (fun p : nat * option nat => default CNaN (vs !! p.1))
    <$> imap (fun i c => (i, g c)) lk
  = vs.
Proof.
  intros Hlen. apply list_eq. intros r.
  rewrite list_lookup_fmap, list_lookup_imap.
  destruct (lk !! r) as [c |] eqn:Hr; simpl.
  - destruct (lookup_lt_is_Some_2 vs r) as [x Hx].
    + rewrite Hlen. eapply lookup_lt_Some; eassumption.
    + rewrite Hx. reflexivity.
  - symmetry. apply lookup_ge_None. rewrite Hlen.
    apply lookup_ge_None. assumption.
Qed.

Lemma suffixed_same (others : list string) (key sfx name : string) :
  (name ∈ others -> name = key) ->
  Pd.suffixed others key sfx name = name.
Proof.
  intros H. unfold Pd.suffixed.
  destruct (decide (name <> key /\ name ∈ others)) as [[Hne Hin] | _];
    [| reflexivity].
  exfalso. apply Hne. apply H. exact Hin.
Qed.

(** A left join on a key that is unique in the right table, the two tables
    sharing no other column name: one row per left row, the left columns
    as they are, the right columns looked up by key. *)
Lemma merge_left_unique (left right : DataFrame) (key sl sr : string)
    (lk rk : list cell) :
  dict_get (columns left) key = Some lk ->
  dict_get (columns right) key = Some rk ->
  NoDup rk ->
  (forall c, c ∈ (columns left).*1 -> c ∈ (columns right).*1 -> c = key) ->
  let pairs := imap (fun i c => (i, head (Pd.matches c rk 0))) lk in
  Pd.merge_left left right key sl sr
  = Ok {| nrows := length lk;
          columns :=
            ((fun kv : string * list cell =>
                (kv.1, (fun p : nat * option nat =>
                          default CNaN (kv.2 !! p.1)) <$> pairs))
               <$> columns left)
            ++ ((fun kv : string * list cell =>
                   (kv.1, (fun p : nat * option nat =>
                             default CNaN (j ← p.2; kv.2 !! j)) <$> pairs))
                  <$> filter (fun kv : string * list cell => kv.1 <> key)
                        (columns right)) |}.
Proof.
  intros Hlk Hrk Hnd Hnames pairs.
  unfold Pd.merge_left, Pd.col, getitem. rewrite Hlk, Hrk. simpl.
  rewrite left_pairs_unique by assumption. fold pairs.
  unfold pairs at 1. rewrite length_imap.
  do 2 f_equal. f_equal.
  - apply list_fmap_ext. intros r [name vs] Hr. simpl.
    rewrite suffixed_same; [reflexivity |].
    intros Hin. apply Hnames; [| exact Hin].
    apply list_elem_of_fmap. exists (name, vs). split; [reflexivity |].
    eapply list_elem_of_lookup_2. exact Hr.
  - apply list_fmap_ext. intros r [name vs] Hr. simpl.
    rewrite suffixed_same; [reflexivity |].
    intros Hin. apply Hnames; [exact Hin |].
    apply list_elem_of_lookup_2 in Hr. apply list_elem_of_filter in Hr as [_ Hr].
    apply list_elem_of_fmap. exists (name, vs). split; [reflexivity | exact Hr].
Qed.

(** The value that the join puts beside the key [c]. *)
Lemma looked_up (ids vs : list cell) (c : cell) :
  NoDup ids ->
  let x := default CNaN (j ← head (Pd.matches c ids 0); vs !! j) in
  (forall j v, ids !! j = Some c -> vs !! j = Some v -> x = v)
  /\ (c ∉ ids -> x = CNaN).
Proof.
  intros Hnd x. subst x.
  destruct (matches_unique c ids Hnd 0) as [[-> Hc] | (j & -> & Hj)]; simpl.
  - split; [| reflexivity].
    intros j v Hj _. exfalso. apply Hc. eapply list_elem_of_lookup_2. exact Hj.
  - split.
    + intros j' v Hj' Hv.
      rewrite (NoDup_lookup ids j j' c Hnd Hj Hj'), Hv. reflexivity.
    + intros Hc. exfalso. apply Hc. eapply list_elem_of_lookup_2. exact Hj.
Qed.

(** C9: pairwise sampling of [n] rows, the sampler having returned one id
    per row, keeps the [n] rows and their columns and adds the column of
    negative item ids; when there is an item feature table whose item ids
    are distinct, each of its other columns is added under the prefixed
    name, holding beside every negative id the feature of that item, or a
    missing value when the table does not have the item. *)
Theorem pairwise_sampling_rows (self : Loader) (inter_feat : DataFrame)
    (k : Z) (uids : list cell) :
  let uid_field := USER_ID_FIELD (config self) in
  let iid_field := ITEM_ID_FIELD (config self) in
  let neg_prefix := NEG_PREFIX (config self) in
  let neg_item_id := neg_prefix +:+ iid_field in
  let n := nrows inter_feat in
  let neg_iids := sample_by_user_ids (sampler self) (phase self) uids k in
  dl_format self = "pairwise" ->
  neg_sample_by self = Some k ->
  dict_get (columns inter_feat) uid_field = Some uids ->
  length neg_iids = n ->
  neg_item_id ∉ (columns inter_feat).*1 ->
  (forall item_feat,
     Dataset.item_feat (dataset self) = Some item_feat ->
     (exists ids, dict_get (columns item_feat) iid_field = Some ids
                  /\ NoDup ids)
     /\ (forall c, c ∈ (columns item_feat).*1 ->
                   neg_prefix +:+ c ∉ (columns inter_feat).*1)) ->
  exists out,
    GeneralInteractionBasedDataLoader._neg_sampling self inter_feat = Ok out
    /\ nrows out = n
    /\ dict_get (columns out) neg_item_id = Some (CInt <$> neg_iids)
    /\ (forall c vs,
          dict_get (columns inter_feat) c = Some vs -> length vs = n ->
          dict_get (columns out) c = Some vs)
    /\ (forall item_feat ids c vs,
          Dataset.item_feat (dataset self) = Some item_feat ->
          dict_get (columns item_feat) iid_field = Some ids ->
          dict_get (columns item_feat) c = Some vs ->
          c <> iid_field ->
          exists col,
            dict_get (columns out) (neg_prefix +:+ c) = Some col
            /\ length col = n
            /\ forall r z,
                 neg_iids !! r = Some z ->
                 (forall j v, ids !! j = Some (CInt z) -> vs !! j = Some v ->
                              col !! r = Some v)
                 /\ (CInt z ∉ ids -> col !! r = Some CNaN)).
Proof.
  intros uid_field iid_field neg_prefix neg_item_id n neg_iids Hfmt Hby Hu
    Hlen Hfresh Hitems.
  unfold GeneralInteractionBasedDataLoader._neg_sampling, Pd.col, getitem.
  fold uid_field iid_field. rewrite Hu, Hby. cbn [Py.bind]. fold neg_iids.
  rewrite Hfmt.
  destruct (decide ("pairwise" = "pointwise")) as [E | _]; [discriminate E |].
  destruct (decide ("pairwise" = "pairwise")) as [_ | E]; [| congruence].
  unfold GeneralInteractionBasedDataLoader._neg_sample_by_pair_wise_sampling.
  fold neg_prefix neg_item_id.
  unfold Pd.insert_last.
  rewrite (dict_get_None _ _ Hfresh).
  rewrite length_fmap, Hlen.
  destruct (decide (n = nrows inter_feat)) as [_ | E]; [| contradiction].
  cbn [Py.bind].
  set (negs := CInt <$> neg_iids).
  assert (Hnegs : length negs = n) by (unfold negs; rewrite length_fmap; exact Hlen).
  set (left := {| nrows := nrows inter_feat;
                  columns := columns inter_feat ++ [(neg_item_id, negs)] |}).
  assert (Hkey : dict_get (columns left) neg_item_id = Some negs).
  { unfold left. cbn [columns]. rewrite dict_get_app.
    rewrite (dict_get_None _ _ Hfresh). simpl.
    destruct (decide (neg_item_id = neg_item_id)); congruence. }
  assert (Hold : forall c vs, dict_get (columns inter_feat) c = Some vs ->
                              dict_get (columns left) c = Some vs).
  { intros c vs Hc. unfold left. cbn [columns]. rewrite dict_get_app, Hc.
    reflexivity. }
  destruct (Dataset.item_feat (dataset self)) as [item_feat |] eqn:Hfeat.
  - destruct (Hitems item_feat eq_refl) as [(ids & Hids & Hnd) Hclash].
    assert (Hrk : dict_get (columns (Pd.add_prefix neg_prefix item_feat))
                    neg_item_id = Some ids).
    { unfold Pd.add_prefix. cbn [columns]. unfold neg_item_id.
      rewrite dict_get_add_prefix. exact Hids. }
    rewrite (merge_left_unique left (Pd.add_prefix neg_prefix item_feat)
               neg_item_id "_inter" "_item" negs ids Hkey Hrk Hnd).
    2:{ intros c Hl Hr. unfold left in Hl. cbn [columns] in Hl.
        rewrite fmap_app in Hl. apply elem_of_app in Hl as [Hl | Hl].
        - exfalso. unfold Pd.add_prefix in Hr. cbn [columns] in Hr.
          rewrite <- list_fmap_compose in Hr.
          apply list_elem_of_fmap in Hr as ([c' vs'] & -> & Hr).
          simpl in Hl. apply (Hclash c'); [| exact Hl].
          apply list_elem_of_fmap. exists (c', vs'). split; [reflexivity | exact Hr].
        - simpl in Hl. apply list_elem_of_singleton in Hl. exact Hl. }
    set (pairs := imap (fun (i : nat) (c : cell) =>
                          (i, head (Pd.matches c ids 0))) negs).
    eexists. split; [reflexivity |]. cbn [nrows columns].
    split; [exact Hnegs |].
    split; [| split].
    + rewrite dict_get_app.
      rewrite (dict_get_fmap (fun v : list cell =>
                 (fun p : nat * option nat => default CNaN (v !! p.1)) <$> pairs)).
      rewrite Hkey. simpl. f_equal. apply pick_all. reflexivity.
    + intros c vs Hc Hvs. rewrite dict_get_app.
      rewrite (dict_get_fmap (fun v : list cell =>
                 (fun p : nat * option nat => default CNaN (v !! p.1)) <$> pairs)).
      rewrite (Hold c vs Hc). simpl. f_equal. apply pick_all. congruence.
    + intros item_feat' ids' c vs [= <-] Hids' Hc Hne.
      assert (ids' = ids) as -> by congruence.
      assert (Hcin : c ∈ (columns item_feat).*1)
        by (eapply dict_get_Some_key; exact Hc).
      eexists. split; [| split].
      * rewrite dict_get_app.
        rewrite (dict_get_fmap (fun v : list cell =>
                   (fun p : nat * option nat => default CNaN (v !! p.1)) <$> pairs)).
        rewrite dict_get_None.
        2:{ unfold left. cbn [columns]. rewrite fmap_app.
            intros Hin. apply elem_of_app in Hin as [Hin | Hin].
            - apply (Hclash c Hcin Hin).
            - simpl in Hin. apply list_elem_of_singleton in Hin.
              apply append_inj in Hin. contradiction. }
        simpl.
        rewrite (dict_get_fmap (fun v : list cell =>
                   (fun p : nat * option nat =>
                      default CNaN (j ← p.2; v !! j)) <$> pairs)).
        rewrite dict_get_filter_ne
          by (intros E; apply append_inj in E; contradiction).
        unfold Pd.add_prefix. cbn [columns].
        rewrite dict_get_add_prefix, Hc. reflexivity.
      * unfold pairs. rewrite length_fmap, length_imap. exact Hnegs.
      * intros r z Hr. unfold pairs.
        rewrite list_lookup_fmap, list_lookup_imap. unfold negs.
        rewrite list_lookup_fmap, Hr. simpl.
        destruct (looked_up ids vs (CInt z) Hnd) as [Hfound Hmissing].
        split.
        -- intros j v Hj Hv. f_equal. apply (Hfound j v Hj Hv).
        -- intros Hz. f_equal. apply (Hmissing Hz).
  - eexists. split; [reflexivity |]. fold left.
    split; [reflexivity |].
    split; [exact Hkey |].
    split; [intros c vs Hc _; apply Hold; exact Hc |].
    intros item_feat ids c vs Hsome. discriminate Hsome.
Qed.

Lemma pairwise_sampling_rows_witness :
  exists out,
    GeneralInteractionBasedDataLoader._neg_sampling
      (Sample.pairwise_self (Some Sample.items)) Sample.inter = Ok out
    /\ nrows out = 3%nat
    /\ dict_get (columns out) "neg_item_id" = Some [CInt 99; CInt 99; CInt 99].
Proof.
  destruct (pairwise_sampling_rows (Sample.pairwise_self (Some Sample.items))
              Sample.inter 1 [CInt 1; CInt 2; CInt 3])
    as (out & Hrun & Hrows & Hneg & _).
  - reflexivity.
  - reflexivity.
  - reflexivity.
  - reflexivity.
  - simpl. rewrite !not_elem_of_cons. repeat split; try discriminate.
    apply not_elem_of_nil.
  - intros item_feat [= <-]. split.
    + exists [CInt 10; CInt 99; CInt 40]. split; [vm_compute; reflexivity |].
      repeat (apply NoDup_cons; split;
              [rewrite ?not_elem_of_cons; repeat split; try discriminate;
               apply not_elem_of_nil |]).
      apply NoDup_nil. exact I.
    + intros c Hc. simpl in Hc.
      rewrite !elem_of_cons in Hc. destruct Hc as [-> | [-> | Hc]];
        [| | inversion Hc];
        simpl; rewrite !not_elem_of_cons; repeat split; try discriminate;
        apply not_elem_of_nil.
  - exists out. split; [exact Hrun | split; [exact Hrows | exact Hneg]].
Defined.

(** Where the item table holds an id twice, the join doubles the rows that
    carry it. *)
Lemma pairwise_sampling_duplicate_ids :
  exists out,
    GeneralInteractionBasedDataLoader._neg_sampling
      (Sample.pairwise_self (Some Sample.twice)) Sample.inter = Ok out
    /\ nrows Sample.inter = 3%nat
    /\ nrows out = 6%nat.
Proof. eexists. split; [vm_compute; reflexivity | split; reflexivity]. Qed.


(** ** The checks of the constructors *)

Lemma interaction_refused (cfg : Config) (smp : Sampler) (ph : string)
    (nsa : NegSampleArgs) (b : Z) (fmt : string) (sh : bool) (s : Loader) :
  Checks.refused_interaction fmt nsa ->
  exists msg,
    (GeneralInteractionBasedDataLoader.__init__ cfg smp ph nsa b fmt sh s).2
      = Raise (ValueError msg)
    /\ dataset
         (GeneralInteractionBasedDataLoader.__init__ cfg smp ph nsa b fmt sh s).1
       = dataset s.
Proof.
  intros Hrefused. unfold GeneralInteractionBasedDataLoader.__init__.
  destruct (decide (strategy nsa <> "by")) as [_ | Hby];
    [unfold raise; simpl; eauto |].
  destruct (decide (fmt = "pairwise" /\ by_ nsa <> 1)) as [_ | Hpair];
    [unfold raise; simpl; eauto |].
  destruct Hrefused as [H | [H | Hfmt]]; [contradiction | contradiction |].
  unfold mbind', modify.
  destruct (decide (fmt = "pointwise")) as [-> | _].
  { exfalso. apply Hfmt. apply elem_of_cons. left. reflexivity. }
  unfold ret, NegSampleBasedDataLoader.__init__.
  rewrite (bool_decide_eq_false_2 _ Hfmt). unfold raise. simpl. eauto.
Qed.

Lemma grouped_refused (cfg : Config) (smp : Sampler) (ph : string)
    (nsa : NegSampleArgs) (b : Z) (fmt : string) (sh : bool) (s : Loader) :
  Checks.refused_grouped fmt nsa ->
  exists msg,
    (GeneralGroupedDataLoader.__init__ cfg smp ph nsa b fmt sh s).2
      = Raise (ValueError msg)
    /\ dataset (GeneralGroupedDataLoader.__init__ cfg smp ph nsa b fmt sh s).1
       = dataset s.
Proof.
  intros Hrefused. unfold GeneralGroupedDataLoader.__init__.
  destruct (decide (strategy nsa <> "to")) as [_ | Hto];
    [unfold raise; simpl; eauto |].
  destruct (decide (fmt = "pairwise")) as [_ | Hpair];
    [unfold raise; simpl; eauto |].
  destruct Hrefused as [H | [H | Hfmt]]; [contradiction | contradiction |].
  unfold mbind', modify, gets, NegSampleBasedDataLoader.__init__.
  rewrite (bool_decide_eq_false_2 _ Hfmt). unfold raise. simpl. eauto.
Qed.

Lemma in_formats (fmt : string) :
  fmt ∈ ["pointwise"; "pairwise"] -> fmt = "pointwise" \/ fmt = "pairwise".
Proof.
  intros H. apply elem_of_cons in H as [-> | H]; [auto |].
  apply list_elem_of_singleton in H. auto.
Qed.

Lemma register_negative_ok (p c : string) (s : Loader) :
  Checks.declared (dataset s) c ->
  exists s',
    GeneralInteractionBasedDataLoader.register_negative p c s = (s', Ok tt)
    /\ forall c', Checks.declared (dataset s) c' ->
                  Checks.declared (dataset s') c'.
Proof.
  intros ([ty Hty] & [src Hsrc] & [n Hn]).
  unfold GeneralInteractionBasedDataLoader.register_negative, mbind',
    read_registry, modify.
  rewrite Hty. simpl. rewrite Hsrc. simpl. rewrite Hn. simpl.
  eexists. split; [reflexivity |].
  intros c' (H1 & H2 & H3). unfold Checks.declared. simpl.
  repeat split; apply lookup_insert_is_Some'; right; assumption.
Qed.

Lemma register_negatives_ok (p : string) (cols : list string) :
  forall s : Loader,
    (forall c, c ∈ cols -> Checks.declared (dataset s) c) ->
    exists s',
      foldr (fun item_feat_col rest =>
               mbind' (GeneralInteractionBasedDataLoader.register_negative p
                         item_feat_col) (fun _ => rest))
            (ret tt) cols s
      = (s', Ok tt).
Proof.
  induction cols as [| c cols IH]; intros s Hdecl; simpl.
  - unfold ret. eauto.
  - destruct (register_negative_ok p c s) as (s1 & Hrun & Hkeep).
    { apply Hdecl. apply elem_of_cons. left. reflexivity. }
    unfold mbind' at 1. rewrite Hrun.
    apply IH. intros c' Hc'. apply Hkeep, Hdecl.
    apply elem_of_cons. right. exact Hc'.
Qed.

(** Running the monadic code of a constructor on a state whose fields are
    known. *)
Ltac run :=
  repeat (progress
    (unfold mbind', modify, gets, ret, raise, getattr, lift, floordiv;
     cbn -[Z.add Z.div Z.mul Z.eqb];
     try change (0 =? 0) with true;
     cbn -[Z.add Z.div Z.mul Z.eqb])).

Lemma interaction_accepted (cfg : Config) (smp : Sampler) (ph : string)
    (nsa : NegSampleArgs) (b : Z) (fmt : string) (sh : bool) (s : Loader) :
  ~ Checks.refused_interaction fmt nsa ->
  real_time nsa = true ->
  (fmt = "pointwise" -> 1 + by_ nsa <> 0) ->
  (fmt = "pairwise" ->
   forall c, c ∈ Checks.negative_columns cfg (dataset s) ->
             Checks.declared (dataset s) c) ->
  (GeneralInteractionBasedDataLoader.__init__ cfg smp ph nsa b fmt sh s).2
    = Ok tt.
Proof.
  intros Hok Hrt Hpoint Hpair.
  assert (Hby : strategy nsa = "by").
  { destruct (decide (strategy nsa = "by")); [assumption |].
    exfalso. apply Hok. left. assumption. }
  assert (Hone : ~ (fmt = "pairwise" /\ by_ nsa <> 1)).
  { intros H. apply Hok. right. left. exact H. }
  assert (Hfmt : fmt ∈ ["pointwise"; "pairwise"]).
  { destruct (decide (fmt ∈ ["pointwise"; "pairwise"])); [assumption |].
    exfalso. apply Hok. right. right. assumption. }
  unfold GeneralInteractionBasedDataLoader.__init__.
  destruct (decide (strategy nsa <> "by")) as [? | _]; [contradiction |].
  destruct (decide (fmt = "pairwise" /\ by_ nsa <> 1)) as [? | _];
    [contradiction |].
  unfold NegSampleBasedDataLoader.__init__.
  rewrite (bool_decide_eq_true_2 _ Hfmt).
  rewrite Hby.
  rewrite (bool_decide_eq_true_2 ("by" ∈ ["by"; "to"]))
    by (apply elem_of_cons; left; reflexivity).
  unfold GeneralInteractionBasedDataLoader._batch_size_adaptation,
    AbstractDataLoader.__init__, AbstractDataLoader.set_batch_size.
  apply in_formats in Hfmt as [-> | ->].
  - specialize (Hpoint eq_refl). apply Z.eqb_neq in Hpoint.
    destruct (decide ("pointwise" = "pointwise")) as [_ | ?]; [| congruence].
    run.
    destruct (decide ("pointwise" = "pairwise")) as [E | _]; [discriminate E |].
    run. rewrite Hpoint. run. rewrite Hrt. run.
    destruct (b =? (b / (1 + by_ nsa) + 1) * (1 + by_ nsa)); run;
      reflexivity.
  - destruct (decide ("pairwise" = "pointwise")) as [E | _]; [discriminate E |].
    run.
    destruct (decide ("pairwise" = "pairwise")) as [_ | ?]; [| congruence].
    run. rewrite Hrt. run.
    destruct (decide ("pairwise" = "pairwise")) as [_ | ?]; [| congruence].
    cbn -[Z.add Z.div Z.mul Z.eqb].
    match goal with
    | |- (foldr _ _ ?cols ?s0).2 = _ =>
        destruct (register_negatives_ok (NEG_PREFIX cfg) cols s0) as [s' Hs']
    end.
    + intros c Hc. apply (Hpair eq_refl c Hc).
    + unfold mbind', ret in Hs'. rewrite Hs'. reflexivity.
Qed.

Lemma grouped_accepted (cfg : Config) (smp : Sampler) (ph : string)
    (nsa : NegSampleArgs) (b : Z) (fmt : string) (sh : bool) (s : Loader) :
  ~ Checks.refused_grouped fmt nsa ->
  real_time nsa = true ->
  (if to_ nsa =? -1 then Dataset.item_num (dataset s) else to_ nsa) <> 0 ->
  (GeneralGroupedDataLoader.__init__ cfg smp ph nsa b fmt sh s).2 = Ok tt.
Proof.
  intros Hok Hrt Hto.
  assert (Hstrat : strategy nsa = "to").
  { destruct (decide (strategy nsa = "to")); [assumption |].
    exfalso. apply Hok. left. assumption. }
  assert (Hpair : fmt <> "pairwise").
  { intros H. apply Hok. right. left. exact H. }
  assert (Hfmt : fmt ∈ ["pointwise"; "pairwise"]).
  { destruct (decide (fmt ∈ ["pointwise"; "pairwise"])); [assumption |].
    exfalso. apply Hok. right. right. assumption. }
  unfold GeneralGroupedDataLoader.__init__.
  destruct (decide (strategy nsa <> "to")) as [? | _]; [contradiction |].
  destruct (decide (fmt = "pairwise")) as [? | _]; [contradiction |].
  unfold NegSampleBasedDataLoader.__init__.
  rewrite (bool_decide_eq_true_2 _ Hfmt).
  rewrite Hstrat.
  rewrite (bool_decide_eq_true_2 ("to" ∈ ["by"; "to"]))
    by (apply elem_of_cons; right; apply elem_of_cons; left; reflexivity).
  unfold GeneralGroupedDataLoader._batch_size_adaptation,
    AbstractDataLoader.__init__, AbstractDataLoader.set_batch_size.
  apply Z.eqb_neq in Hto.
  run.
  destruct (to_ nsa =? -1) eqn:Hfull; run; rewrite Hto; run;
    match goal with
    | |- context [negb (?x =? ?y)] => destruct (x =? y)
    end; run; rewrite ?Hrt; run; reflexivity.
Qed.

(** C7, as the code has it: each constructor raises [ValueError], with the
    dataset untouched, when the format is neither pointwise nor pairwise,
    when the strategy is not the loader's own ([by] for the
    interaction-based loader, [to] for the grouped one), when the
    interaction-based loader is asked for pairwise with [by] other than 1,
    or when the grouped loader is asked for pairwise; in real-time mode,
    with a multiplier that is not zero and, for pairwise, the item fields
    declared, the construction ends well exactly for the other
    configurations. *)
Theorem construction_checks (cfg : Config) (smp : Sampler) (ph : string)
    (nsa : NegSampleArgs) (b : Z) (fmt : string) (sh : bool) (s : Loader) :
  let interaction :=
    GeneralInteractionBasedDataLoader.__init__ cfg smp ph nsa b fmt sh s in
  let grouped :=
    GeneralGroupedDataLoader.__init__ cfg smp ph nsa b fmt sh s in
  (Checks.refused_interaction fmt nsa ->
   exists msg, interaction.2 = Raise (ValueError msg)
               /\ dataset interaction.1 = dataset s)
  /\ (real_time nsa = true ->
      (fmt = "pointwise" -> 1 + by_ nsa <> 0) ->
      (fmt = "pairwise" ->
       forall c, c ∈ Checks.negative_columns cfg (dataset s) ->
                 Checks.declared (dataset s) c) ->
      (interaction.2 = Ok tt <-> ~ Checks.refused_interaction fmt nsa))
  /\ (Checks.refused_grouped fmt nsa ->
      exists msg, grouped.2 = Raise (ValueError msg)
                  /\ dataset grouped.1 = dataset s)
  /\ (real_time nsa = true ->
      (if to_ nsa =? -1 then Dataset.item_num (dataset s) else to_ nsa) <> 0 ->
      (grouped.2 = Ok tt <-> ~ Checks.refused_grouped fmt nsa)).
Proof.
  intros interaction grouped. split; [| split; [| split]].
  - apply interaction_refused.
  - intros Hrt Hpoint Hpair. split.
    + intros Hok Hrefused.
      destruct (interaction_refused cfg smp ph nsa b fmt sh s Hrefused)
        as (msg & Hmsg & _).
      unfold interaction in Hok. congruence.
    + intros Hok. apply interaction_accepted; assumption.
  - apply grouped_refused.
  - intros Hrt Hto. split.
    + intros Hok Hrefused.
      destruct (grouped_refused cfg smp ph nsa b fmt sh s Hrefused)
        as (msg & Hmsg & _).
      unfold grouped in Hok. congruence.
    + intros Hok. apply grouped_accepted; assumption.
Qed.

Lemma construction_checks_witness :
  (Sample.pointwise_loader true).2 = Ok tt
  /\ (exists msg,
        (GeneralGroupedDataLoader.__init__ Sample.cfg Sample.smp "train"
           (Sample.by_args 2 true) 9 "pointwise" false
           (new (Sample.data None))).2 = Raise (ValueError msg)).
Proof.
  destruct (construction_checks Sample.cfg Sample.smp "train"
              (Sample.by_args 2 true) 9 "pointwise" false
              (new (Sample.data None)))
    as (_ & Hint & Hgrp & _).
  split.
  - apply Hint.
    + reflexivity.
    + intros _. simpl. lia.
    + intros H. discriminate H.
    + intros [H | [[H _] | H]].
      * apply H. reflexivity.
      * discriminate H.
      * apply H. apply elem_of_cons. left. reflexivity.
  - destruct Hgrp as (msg & Hmsg & _).
    + left. simpl. discriminate.
    + exists msg. exact Hmsg.
Defined.

(** C7 as stated fails: the interaction-based constructor refuses the
    strategy [to], which is none of the listed errors; and a configuration
    that passes every check, [by = -1] in pointwise format, does not
    construct. *)
Lemma construction_checks_counterexample :
  (~ Checks.listed_interaction "pointwise" (Sample.to_args 4 true)
   /\ (GeneralInteractionBasedDataLoader.__init__ Sample.cfg Sample.smp
         "train" (Sample.to_args 4 true) 9 "pointwise" false
         (new (Sample.data None))).2
      = Raise (ValueError
          "neg_sample strategy in GeneralInteractionBasedDataLoader() should be `by`"))
  /\ (~ Checks.listed_interaction "pointwise" (Sample.by_args (-1) true)
      /\ (GeneralInteractionBasedDataLoader.__init__ Sample.cfg Sample.smp
            "train" (Sample.by_args (-1) true) 9 "pointwise" false
            (new (Sample.data None))).2
         = Raise ZeroDivisionError).
Proof.
  assert (Hfmt : "pointwise" ∈ ["pointwise"; "pairwise"])
    by (apply elem_of_cons; left; reflexivity).
  split; split; try (vm_compute; reflexivity).
  - intros [H | [H | [H _]]]; [contradiction | | discriminate H].
    apply H. simpl. apply elem_of_cons. right. apply elem_of_cons. left.
    reflexivity.
  - intros [H | [H | [H _]]]; [contradiction | | discriminate H].
    apply H. simpl. apply elem_of_cons. left. reflexivity.
Qed.

(** ** Edge cases of the grouped loader *)

(** A group table without any group never starts the map [next], and the
    pre-materialized sampling raises. *)
Lemma grouped_sampling_no_group :
  (GeneralGroupedDataLoader._neg_sampling [] (Sample.grouped_self false 3)).2
  = Raise (AttributeError "next").
Proof. vm_compute. reflexivity. Qed.

(** A call of [__next__] is a fetch followed by the conversion. *)
Lemma next_of_fetch (s : Loader) :
  GeneralGroupedDataLoader.__next__ s
  = match AbstractDataLoader.fetch GeneralGroupedDataLoader.pr_end
            GeneralGroupedDataLoader._shuffle
            GeneralGroupedDataLoader._next_dataframe s with
    | (s', Ok df) => (s', AbstractDataLoader._dataframe_to_interaction s' df)
    | (s', Raise e) => (s', Raise e)
    end.
Proof. reflexivity. Qed.

(** The spec's example of a truncated group: [to = 4] and a user with five
    positives give the first three positives and one negative. *)
Lemma grouped_sampling_example :
  (GeneralGroupedDataLoader._neg_sampling [(1, [10; 11; 12; 13; 14])]
     (Sample.grouped_self false 3)).2
  = Ok {| nrows := 4;
          columns := [("user_id", [CInt 1; CInt 1; CInt 1; CInt 1]);
                      ("item_id", [CInt 10; CInt 11; CInt 12; CInt 100]);
                      ("label", [CInt 1; CInt 1; CInt 1; CInt 0])] |}.
Proof. vm_compute. reflexivity. Qed.

(** * Further properties *)

(** ** Indexing an Interaction *)






Lemma index_fields_error (d : list (string * tensor)) ix e :
  InteractionMethods.index_fields d ix = Raise e ->
  e = InteractionMethods.out_of_bounds.
Proof.
  induction d as [| [k0 t0] d IH]; simpl; [discriminate |].
  destruct (InteractionMethods.tensor_getitem t0 ix) as [x0 | e0] eqn:Hx0;
    simpl.
  - destruct (InteractionMethods.index_fields d ix) as [ret | e1];
      simpl; [discriminate |].
    intros [= <-]. apply IH. reflexivity.
  - intros [= <-]. clear IH.
    destruct t0 as [dt data | dt data], ix as [i | a b]; simpl in Hx0;
      try discriminate Hx0;
      unfold InteractionMethods.nth_item in Hx0;
      destruct (_ || _); simpl in Hx0;
      try (injection Hx0 as <-; reflexivity);
      destruct (data !! _); simpl in Hx0;
      try discriminate Hx0; injection Hx0 as <-; reflexivity.
Qed.

(** X2: indexing an Interaction whose first field is one-dimensional by an
    integer always raises [IndexError]: the index is out of bounds for some
    field, or the first field of the result has no dimension to take the
    length from. *)
Theorem interaction_getitem_int (k0 : string) (dt : dtype) (data : list Z)
    (rest : list (string * tensor)) (i : Z) :
  exists msg,
    InteractionMethods.__getitem__
      (Interaction.__init__ ((k0, Tensor1 dt data) :: rest))
      (InteractionMethods.At i)
    = Raise (IndexError msg).
Proof.
  unfold InteractionMethods.__getitem__.
  cbn [Interaction.interaction Interaction.__init__].
  destruct (InteractionMethods.index_fields ((k0, Tensor1 dt data) :: rest)
              (InteractionMethods.At i)) as [ret | e] eqn:Hret.
  - simpl in Hret.
    destruct (InteractionMethods.nth_item data i) as [z |]; simpl in Hret;
      [| discriminate Hret].
    destruct (InteractionMethods.index_fields rest _) as [ret' |];
      simpl in Hret; [| discriminate Hret].
    injection Hret as <-. simpl. eauto.
  - apply index_fields_error in Hret as ->. simpl.
    unfold InteractionMethods.out_of_bounds. eauto.
Qed.

(** ** Tiling an Interaction *)

Lemma tile_length {A} (k : nat) (l : list A) :
  length (InteractionMethods.tile k l) = (k * length l)%nat.
Proof.
  unfold InteractionMethods.tile.
  induction k as [| k IH]; simpl; [reflexivity |].
  rewrite length_app, IH. reflexivity.
Qed.

Lemma interleave_length {A} (r : nat) (l : list A) :
  length (l ≫= replicate r) = (length l * r)%nat.
Proof.
  induction l as [| x l IH]; [reflexivity |].
  rewrite bind_cons, length_app, length_replicate, IH. simpl. lia.
Qed.

Lemma repeat_fields_once (k : nat) (d : list (string * tensor)) :
  Forall (fun kv : string * tensor =>
            InteractionMethods.one_dimensional kv.2) d ->
  InteractionMethods.repeat_fields d (InteractionMethods.Sizes1 k)
  = inr ((fun kv : string * tensor =>
            (kv.1, Tensor1 (InteractionMethods.tensor_dtype kv.2)
                     (InteractionMethods.tile k
                        (InteractionMethods.entries kv.2)))) <$> d).
Proof.
  induction 1 as [| [k0 t0] d Ht0 _ IH]; [reflexivity |].
  simpl. destruct t0 as [dt data | dt data]; [| destruct Ht0].
  simpl. rewrite IH. reflexivity.
Qed.

(** X3: [repeat] with one size [k] on an Interaction whose fields are
    one-dimensional with a common length [L] gives an Interaction whose
    fields all have the length [k * L], the entry at position [j] of a
    field being its entry at position [j mod L] before; the length is
    computed anew and is [k * L]. *)
Theorem interaction_repeat_once (k0 : string) (t0 : tensor)
    (rest : list (string * tensor)) (k L : nat) :
  let d := (k0, t0) :: rest in
  Forall (fun kv : string * tensor =>
            InteractionMethods.one_dimensional kv.2
            /\ Torch.shape0 kv.2 = L) d ->
  exists out,
    InteractionMethods.repeat (Interaction.__init__ d)
      (InteractionMethods.Sizes1 k) = inr out
    /\ Interaction.__len__ out = Ok (k * L)%nat
    /\ (Interaction.interaction out).*1 = d.*1
    /\ Forall (fun kv : string * tensor => Torch.shape0 kv.2 = (k * L)%nat)
         (Interaction.interaction out)
    /\ forall key t j,
         dict_get d key = Some t ->
         (j < k * L)%nat ->
         exists t',
           dict_get (Interaction.interaction out) key = Some t'
           /\ InteractionMethods.entries t' !! j
              = InteractionMethods.entries t !! (j mod L)%nat.
Proof.
  intros d Hd.
  assert (H1 : Forall (fun kv : string * tensor =>
                         InteractionMethods.one_dimensional kv.2) d).
  { eapply Forall_impl; [exact Hd |]. intros kv [H _]. exact H. }
  unfold InteractionMethods.repeat. cbn [Interaction.interaction Interaction.__init__].
  rewrite (repeat_fields_once k d H1).
  eexists. split; [reflexivity |].
  assert (Hshape : forall t : tensor,
            InteractionMethods.one_dimensional t -> Torch.shape0 t = L ->
            length (InteractionMethods.tile k (InteractionMethods.entries t))
            = (k * L)%nat).
  { intros [dt data | dt data] Ht HL; [| destruct Ht].
    simpl in *. rewrite tile_length, HL. reflexivity. }
  split; [| split; [| split]].
  - apply Forall_cons in Hd as [[Ht0 HL0] _].
    unfold d. rewrite fmap_cons.
    unfold Interaction.__len__, Interaction.__init__.
    cbn [Interaction.length fst snd Torch.shape0].
    rewrite (Hshape t0 Ht0 HL0). reflexivity.
  - cbn [Interaction.interaction Interaction.__init__].
    rewrite <- list_fmap_compose. reflexivity.
  - cbn [Interaction.interaction Interaction.__init__].
    apply Forall_fmap. eapply Forall_impl; [exact Hd |].
    intros kv [Ht HL]. simpl. apply Hshape; assumption.
  - intros key t j Hkey Hj.
    cbn [Interaction.interaction Interaction.__init__].
    rewrite (dict_get_fmap_key
               (fun (_ : string) (t : tensor) =>
                  Tensor1 (InteractionMethods.tensor_dtype t)
                    (InteractionMethods.tile k (InteractionMethods.entries t)))).
    rewrite Hkey. eexists. split; [reflexivity |].
    assert (Ht : InteractionMethods.one_dimensional t /\ Torch.shape0 t = L).
    { clear -Hd Hkey. induction d as [| [k1 t1] d IH]; [discriminate Hkey |].
      apply Forall_cons in Hd as [H1 Hd]. simpl in Hkey.
      destruct (decide (k1 = key)); [injection Hkey as <-; exact H1 | auto]. }
    destruct Ht as [Ht HL]. destruct t as [dt data | dt data]; [| destruct Ht].
    simpl in *. subst L. clear -Hj.
    unfold InteractionMethods.tile.
    revert j Hj. induction k as [| k IH]; intros j Hj; [lia |].
    simpl. destruct (decide (j < length data)%nat) as [Hlt | Hge].
    + rewrite lookup_app_l by assumption.
      rewrite Nat.mod_small by assumption. reflexivity.
    + rewrite lookup_app_r by lia.
      rewrite IH by (simpl in Hj; lia).
      f_equal.
      replace j with ((j - length data) + 1 * length data)%nat at 2 by lia.
      rewrite Nat.Div0.mod_add. reflexivity.
Qed.

Lemma interaction_repeat_once_witness :
  exists out,
    InteractionMethods.repeat
      (Interaction.__init__
         [("item_id", Tensor1 Long [7; 8]); ("price", Tensor1 Float [3; 4])])
      (InteractionMethods.Sizes1 3) = inr out
    /\ Interaction.__len__ out = Ok 6%nat.
Proof.
  destruct (interaction_repeat_once "item_id" (Tensor1 Long [7; 8])
              [("price", Tensor1 Float [3; 4])] 3 2)
    as (out & Hrun & Hlen & _).
  - repeat constructor.
  - exists out. split; [exact Hrun | exact Hlen].
Defined.

(** X4: [repeat] with one size raises on the first field of two
    dimensions, whatever the size. *)
Theorem interaction_repeat_two_dimensional (d : list (string * tensor))
    (key : string) (dt : dtype) (rows : list (list Z)) (k : nat) :
  (key, Tensor2 dt rows) ∈ d ->
  exists msg,
    InteractionMethods.repeat (Interaction.__init__ d)
      (InteractionMethods.Sizes1 k)
    = inl (InteractionMethods.RuntimeError msg).
Proof.
  intros Hin. unfold InteractionMethods.repeat.
  cbn [Interaction.interaction Interaction.__init__].
  induction d as [| [k1 t1] d IH]; [inversion Hin |].
  simpl. destruct t1 as [dt1 data1 | dt1 data1]; simpl; [| eauto].
  apply elem_of_cons in Hin as [Heq | Hin]; [discriminate Heq |].
  destruct (IH Hin) as [msg Hmsg].
  destruct (InteractionMethods.repeat_fields d _) as [e | ret];
    [| discriminate Hmsg].
  injection Hmsg as ->. eauto.
Qed.

Lemma interaction_repeat_two_dimensional_witness :
  exists msg,
    InteractionMethods.repeat
      (Interaction.__init__
         [("item_id", Tensor1 Long [7; 8]);
          ("history", Tensor2 Long [[1; 2]; [3; 4]])])
      (InteractionMethods.Sizes1 3)
    = inl (InteractionMethods.RuntimeError msg).
Proof.
  apply (interaction_repeat_two_dimensional _ "history" Long [[1; 2]; [3; 4]]).
  apply elem_of_cons. right. apply elem_of_cons. left. reflexivity.
Defined.

Lemma interleave_lookup {A} (r : nat) (l : list A) (j : nat) :
  (0 < r)%nat ->
  (l ≫= replicate r) !! j = l !! (j / r)%nat.
Proof.
  intros Hr. revert j. induction l as [| x l IH]; intros j.
  - rewrite lookup_nil. reflexivity.
  - rewrite bind_cons.
    destruct (decide (j < r)%nat) as [Hlt | Hge].
    + rewrite lookup_app_l by (rewrite length_replicate; assumption).
      rewrite Nat.div_small by assumption. simpl.
      apply lookup_replicate_2. assumption.
    + rewrite lookup_app_r by (rewrite length_replicate; lia).
      rewrite length_replicate, IH.
      replace j with ((j - r) + 1 * r)%nat at 2 by lia.
      rewrite Nat.div_add by lia.
      replace ((j - r) / r + 1)%nat with (S ((j - r) / r)) by lia.
      reflexivity.
Qed.

(** X5: [to_device_repeat_interleave] keeps the fields and their order and
    makes every field one-dimensional: a field with [n] entries, taken row
    by row, gets [n * repeats] entries, the entry at position [j] being its
    entry at position [j / repeats] before; the length reported is that of
    the first field. *)
Theorem interaction_repeat_interleave (k0 : string) (t0 : tensor)
    (rest : list (string * tensor)) (r : nat) :
  let d := (k0, t0) :: rest in
  let out :=
    InteractionMethods.to_device_repeat_interleave (Interaction.__init__ d) r in
  (Interaction.interaction out).*1 = d.*1
  /\ Interaction.__len__ out
     = Ok (length (InteractionMethods.entries t0) * r)%nat
  /\ forall key t,
       dict_get d key = Some t ->
       exists data,
         dict_get (Interaction.interaction out) key
           = Some (Tensor1 (InteractionMethods.tensor_dtype t) data)
         /\ length data = (length (InteractionMethods.entries t) * r)%nat
         /\ forall j, (j < length data)%nat ->
              data !! j = InteractionMethods.entries t !! (j / r)%nat.
Proof.
  intros d out. unfold out, InteractionMethods.to_device_repeat_interleave.
  cbn [Interaction.interaction Interaction.__init__].
  split; [| split].
  - rewrite <- list_fmap_compose. reflexivity.
  - unfold d. rewrite fmap_cons.
    unfold Interaction.__len__.
    unfold InteractionMethods.repeat_interleave. simpl.
    apply f_equal. apply interleave_length.
  - intros key t Hkey.
    rewrite (dict_get_fmap_key
               (fun (_ : string) (t : tensor) =>
                  InteractionMethods.repeat_interleave r t)).
    rewrite Hkey. eexists. split; [reflexivity |].
    split; [apply interleave_length |].
    intros j Hj. apply interleave_lookup.
    rewrite interleave_length in Hj. destruct r; lia.
Qed.

Lemma zip_replicate {A B} (x : A) (v : list B) :
  zip (replicate (length v) x) v = pair x <$> v.
Proof. induction v as [| y v IH]; simpl; [reflexivity | f_equal; exact IH]. Qed.

Lemma interleave_tile_pairs {A B} (u : list A) (v : list B) :
  zip (u ≫= replicate (length v)) (InteractionMethods.tile (length u) v)
  = u ≫= (fun x => pair x <$> v).
Proof.
  unfold InteractionMethods.tile.
  induction u as [| x u IH]; [reflexivity |].
  rewrite !bind_cons.
  change (mjoin (replicate (length (x :: u)) v))
    with (v ++ mjoin (replicate (length u) v)).
  rewrite zip_with_app by (rewrite length_replicate; reflexivity).
  rewrite zip_replicate.
  f_equal. exact IH.
Qed.

(** X6: pairing every user with every item.  When the user field [u] of one
    Interaction is interleaved by the number of items and the item field
    [v] of another one is tiled by the number of users, the two fields have
    the same length and, position by position, hold every pair of a user
    and an item once, user by user. *)
Theorem interleave_repeat_pairs (ku ki : string) (du di : dtype)
    (u v : list Z) (users items : list (string * tensor)) :
  dict_get users ku = Some (Tensor1 du u) ->
  dict_get items ki = Some (Tensor1 di v) ->
  Forall (fun kv : string * tensor =>
            InteractionMethods.one_dimensional kv.2) items ->
  exists out xs ys,
    InteractionMethods.repeat (Interaction.__init__ items)
      (InteractionMethods.Sizes1 (length u)) = inr out
    /\ dict_get
         (Interaction.interaction
            (InteractionMethods.to_device_repeat_interleave
               (Interaction.__init__ users) (length v))) ku
       = Some (Tensor1 du xs)
    /\ dict_get (Interaction.interaction out) ki = Some (Tensor1 di ys)
    /\ length xs = length ys
    /\ zip xs ys = u ≫= (fun x => pair x <$> v).
Proof.
  intros Hu Hv H1.
  unfold InteractionMethods.repeat,
    InteractionMethods.to_device_repeat_interleave.
  cbn [Interaction.interaction Interaction.__init__].
  rewrite (repeat_fields_once (length u) items H1).
  eexists _, (u ≫= replicate (length v)),
    (InteractionMethods.tile (length u) v).
  split; [reflexivity |].
  cbn [Interaction.interaction Interaction.__init__].
  split; [| split; [| split]].
  - rewrite (dict_get_fmap_key
               (fun (_ : string) (t : tensor) =>
                  InteractionMethods.repeat_interleave (length v) t)).
    rewrite Hu. reflexivity.
  - rewrite (dict_get_fmap_key
               (fun (_ : string) (t : tensor) =>
                  Tensor1 (InteractionMethods.tensor_dtype t)
                    (InteractionMethods.tile (length u)
                       (InteractionMethods.entries t)))).
    rewrite Hv. reflexivity.
  - rewrite interleave_length, tile_length. reflexivity.
  - apply interleave_tile_pairs.
Qed.

Lemma interleave_repeat_pairs_witness :
  exists out xs ys,
    InteractionMethods.repeat
      (Interaction.__init__ [("item_id", Tensor1 Long [7; 8; 9])])
      (InteractionMethods.Sizes1 2) = inr out
    /\ dict_get
         (Interaction.interaction
            (InteractionMethods.to_device_repeat_interleave
               (Interaction.__init__ [("user_id", Tensor1 Long [1; 2])]) 3))
         "user_id" = Some (Tensor1 Long xs)
    /\ dict_get (Interaction.interaction out) "item_id" = Some (Tensor1 Long ys)
    /\ zip xs ys = [(1, 7); (1, 8); (1, 9); (2, 7); (2, 8); (2, 9)].
Proof.
  destruct (interleave_repeat_pairs "user_id" "item_id" Long Long [1; 2]
              [7; 8; 9] [("user_id", Tensor1 Long [1; 2])]
              [("item_id", Tensor1 Long [7; 8; 9])])
    as (out & xs & ys & Hrun & Hxs & Hys & _ & Hzip).
  - reflexivity.
  - reflexivity.
  - repeat constructor.
  - exists out, xs, ys. repeat split; assumption.
Defined.

(** ** Merging Interactions *)

Lemma dict_set_keys_order {V} (d : list (string * V)) k v :
  (dict_set d k v).*1 = if decide (k ∈ d.*1) then d.*1 else d.*1 ++ [k].
Proof.
  induction d as [| [k0 v0] d IH].
  - simpl. destruct (decide (k ∈ [])) as [H | _]; [inversion H | reflexivity].
  - cbn [dict_set]. destruct (decide (k0 = k)) as [-> | Hne].
    + rewrite !fmap_cons. cbn [fst].
      destruct (decide (k ∈ k :: d.*1)) as [_ | H]; [reflexivity |].
      exfalso. apply H. apply elem_of_cons. left. reflexivity.
    + rewrite !fmap_cons, IH. cbn [fst].
      destruct (decide (k ∈ d.*1)) as [Hin | Hout];
        destruct (decide (k ∈ k0 :: d.*1)) as [Hin' | Hout'];
        try reflexivity.
      * exfalso. apply Hout'. apply elem_of_cons. right. exact Hin.
      * exfalso. apply elem_of_cons in Hin' as [-> | Hin']; congruence.
Qed.

Lemma filter_absent (ks seen : list string) (k : string) :
  k ∉ ks ->
  filter (fun x => x ∉ seen ++ [k]) ks = filter (fun x => x ∉ seen) ks.
Proof.
  induction ks as [| x ks IH]; intros Hk; [reflexivity |].
  apply not_elem_of_cons in Hk as [Hne Hk].
  rewrite !filter_cons, IH by assumption.
  destruct (decide (x ∉ seen ++ [k])) as [H1 | H1];
    destruct (decide (x ∉ seen)) as [H2 | H2]; try reflexivity.
  - exfalso. apply H2. intros Hin. apply H1. apply elem_of_app. left.
    exact Hin.
  - exfalso. apply H1. intros Hin. apply elem_of_app in Hin as [Hin | Hin].
    + contradiction.
    + apply list_elem_of_singleton in Hin. congruence.
Qed.

Lemma assign_keys {V} (l : list (string * V)) : forall d : list (string * V),
  NoDup l.*1 ->
  (foldl (fun d (kv : string * V) => dict_set d kv.1 kv.2) d l).*1
  = d.*1 ++ filter (fun k => k ∉ d.*1) l.*1.
Proof.
  induction l as [| [k v] l IH]; intros d Hnd.
  - simpl. rewrite app_nil_r. reflexivity.
  - rewrite fmap_cons in Hnd. apply NoDup_cons in Hnd as [Hk Hnd].
    simpl. rewrite IH by assumption. rewrite dict_set_keys_order.
    rewrite filter_cons. simpl.
    destruct (decide (k ∈ d.*1)) as [Hin | Hout].
    + destruct (decide (k ∉ d.*1)) as [? | _]; [contradiction | reflexivity].
    + destruct (decide (k ∉ d.*1)) as [_ | ?]; [| contradiction].
      rewrite filter_absent by assumption.
      rewrite <- app_assoc. reflexivity.
Qed.

Lemma dict_set_same {V} (d : list (string * V)) k v :
  dict_get d k = Some v -> dict_set d k v = d.
Proof.
  induction d as [| [k0 v0] d IH]; simpl; [discriminate |].
  destruct (decide (k0 = k)) as [-> | Hne].
  - intros [= ->]. reflexivity.
  - intros H. rewrite IH by assumption. reflexivity.
Qed.

Lemma assign_again {V} (l : list (string * V)) : forall d : list (string * V),
  (forall k v, (k, v) ∈ l -> dict_get d k = Some v) ->
  foldl (fun d (kv : string * V) => dict_set d kv.1 kv.2) d l = d.
Proof.
  induction l as [| [k v] l IH]; intros d Hd; [reflexivity |].
  simpl. rewrite dict_set_same.
  - apply IH. intros k' v' Hin. apply Hd. apply elem_of_cons. right. exact Hin.
  - apply Hd. apply elem_of_cons. left. reflexivity.
Qed.

Lemma dict_get_elem {V} (l : list (string * V)) k v :
  NoDup l.*1 -> (k, v) ∈ l -> dict_get l k = Some v.
Proof.
  induction l as [| [k0 v0] l IH]; intros Hnd Hin; [inversion Hin |].
  rewrite fmap_cons in Hnd. apply NoDup_cons in Hnd as [Hk0 Hnd].
  simpl. apply elem_of_cons in Hin as [[= -> ->] | Hin].
  - destruct (decide (k0 = k0)); congruence.
  - destruct (decide (k0 = k)) as [-> | _]; [| auto].
    exfalso. apply Hk0. apply list_elem_of_fmap. exists (k, v). auto.
Qed.

(** X7: [update] keeps the fields of the container in their order and
    appends the new fields of the other container in its order, so the
    first field stays the first; and updating a second time from the same
    container changes nothing. *)
Theorem interaction_update_order (self other : Interaction.t) :
  NoDup (Interaction.interaction other).*1 ->
  (Interaction.interaction (Interaction.update self other)).*1
    = (Interaction.interaction self).*1
        ++ filter (fun k => k ∉ (Interaction.interaction self).*1)
             (Interaction.interaction other).*1
  /\ Interaction.update (Interaction.update self other) other
     = Interaction.update self other.
Proof.
  intros Hnd. split.
  - unfold Interaction.update. simpl. apply assign_keys. assumption.
  - unfold Interaction.update. simpl. f_equal.
    apply assign_again. intros k v Hin.
    rewrite dict_get_assign by assumption.
    rewrite (dict_get_elem _ k v Hnd Hin). reflexivity.
Qed.

Lemma interaction_update_order_witness :
  (Interaction.interaction
     (Interaction.update
        (Interaction.__init__
           [("user_id", Tensor1 Long [1]); ("item_id", Tensor1 Long [7])])
        (Interaction.__init__
           [("score", Tensor1 Float [3]); ("user_id", Tensor1 Long [2])]))).*1
  = ["user_id"; "item_id"; "score"].
Proof.
  destruct (interaction_update_order
              (Interaction.__init__
                 [("user_id", Tensor1 Long [1]); ("item_id", Tensor1 Long [7])])
              (Interaction.__init__
                 [("score", Tensor1 Float [3]); ("user_id", Tensor1 Long [2])]))
    as [Hkeys _].
  - simpl. apply NoDup_cons. split.
    + rewrite list_elem_of_singleton. discriminate.
    + apply NoDup_singleton.
  - rewrite Hkeys. vm_compute. reflexivity.
Defined.

(** ** Converting tables of numbers *)

Lemma dict_literal_nodup {V} (l : list (string * V)) :
  NoDup l.*1 -> dict_literal l = l.
Proof.
  unfold dict_literal.
  assert (H : forall d : list (string * V),
            NoDup (d ++ l).*1 ->
            foldl (fun d (kv : string * V) => dict_set d kv.1 kv.2) d l
            = d ++ l).
  { induction l as [| [k v] l IH]; intros d Hnd; simpl.
    - rewrite app_nil_r. reflexivity.
    - assert (Hset : dict_set d k v = d ++ [(k, v)]).
      { rewrite fmap_app, fmap_cons in Hnd. apply NoDup_app in Hnd as (_ & Hd & _).
        assert (Hk : k ∉ d.*1).
        { intros Hin. apply (Hd k Hin). apply elem_of_cons. left. reflexivity. }
        clear -Hk. induction d as [| [k0 v0] d IH]; [reflexivity |].
        rewrite fmap_cons in Hk. apply not_elem_of_cons in Hk as [Hne Hk].
        simpl. destruct (decide (k0 = k)) as [E | _]; [symmetry in E; contradiction |].
        rewrite IH by assumption. reflexivity. }
      rewrite Hset, IH.
      + rewrite <- app_assoc. reflexivity.
      + rewrite <- app_assoc. exact Hnd. }
  intros Hnd. apply (H []). exact Hnd.
Qed.

Lemma dict_get_middle {V} (d rest : list (string * V)) k v :
  k ∉ d.*1 -> dict_get (d ++ (k, v) :: rest) k = Some v.
Proof.
  intros Hk. rewrite dict_get_app, (dict_get_None d k Hk). simpl.
  destruct (decide (k = k)); congruence.
Qed.

Lemma dict_set_middle {V} (d rest : list (string * V)) k v v' :
  k ∉ d.*1 -> dict_set (d ++ (k, v) :: rest) k v' = d ++ (k, v') :: rest.
Proof.
  intros Hk. induction d as [| [k0 v0] d IH]; simpl.
  - destruct (decide (k = k)); congruence.
  - rewrite fmap_cons in Hk. apply not_elem_of_cons in Hk as [Hne Hk].
    destruct (decide (k0 = k)) as [E | _]; [symmetry in E; contradiction |].
    rewrite IH by assumption. reflexivity.
Qed.

(** A closed statement that a tensor takes a number is settled by
    computation. *)
Ltac taken_cell :=
  vm_compute; first [discriminate | split; [discriminate | reflexivity]].

Lemma scalar_taken (dt : dtype) (z : Z) :
  Flat.taken dt z -> Torch.scalar dt z = Ok (Flat.stored dt z).
Proof.
  intros Hz. destruct dt; simpl in *;
    destruct (decide _); [reflexivity | contradiction
                         | reflexivity | contradiction].
Qed.

Lemma entries_of_numbers (dt : dtype) (cs : list cell) :
  Forall (fun c => exists z, c = CInt z /\ Flat.taken dt z) cs ->
  Torch.entries_of_cells dt cs = Ok (Flat.stored dt <$> Flat.numbers cs).
Proof.
  induction 1 as [| c cs (z & -> & Hz) _ IH]; [reflexivity |].
  cbn [Torch.entries_of_cells Torch.int_of_cell Py.bind].
  rewrite (scalar_taken dt z Hz), IH. reflexivity.
Qed.

(** A turn of the loop on a column of numbers replaces the column by its
    tensor, in place. *)
Lemma convert_field_flat (self : Loader) (done rest : list (string * AbstractDataLoader.pyval))
    (k : string) (cs : list cell) :
  k ∉ done.*1 ->
  Flat.flat (Dataset.field2type (dataset self)) (k, cs) ->
  AbstractDataLoader.convert_field self
    (AbstractDataLoader.DDict (done ++ (k, AbstractDataLoader.Cells cs) :: rest)) k
  = Ok (AbstractDataLoader.DDict
          (done ++ (k, AbstractDataLoader.Tensor
                         (Tensor1 (Flat.dtype_of (Dataset.field2type (dataset self)) k)
                            (Flat.stored
                               (Flat.dtype_of
                                  (Dataset.field2type (dataset self)) k)
                               <$> Flat.numbers cs))) :: rest)).
Proof.
  intros Hk [Hty Hcs]. cbn [fst snd] in Hty, Hcs.
  set (dt := Flat.dtype_of (Dataset.field2type (dataset self)) k) in *.
  pose proof (entries_of_numbers dt cs Hcs) as Hentries.
  unfold AbstractDataLoader.convert_field, AbstractDataLoader.registry.
  destruct Hty as [Hty | Hty].
  - assert (Hdt : dt = Long).
    { unfold dt, Flat.dtype_of. rewrite Hty.
      destruct (decide (Some "token" = Some "token")); congruence. }
    rewrite Hty. cbn [Py.bind].
    destruct (decide ("token" = "token")) as [_ | ?]; [| congruence].
    cbn [AbstractDataLoader.data_get].
    unfold getitem. rewrite dict_get_middle by assumption.
    cbn [Py.bind AbstractDataLoader.tensor_of].
    unfold Torch.of_cells. rewrite <- Hdt, Hentries.
    cbn [Py.bind AbstractDataLoader.data_set].
    rewrite dict_set_middle by assumption. reflexivity.
  - assert (Hdt : dt = Float).
    { unfold dt, Flat.dtype_of. rewrite Hty.
      destruct (decide (Some "float" = Some "token")) as [E | _];
        [discriminate E | reflexivity]. }
    rewrite Hty. cbn [Py.bind].
    destruct (decide ("float" = "token")) as [E | _]; [discriminate E |].
    destruct (decide ("float" = "float")) as [_ | ?]; [| congruence].
    cbn [AbstractDataLoader.data_get].
    unfold getitem. rewrite dict_get_middle by assumption.
    cbn [Py.bind AbstractDataLoader.tensor_of].
    unfold Torch.of_cells. rewrite <- Hdt, Hentries.
    cbn [Py.bind AbstractDataLoader.data_set].
    rewrite dict_set_middle by assumption. reflexivity.
Qed.

(** The loop over a run of columns of numbers. *)
Lemma convert_fields_flat (self : Loader) (pre : list (string * list cell)) :
  forall (done tail : list (string * AbstractDataLoader.pyval))
         (ks : list string),
    NoDup (done.*1 ++ pre.*1) ->
    Forall (Flat.flat (Dataset.field2type (dataset self))) pre ->
    AbstractDataLoader.convert_fields self
      (AbstractDataLoader.DDict
         (done
            ++ ((fun kv : string * list cell =>
                   (kv.1, AbstractDataLoader.Cells kv.2)) <$> pre)
            ++ tail))
      (pre.*1 ++ ks)
    = AbstractDataLoader.convert_fields self
        (AbstractDataLoader.DDict
           (done
              ++ ((fun kv : string * tensor =>
                     (kv.1, AbstractDataLoader.Tensor kv.2))
                    <$> Flat.converted (Dataset.field2type (dataset self)) pre)
              ++ tail))
        ks.
Proof.
  induction pre as [| [k cs] pre IH]; intros done tail ks Hnd Hflat;
    [reflexivity |].
  apply Forall_cons in Hflat as [Hk Hflat].
  rewrite fmap_cons in Hnd.
  assert (Hfresh : k ∉ done.*1).
  { apply NoDup_app in Hnd as (_ & Hd & _). intros Hin.
    apply (Hd k Hin). apply elem_of_cons. left. reflexivity. }
  rewrite !fmap_cons. cbn [fst snd app AbstractDataLoader.convert_fields].
  rewrite (convert_field_flat self done _ k cs Hfresh Hk). cbn [Py.bind].
  specialize (IH (done ++ [(k, AbstractDataLoader.Tensor
                                 (Tensor1 (Flat.dtype_of
                                             (Dataset.field2type (dataset self)) k)
                                    (Flat.stored
                                       (Flat.dtype_of
                                          (Dataset.field2type (dataset self))
                                          k)
                                       <$> Flat.numbers cs)))]) tail ks).
  rewrite <- !app_assoc in IH. cbn [app] in IH. rewrite IH.
  - reflexivity.
  - rewrite fmap_app, <- app_assoc. exact Hnd.
  - exact Hflat.
Qed.

Lemma tensors_converted (fields : list (string * tensor)) :
  AbstractDataLoader.tensors
    ((fun kv : string * tensor => (kv.1, AbstractDataLoader.Tensor kv.2))
       <$> fields)
  = Ok fields.
Proof.
  induction fields as [| [k t] fields IH]; [reflexivity |].
  rewrite fmap_cons. simpl. rewrite IH. reflexivity.
Qed.

Lemma to_dict_nodup (df : DataFrame) :
  NoDup (columns df).*1 ->
  AbstractDataLoader.to_dict df
  = (fun kv : string * list cell => (kv.1, AbstractDataLoader.Cells kv.2))
      <$> columns df.
Proof.
  intros Hnd. unfold AbstractDataLoader.to_dict. apply dict_literal_nodup.
  rewrite <- list_fmap_compose. exact Hnd.
Qed.

Lemma conversion_of_numbers (self : Loader) (df : DataFrame) :
  NoDup (columns df).*1 ->
  Forall (Flat.flat (Dataset.field2type (dataset self))) (columns df) ->
  AbstractDataLoader._dataframe_to_interaction self df
  = Ok (Interaction.__init__
          (Flat.converted (Dataset.field2type (dataset self)) (columns df))).
Proof.
  intros Hnd Hflat.
  unfold AbstractDataLoader._dataframe_to_interaction.
  rewrite (to_dict_nodup df Hnd).
  unfold dict_keys. rewrite <- list_fmap_compose.
  change (fst ∘ (fun kv : string * list cell =>
                   (kv.1, AbstractDataLoader.Cells kv.2)))
    with (fst : string * list cell -> string).
  pose proof (convert_fields_flat self (columns df) [] [] [] ) as H.
  rewrite !app_nil_r in H. cbn [app] in H.
  rewrite H by assumption. cbn [AbstractDataLoader.convert_fields Py.bind].
  rewrite tensors_converted. reflexivity.
Qed.

Lemma converted_length (reg : gmap string string) (k0 : string)
    (cs0 : list cell) (rest : list (string * list cell)) :
  Interaction.__len__
    (Interaction.__init__ (Flat.converted reg ((k0, cs0) :: rest)))
  = Ok (length cs0).
Proof.
  simpl. unfold Interaction.__len__. simpl.
  unfold Flat.numbers. rewrite !length_fmap. reflexivity.
Qed.

(** Whole numbers of at most 24 bits are [float32] values; the next one
    is not, and is rounded to the even neighbour. *)
Lemma float32_exact (z : Z) : Z.abs z <= 16777216 -> Torch.float32 z = z.
Proof.
  intros Hz. unfold Torch.float32.
  destruct (Z.ltb_spec (Z.abs z) 16777216) as [_ | Hge]; [reflexivity |].
  assert (Ha : Z.abs z = 16777216) by lia.
  rewrite Ha.
  destruct (Z.abs_spec z) as [[_ E] | [_ E]].
  - assert (z = 16777216) as -> by lia. reflexivity.
  - assert (z = -16777216) as -> by lia. reflexivity.
Qed.

Lemma float32_rounds : Torch.float32 16777217 = 16777216.
Proof. reflexivity. Qed.

(** X8: a table whose column names are distinct and whose columns hold
    whole numbers and are declared [token] or [float], the numbers of a
    [token] column being [int64] values and those of a [float] column at
    most [2 ** 53] in size, is converted without error: the Interaction has
    the columns in their order, each as a one-dimensional tensor, a
    [LongTensor] of the numbers for [token] and a [FloatTensor] of the
    [float32] values nearest to the numbers for [float]; its length is the
    number of cells of the first column. *)
Theorem dataframe_to_interaction_numbers (self : Loader) (df : DataFrame) :
  let reg := Dataset.field2type (dataset self) in
  NoDup (columns df).*1 ->
  Forall (Flat.flat reg) (columns df) ->
  AbstractDataLoader._dataframe_to_interaction self df
    = Ok (Interaction.__init__ (Flat.converted reg (columns df)))
  /\ (forall k0 cs0 rest,
        columns df = (k0, cs0) :: rest ->
        Interaction.__len__
          (Interaction.__init__ (Flat.converted reg (columns df)))
        = Ok (length cs0)).
Proof.
  intros reg Hnd Hflat. split.
  - apply conversion_of_numbers; assumption.
  - intros k0 cs0 rest Hcols. rewrite Hcols. apply converted_length.
Qed.

Lemma dataframe_to_interaction_numbers_witness :
  AbstractDataLoader._dataframe_to_interaction
    (Sample.pairwise_self (Some Sample.items)) Sample.items
  = Ok (Interaction.__init__
          [("item_id", Tensor1 Long [10; 99; 40]);
           ("price", Tensor1 Float [5; 6; 7])]).
Proof.
  destruct (dataframe_to_interaction_numbers
              (Sample.pairwise_self (Some Sample.items)) Sample.items)
    as [Hrun _].
  - simpl. apply NoDup_cons. split.
    + rewrite list_elem_of_singleton. discriminate.
    + apply NoDup_singleton.
  - apply Forall_cons. split; [| apply Forall_cons; split; [| apply Forall_nil]].
    + split; [left; vm_compute; reflexivity |].
      simpl. repeat (apply Forall_cons; split; [eexists; split; [reflexivity | taken_cell] |]).
      apply Forall_nil. exact I.
    + split; [right; vm_compute; reflexivity |].
      simpl. repeat (apply Forall_cons; split; [eexists; split; [reflexivity | taken_cell] |]).
      apply Forall_nil. exact I.
    + exact I.
  - rewrite Hrun. vm_compute. reflexivity.
Defined.

(** X9: the conversion stops at the first column that it cannot convert.
    When the columns before it hold whole numbers declared [token] or
    [float] that the tensor of that type takes ([int64] values for
    [token], numbers of at most [2 ** 53] in size for [float]), a
    column whose field has no declared type raises [KeyError] with the
    field's name, and a column whose declared type is none of the four
    known ones raises [ValueError] with a message that quotes the type;
    the columns after it are not looked at. *)
Theorem dataframe_to_interaction_first_error (self : Loader) (df : DataFrame)
    (pre post : list (string * list cell)) (k : string) (cs : list cell) :
  let reg := Dataset.field2type (dataset self) in
  columns df = pre ++ (k, cs) :: post ->
  NoDup (columns df).*1 ->
  Forall (Flat.flat reg) pre ->
  (reg !! k = None ->
   AbstractDataLoader._dataframe_to_interaction self df = Raise (KeyError k))
  /\ (forall ty,
        reg !! k = Some ty ->
        ty ∉ Flat.known_types ->
        AbstractDataLoader._dataframe_to_interaction self df
        = Raise (ValueError ("Illegal ftype [" +:+ ty +:+ "]"))).
Proof.
  intros reg Hcols Hnd Hflat.
  assert (Hrun : AbstractDataLoader._dataframe_to_interaction self df
                 = (data' <~ AbstractDataLoader.convert_fields self
                      (AbstractDataLoader.DDict
                         (((fun kv : string * tensor =>
                              (kv.1, AbstractDataLoader.Tensor kv.2))
                             <$> Flat.converted reg pre)
                            ++ ((fun kv : string * list cell =>
                                   (kv.1, AbstractDataLoader.Cells kv.2))
                                  <$> (k, cs) :: post)))
                      (k :: post.*1) ;;
                    match data' with
                    | AbstractDataLoader.DDict d =>
                        ts <~ AbstractDataLoader.tensors d ;;
                        Ok (Interaction.__init__ ts)
                    | AbstractDataLoader.DList _ =>
                        Raise (TypeError "list indices must be integers")
                    end)).
  { unfold AbstractDataLoader._dataframe_to_interaction.
    rewrite (to_dict_nodup df Hnd).
    unfold dict_keys. rewrite <- list_fmap_compose.
    change (fst ∘ (fun kv : string * list cell =>
                     (kv.1, AbstractDataLoader.Cells kv.2)))
      with (fst : string * list cell -> string).
    rewrite Hcols, !fmap_app.
    pose proof (convert_fields_flat self pre []
                  ((fun kv : string * list cell =>
                      (kv.1, AbstractDataLoader.Cells kv.2))
                     <$> (k, cs) :: post)
                  (((k, cs) :: post).*1)) as H.
    cbn [app] in H. rewrite H.
    - rewrite fmap_cons. reflexivity.
    - rewrite Hcols, fmap_app in Hnd. apply NoDup_app in Hnd as (Hp & _ & _).
      exact Hp.
    - exact Hflat. }
  rewrite Hrun. clear Hrun. split.
  - intros Hnone.
    cbn [AbstractDataLoader.convert_fields].
    unfold AbstractDataLoader.convert_field, AbstractDataLoader.registry.
    fold reg. rewrite Hnone. reflexivity.
  - intros ty Hty Hknown.
    cbn [AbstractDataLoader.convert_fields].
    unfold AbstractDataLoader.convert_field, AbstractDataLoader.registry.
    fold reg. rewrite Hty. cbn [Py.bind].
    unfold Flat.known_types in Hknown.
    repeat (apply not_elem_of_cons in Hknown as [? Hknown]).
    repeat (destruct (decide _) as [E | _]; [contradiction |]).
    reflexivity.
Qed.

Lemma dataframe_to_interaction_first_error_witness :
  AbstractDataLoader._dataframe_to_interaction
    (Sample.pairwise_self (Some Sample.items))
    {| nrows := 1;
       columns := [("item_id", [CInt 10]); ("colour", [CInt 1]);
                   ("history", [CInt 3])] |}
  = Raise (KeyError "colour").
Proof.
  destruct (dataframe_to_interaction_first_error
              (Sample.pairwise_self (Some Sample.items))
              {| nrows := 1;
                 columns := [("item_id", [CInt 10]); ("colour", [CInt 1]);
                             ("history", [CInt 3])] |}
              [("item_id", [CInt 10])] [("history", [CInt 3])]
              "colour" [CInt 1]) as [Hkey _].
  - reflexivity.
  - simpl. repeat (apply NoDup_cons; split;
                   [rewrite ?list_elem_of_singleton, ?elem_of_cons;
                    intros H; decompose [or] H; try discriminate;
                    try (eapply elem_of_nil; eassumption) |]).
    apply NoDup_nil. exact I.
  - apply Forall_cons. split; [| apply Forall_nil; exact I].
    split; [left; vm_compute; reflexivity |].
    simpl. apply Forall_cons. split; [eexists; split; [reflexivity | taken_cell] |].
    apply Forall_nil. exact I.
  - apply Hkey. vm_compute. reflexivity.
Defined.

(** ** A pass of the interaction-based loader *)

(** Below the end of the table a call takes the rows from the cursor to
    [step] rows further, moves the cursor there, and in real-time mode
    samples for the rows taken. *)
Lemma interaction_fetch_more (self : Loader) (st : Z) :
  step self = Some st ->
  pr self < Z.of_nat (nrows (Dataset.inter_feat (dataset self))) ->
  AbstractDataLoader.fetch GeneralInteractionBasedDataLoader.pr_end
    GeneralInteractionBasedDataLoader._shuffle
    GeneralInteractionBasedDataLoader._next_dataframe self
  = (set_pr (pr self + st) self,
     if real_time_neg_sampling self
     then GeneralInteractionBasedDataLoader._neg_sampling self
            (Dataset.__getitem__ (dataset self) (pr self) (pr self + st))
     else Ok (Dataset.__getitem__ (dataset self) (pr self) (pr self + st))).
Proof.
  intros Hst Hlt.
  unfold AbstractDataLoader.fetch, mbind', gets,
    GeneralInteractionBasedDataLoader.pr_end, Dataset.__len__, Pd.len.
  destruct (Z.leb_spec (Z.of_nat (nrows (Dataset.inter_feat (dataset self))))
              (pr self)); [lia |].
  unfold GeneralInteractionBasedDataLoader._next_dataframe, mbind', gets,
    getattr, modify, ret.
  rewrite Hst. cbv beta iota.
  cbn [real_time_neg_sampling set_pr].
  destruct (real_time_neg_sampling self); reflexivity.
Qed.













(** The sampling does not read the cursor. *)
Lemma interaction_sampling_cursor (self : Loader) (c : Z) (df : DataFrame) :
  GeneralInteractionBasedDataLoader._neg_sampling (set_pr c self) df
  = GeneralInteractionBasedDataLoader._neg_sampling self df.
Proof. reflexivity. Qed.




(** ** What iteration does not read *)

Section Respects.

Variable f : Loader -> Loader.

Lemma respects_ret {A} (a : A) : Independence.respects f (ret a).
Proof. intros s. reflexivity. Qed.

Lemma respects_raise {A} (e : exn) : Independence.respects f (@raise A e).
Proof. intros s. reflexivity. Qed.

Lemma respects_lift {A} (r : result A) : Independence.respects f (lift r).
Proof. intros s. reflexivity. Qed.

Lemma respects_bind {A B} (m : M A) (k : A -> M B) :
  Independence.respects f m ->
  (forall a, Independence.respects f (k a)) ->
  Independence.respects f (mbind' m k).
Proof.
  intros Hm Hk s. unfold mbind'. rewrite (Hm s).
  destruct (m s) as [s' [a | e]]; simpl; [apply Hk | reflexivity].
Qed.

Lemma respects_read {A} (g : Loader -> result A) :
  (forall s, g (f s) = g s) ->
  Independence.respects f (fun s => (s, g s)).
Proof. intros Hg s. simpl. rewrite Hg. reflexivity. Qed.

Lemma respects_gets {A} (g : Loader -> A) :
  (forall s, g (f s) = g s) -> Independence.respects f (gets g).
Proof. intros Hg s. unfold gets. simpl. rewrite Hg. reflexivity. Qed.

Lemma respects_getattr {A} (name : string) (g : Loader -> option A) :
  (forall s, g (f s) = g s) -> Independence.respects f (getattr name g).
Proof.
  intros Hg s. unfold getattr. rewrite Hg. destruct (g s); reflexivity.
Qed.

Lemma respects_modify (h : Loader -> Loader) :
  (forall s, h (f s) = f (h s)) -> Independence.respects f (modify h).
Proof. intros Hh s. unfold modify. simpl. rewrite Hh. reflexivity. Qed.

End Respects.

(** Going through the code of a method, statement by statement. *)
Ltac respect :=
  repeat first
    [ apply respects_ret
    | apply respects_raise
    | apply respects_lift
    | apply respects_gets; intros; reflexivity
    | apply respects_getattr; intros; reflexivity
    | apply respects_modify; intros; reflexivity
    | apply respects_read; intros; reflexivity
    | apply respects_bind; [| intros]
    | match goal with
      | |- Independence.respects _ (if ?b then _ else _) => destruct b
      | |- Independence.respects _ (match ?x with _ => _ end) => destruct x
      end ].

Section BatchSize.

Variable n : Z.

Lemma interaction_fetch_respects :
  Independence.respects (set_batch_size_attr n)
    (AbstractDataLoader.fetch GeneralInteractionBasedDataLoader.pr_end
       GeneralInteractionBasedDataLoader._shuffle
       GeneralInteractionBasedDataLoader._next_dataframe).
Proof.
  unfold AbstractDataLoader.fetch,
    GeneralInteractionBasedDataLoader._shuffle,
    GeneralInteractionBasedDataLoader._next_dataframe.
  respect.
Qed.

Lemma take_break_respects (i : nat) (l : GeneralGroupedDataLoader.locals) :
  Independence.respects (set_batch_size_attr n)
    (GeneralGroupedDataLoader.take_break i l).
Proof. unfold GeneralGroupedDataLoader.take_break. respect. Qed.

Lemma group_body_respects (u i l : string) (to : Z) (j : nat)
    (row : Z * list Z) (loc : GeneralGroupedDataLoader.locals) :
  Independence.respects (set_batch_size_attr n)
    (GeneralGroupedDataLoader.group_body u i l to j row loc).
Proof.
  unfold GeneralGroupedDataLoader.group_body. cbv zeta.
  do 4 (apply respects_bind; [respect | intros]).
  apply take_break_respects.
Qed.

Lemma groups_loop_respects (u i l : string) (to : Z) (rows : Groups) :
  forall (j : nat) (loc : GeneralGroupedDataLoader.locals),
    Independence.respects (set_batch_size_attr n)
      (GeneralGroupedDataLoader.groups_loop u i l to j rows loc).
Proof.
  induction rows as [| row rows IH]; intros j loc; simpl.
  - apply respects_ret.
  - apply respects_bind; [apply group_body_respects | intros; apply IH].
Qed.

Lemma grouped_sampling_respects (g : Groups) :
  Independence.respects (set_batch_size_attr n)
    (GeneralGroupedDataLoader._neg_sampling g).
Proof.
  unfold GeneralGroupedDataLoader._neg_sampling. cbv zeta.
  apply respects_bind; [respect | intros cfg].
  apply respects_bind; [respect | intros nsa].
  apply respects_bind; [respect | intros zu].
  apply respects_bind; [respect | intros zi].
  apply respects_bind; [respect | intros zl].
  apply respects_bind; [apply groups_loop_respects | intros loc].
  respect.
Qed.

Lemma grouped_fetch_respects :
  Independence.respects (set_batch_size_attr n)
    (AbstractDataLoader.fetch GeneralGroupedDataLoader.pr_end
       GeneralGroupedDataLoader._shuffle
       GeneralGroupedDataLoader._next_dataframe).
Proof.
  unfold AbstractDataLoader.fetch, GeneralGroupedDataLoader._shuffle,
    GeneralGroupedDataLoader._next_dataframe,
    GeneralGroupedDataLoader.next_pr.
  apply respects_bind; [respect | intros p].
  apply respects_bind; [respect | intros e].
  destruct (e <=? p); [respect |].
  apply respects_bind; [respect | intros rt].
  destruct rt; [| respect].
  apply respects_bind; [respect | intros p'].
  apply respects_bind; [respect | intros st].
  apply respects_bind; [respect | intros u].
  apply respects_bind; [apply grouped_sampling_respects | intros df].
  respect.
Qed.

End BatchSize.

(** The conversion reads the dataset of the loader, and nothing else of
    it. *)
Lemma dataframe_to_interaction_dataset (s s' : Loader) (df : DataFrame) :
  dataset s = dataset s' ->
  AbstractDataLoader._dataframe_to_interaction s df
  = AbstractDataLoader._dataframe_to_interaction s' df.
Proof.
  intros Hds. unfold AbstractDataLoader._dataframe_to_interaction.
  assert (H : forall ks data,
            AbstractDataLoader.convert_fields s data ks
            = AbstractDataLoader.convert_fields s' data ks).
  { induction ks as [| k ks IH]; intros data;
      cbn [AbstractDataLoader.convert_fields]; [reflexivity |].
    replace (AbstractDataLoader.convert_field s data k)
      with (AbstractDataLoader.convert_field s' data k)
      by (unfold AbstractDataLoader.convert_field; rewrite Hds; reflexivity).
    destruct (AbstractDataLoader.convert_field s' data k) as [d | e];
      cbn [Py.bind]; [apply IH | reflexivity]. }
  rewrite H. reflexivity.
Qed.

(** X13: no call of [__next__] reads the batch size, in either loader and
    in either mode: with another value assigned to [batch_size], a call
    returns the same batch or raises the same exception, and leaves the
    same loader but for that value; and [set_batch_size] on an idle loader
    assigns the value and nothing else, so that [step] and the batches of
    the passes that follow are those of the batch size adapted at
    construction. *)
Theorem next_ignores_batch_size (n : Z) :
  Independence.respects (set_batch_size_attr n)
    InteractionBasedIteration.__next__
  /\ Independence.respects (set_batch_size_attr n)
       GeneralGroupedDataLoader.__next__
  /\ (forall self : Loader,
        pr self = 0 ->
        AbstractDataLoader.set_batch_size n self
          = (set_batch_size_attr n self, Ok tt)
        /\ step (set_batch_size_attr n self) = step self
        /\ (InteractionBasedIteration.__next__
              (AbstractDataLoader.set_batch_size n self).1).2
           = (InteractionBasedIteration.__next__ self).2
        /\ (GeneralGroupedDataLoader.__next__
              (AbstractDataLoader.set_batch_size n self).1).2
           = (GeneralGroupedDataLoader.__next__ self).2).
Proof.
  assert (Hi : Independence.respects (set_batch_size_attr n)
                 InteractionBasedIteration.__next__).
  { unfold InteractionBasedIteration.__next__, AbstractDataLoader.__next__.
    apply respects_bind; [apply interaction_fetch_respects | intros df].
    apply respects_read. intros s.
    apply dataframe_to_interaction_dataset. reflexivity. }
  assert (Hg : Independence.respects (set_batch_size_attr n)
                 GeneralGroupedDataLoader.__next__).
  { unfold GeneralGroupedDataLoader.__next__, AbstractDataLoader.__next__.
    apply respects_bind; [apply grouped_fetch_respects | intros df].
    apply respects_read. intros s.
    apply dataframe_to_interaction_dataset. reflexivity. }
  split; [exact Hi | split; [exact Hg |]].
  intros self Hpr.
  assert (Hset : AbstractDataLoader.set_batch_size n self
                 = (set_batch_size_attr n self, Ok tt)).
  { rewrite set_batch_size_idle by assumption.
    destruct (decide (batch_size self = n)) as [<- | _]; [| reflexivity].
    destruct self; reflexivity. }
  split; [exact Hset |].
  split; [reflexivity |].
  rewrite Hset. cbn [fst]. rewrite (Hi self), (Hg self). split; reflexivity.
Qed.

Lemma next_ignores_batch_size_witness :
  (InteractionBasedIteration.__next__
     (AbstractDataLoader.set_batch_size 100
        (Sample.pointwise_self false)).1).2
  = (InteractionBasedIteration.__next__ (Sample.pointwise_self false)).2.
Proof.
  destruct (next_ignores_batch_size 100) as (_ & _ & H).
  destruct (H (Sample.pointwise_self false)) as (_ & _ & Hnext & _).
  - reflexivity.
  - exact Hnext.
Defined.

(** X14: the cursor of the interaction-based loader moves with the first
    call of a pass, whether or not the call returns a batch: once
    [__next__] has been called on an idle loader whose table has a row and
    whose [step] is not zero, [set_batch_size] is refused for every
    value. *)
Theorem set_batch_size_during_pass (self : Loader) (st n : Z) :
  step self = Some st ->
  st <> 0 ->
  pr self = 0 ->
  (0 < nrows (Dataset.inter_feat (dataset self)))%nat ->
  let s1 := (InteractionBasedIteration.__next__ self).1 in
  pr s1 = st
  /\ AbstractDataLoader.set_batch_size n s1
     = (s1, Raise AbstractDataLoader.busy).
Proof.
  intros Hst Hnz Hpr Hrows s1.
  assert (Hs1 : s1 = set_pr (pr self + st) self).
  { unfold s1, InteractionBasedIteration.__next__,
      AbstractDataLoader.__next__, mbind'.
    rewrite (interaction_fetch_more self st Hst) by lia.
    destruct (if real_time_neg_sampling self then _ else _); reflexivity. }
  rewrite Hs1, Hpr. split; [simpl; lia |].
  apply set_batch_size_busy. simpl. lia.
Qed.

Lemma set_batch_size_during_pass_witness :
  AbstractDataLoader.set_batch_size 12
    (InteractionBasedIteration.__next__ (Sample.pointwise_self false)).1
  = ((InteractionBasedIteration.__next__ (Sample.pointwise_self false)).1,
     Raise AbstractDataLoader.busy).
Proof.
  apply (set_batch_size_during_pass (Sample.pointwise_self false) 12 12);
    [reflexivity | lia | reflexivity | simpl; lia].
Defined.

(** ** A pass of the grouped loader in real-time mode *)










(** ** Grouped sampling in full mode *)

(** X16: in full mode, where [to] stands for the item count, every group
    keeps all its positives and takes the negatives that the sampler's
    full sampling returns for its user: provided each group fits the
    candidate-set size, the table has, group after group, the positives
    with label 1 followed by the negatives with label 0, under the user's
    id.  In real-time mode the table is handed to the dataset's join.
    The ids are [int64] values, as the buffers take no others. *)
Theorem grouped_sampling_full (self : Loader) (rows : Groups) :
  let u := USER_ID_FIELD (config self) in
  let i := ITEM_ID_FIELD (config self) in
  let l := LABEL_FIELD (config self) in
  let to := to_ (neg_sample_args self) in
  let drawn (j : nat) (row : Z * list Z) :=
    sample_full_by_user_id (sampler self) j (phase self) row.1 in
  u <> i -> u <> l -> i <> l ->
  full self = Some true ->
  (forall j row, rows !! j = Some row ->
     Z.of_nat (length (row.2 ++ drawn j row)) <= to) ->
  (forall j row, rows !! j = Some row ->
     Np.int64 row.1
     /\ Forall Np.int64 row.2
     /\ Forall Np.int64 (drawn j row)) ->
  (real_time_neg_sampling self = false ->
   rows <> [] /\ exists st, step self = Some st /\ st <> 0) ->
  exists self' frame,
    GeneralGroupedDataLoader._neg_sampling rows self
      = (self',
         Ok (if real_time_neg_sampling self
             then Dataset.join (dataset self) frame else frame))
    /\ columns frame =
         [(u, CInt <$> mjoin (imap (fun j row =>
                 replicate (length (row.2 ++ drawn j row)) row.1) rows));
          (i, CInt <$> mjoin (imap (fun j row => row.2 ++ drawn j row) rows));
          (l, CInt <$> mjoin (imap (fun j row =>
                 replicate (length row.2) 1
                   ++ replicate (length (drawn j row)) 0) rows))]
    /\ nrows frame
         = length (mjoin (imap (fun j row => row.2 ++ drawn j row) rows))
    /\ dataset self' = dataset self.
Proof.
  intros u i l to drawn Hui Hul Hil Hfull Hfits Hrange Hpre.
  assert (Hrg : Expected.ranged (sampler self) (phase self) true to 0 rows).
  { apply ranged_lookup. intros k row Hk. exact (Hrange k row Hk). }
  assert (Hwidth : forall j row,
            Expected.width (sampler self) (phase self) true to j row
            = length (row.2 ++ drawn j row)).
  { intros j row. unfold Expected.width, Expected.negatives,
      Expected.positives. rewrite length_app. reflexivity. }
  assert (Hfit : Z.of_nat (Expected.total (sampler self) (phase self) true to
                             0 rows)
                 <= Z.of_nat (length rows) * to).
  { destruct rows as [| row0 rows0] eqn:Hrows; [simpl; lia |].
    rewrite <- Hrows in *.
    assert (Hto : 0 <= to).
    { pose proof (Hfits 0%nat row0) as H. rewrite Hrows in H.
      specialize (H eq_refl). lia. }
    assert (Expected.total (sampler self) (phase self) true to 0 rows
            <= length rows * Z.to_nat to)%nat; [| nia].
    apply total_le. intros k row Hk. simpl. rewrite Hwidth.
    pose proof (Hfits k row Hk). lia. }
  assert (Hframe :
    columns (Expected.frame (sampler self) (phase self) true to u i l rows) =
      [(u, CInt <$> mjoin (imap (fun j row =>
              replicate (length (row.2 ++ drawn j row)) row.1) rows));
       (i, CInt <$> mjoin (imap (fun j row => row.2 ++ drawn j row) rows));
       (l, CInt <$> mjoin (imap (fun j row =>
              replicate (length row.2) 1
                ++ replicate (length (drawn j row)) 0) rows))]
    /\ nrows (Expected.frame (sampler self) (phase self) true to u i l rows)
       = length (mjoin (imap (fun j row => row.2 ++ drawn j row) rows))).
  { unfold Expected.frame, Pd.of_arrays. simpl.
    rewrite uids_length, <- (iids_length to (sampler self) (phase self) true).
    rewrite uids_by_groups, iids_by_groups, labels_by_groups.
    assert (E1 : imap (fun j row =>
                   replicate (Expected.width (sampler self) (phase self) true
                                to j row) row.1) rows
                 = imap (fun j row =>
                     replicate (length (row.2 ++ drawn j row)) row.1) rows).
    { apply imap_ext. intros j row _. cbv beta. rewrite Hwidth. reflexivity. }
    rewrite E1. split; reflexivity. }
  destruct Hframe as [Hcols Hrows].
  destruct (real_time_neg_sampling self) eqn:Hrt.
  - exists self,
      (Expected.frame (sampler self) (phase self) true to u i l rows).
    split; [| split; [exact Hcols | split; [exact Hrows | reflexivity]]].
    apply neg_sampling_rt; auto.
  - destruct (Hpre eq_refl) as (Hne & st & Hst & Hnz).
    destruct rows as [| row rows]; [congruence |].
    eexists _, (Expected.frame (sampler self) (phase self) true to u i l
                  (row :: rows)).
    split; [| split; [exact Hcols | split; [exact Hrows |]]].
    + apply (neg_sampling_pre u i l Hui Hul Hil to self true st); auto.
    + reflexivity.
Qed.

Lemma grouped_sampling_full_witness :
  exists self' frame,
    GeneralGroupedDataLoader._neg_sampling [(1, [10; 11]); (2, [20])]
      (set_full true (Sample.grouped_self true 3))
    = (self', Ok (Dataset.join (Sample.data None) frame))
    /\ nrows frame = 7%nat.
Proof.
  destruct (grouped_sampling_full
              (set_full true (Sample.grouped_self true 3))
              [(1, [10; 11]); (2, [20])])
    as (self' & frame & Hrun & _ & Hrows & _).
  - discriminate.
  - discriminate.
  - discriminate.
  - reflexivity.
  - intros [| [| j]] row H; simpl in H; try discriminate H;
      injection H as <-; simpl; lia.
  - intros [| [| j]] row H; simpl in H; try discriminate H;
      injection H as <-; in_range.
  - intros H. discriminate H.
  - exists self', frame. split; [exact Hrun | rewrite Hrows; reflexivity].
Defined.

(** ** The fields that the constructors declare *)

Lemma prefixed_elem (p c : string) (cols : list string) :
  p +:+ c ∈ (fun c' => p +:+ c') <$> cols -> c ∈ cols.
Proof.
  intros H. apply list_elem_of_fmap in H as (c' & E & Hc').
  apply append_inj in E. subst c'. exact Hc'.
Qed.

(** The loop of the pairwise constructor over the item columns: with the
    columns declared, none of them the prefixed name of another, it gives
    every column's negative twin the column's three declarations and
    leaves the other declarations, and the rest of the loader, as they
    were. *)
Lemma register_negatives_spec (p : string) (cols : list string) :
  forall s : Loader,
    (forall c, c ∈ cols -> Checks.declared (dataset s) c) ->
    (forall c c', c ∈ cols -> c' ∈ cols -> c <> p +:+ c') ->
    exists ty src sl,
      foldr (fun item_feat_col rest =>
               mbind' (GeneralInteractionBasedDataLoader.register_negative p
                         item_feat_col) (fun _ => rest))
            (ret tt) cols s
      = (set_dataset
           (Dataset.mk (Dataset.inter_feat (dataset s))
              (Dataset.item_feat (dataset s)) (Dataset.uid2items (dataset s))
              (Dataset.item_num (dataset s)) ty src sl
              (Dataset.join (dataset s)) (Dataset.shuffle (dataset s))
              (Dataset.sample (dataset s))) s,
         Ok tt)
      /\ (forall c, c ∈ cols ->
            ty !! (p +:+ c) = Dataset.field2type (dataset s) !! c
            /\ src !! (p +:+ c) = Dataset.field2source (dataset s) !! c
            /\ sl !! (p +:+ c) = Dataset.field2seqlen (dataset s) !! c)
      /\ (forall k, k ∉ (fun c => p +:+ c) <$> cols ->
            ty !! k = Dataset.field2type (dataset s) !! k
            /\ src !! k = Dataset.field2source (dataset s) !! k
            /\ sl !! k = Dataset.field2seqlen (dataset s) !! k).
Proof.
  induction cols as [| c cols IH]; intros s Hdecl Hfresh.
  - exists (Dataset.field2type (dataset s)),
      (Dataset.field2source (dataset s)),
      (Dataset.field2seqlen (dataset s)).
    split; [| split].
    + destruct s as [? d ? ? ? ? ? ? ? ? ? ? ? ? ? ? ?]. destruct d.
      reflexivity.
    + intros c Hc. inversion Hc.
    + intros k _. auto.
  - destruct (Hdecl c) as ([t Ht] & [sr Hsr] & [n Hn]);
      [apply elem_of_cons; left; reflexivity |].
    set (s1 := on_dataset (Dataset.set_seqlen (p +:+ c) n)
                 (on_dataset (Dataset.set_source (p +:+ c) sr)
                    (on_dataset (Dataset.set_type (p +:+ c) t) s))).
    assert (Hrun : GeneralInteractionBasedDataLoader.register_negative p c s
                   = (s1, Ok tt)).
    { unfold GeneralInteractionBasedDataLoader.register_negative, mbind',
        read_registry, modify.
      rewrite Ht. simpl. rewrite Hsr. simpl. rewrite Hn. reflexivity. }
    destruct (IH s1) as (ty & src & sl & Hloop & Htwin & Hrest).
    { intros c' Hc'.
      destruct (Hdecl c') as (H1 & H2 & H3);
        [apply elem_of_cons; right; exact Hc' |].
      unfold Checks.declared. simpl.
      repeat split; apply lookup_insert_is_Some'; right; assumption. }
    { intros c1 c2 H1 H2. apply Hfresh; apply elem_of_cons; right; assumption. }
    exists ty, src, sl. split; [| split].
    + cbn [foldr]. unfold mbind' at 1. rewrite Hrun, Hloop. reflexivity.
    + intros c0 Hc0.
      assert (Hne : c0 <> p +:+ c).
      { apply Hfresh; [exact Hc0 | apply elem_of_cons; left; reflexivity]. }
      destruct (decide (c0 ∈ cols)) as [Hin | Hnin].
      * destruct (Htwin c0 Hin) as (E1 & E2 & E3).
        rewrite E1, E2, E3. simpl.
        rewrite !lookup_insert_ne by (intros E; apply Hne; symmetry; exact E).
        auto.
      * apply elem_of_cons in Hc0 as [-> | Hc0]; [| contradiction].
        destruct (Hrest (p +:+ c)) as (E1 & E2 & E3).
        { intros H. apply Hnin. apply (prefixed_elem p). exact H. }
        rewrite E1, E2, E3. simpl.
        rewrite !lookup_insert_eq. rewrite Ht, Hsr, Hn. auto.
    + intros k Hk. rewrite fmap_cons in Hk.
      apply not_elem_of_cons in Hk as [Hne Hk].
      destruct (Hrest k Hk) as (E1 & E2 & E3).
      rewrite E1, E2, E3. simpl.
      rewrite !lookup_insert_ne by (intros E; apply Hne; symmetry; exact E).
      auto.
Qed.

(** X17: the construction of a pairwise loader in real-time mode, with
    [by = 1], declared item columns and no item column that is the
    prefixed name of another, ends well: every item column's negative twin
    has the type, the source and the sequence length of the column, the
    other declarations and the interaction table are untouched, and both
    the batch size and [step] are the batch size asked for. *)
Theorem pairwise_negative_fields (cfg : Config) (smp : Sampler) (ph : string)
    (nsa : NegSampleArgs) (b : Z) (sh : bool) (s : Loader) :
  let cols := Checks.negative_columns cfg (dataset s) in
  let p := NEG_PREFIX cfg in
  let made :=
    GeneralInteractionBasedDataLoader.__init__ cfg smp ph nsa b "pairwise"
      sh s in
  let d := dataset s in
  let d' := dataset made.1 in
  strategy nsa = "by" ->
  by_ nsa = 1 ->
  real_time nsa = true ->
  (forall c, c ∈ cols -> Checks.declared d c) ->
  (forall c c', c ∈ cols -> c' ∈ cols -> c <> p +:+ c') ->
  made.2 = Ok tt
  /\ (forall c, c ∈ cols ->
        Dataset.field2type d' !! (p +:+ c) = Dataset.field2type d !! c
        /\ Dataset.field2source d' !! (p +:+ c) = Dataset.field2source d !! c
        /\ Dataset.field2seqlen d' !! (p +:+ c)
           = Dataset.field2seqlen d !! c)
  /\ (forall k, k ∉ (fun c => p +:+ c) <$> cols ->
        Dataset.field2type d' !! k = Dataset.field2type d !! k
        /\ Dataset.field2source d' !! k = Dataset.field2source d !! k
        /\ Dataset.field2seqlen d' !! k = Dataset.field2seqlen d !! k)
  /\ Dataset.inter_feat d' = Dataset.inter_feat d
  /\ batch_size made.1 = b
  /\ step made.1 = Some b
  /\ pr made.1 = 0.
Proof.
  intros cols p made d d' Hby Hone Hrt Hdecl Hfresh.
  unfold d', made. clear d' made.
  unfold GeneralInteractionBasedDataLoader.__init__.
  destruct (decide (strategy nsa <> "by")) as [? | _]; [contradiction |].
  destruct (decide ("pairwise" = "pairwise" /\ by_ nsa <> 1)) as [[_ ?] | _];
    [contradiction |].
  unfold NegSampleBasedDataLoader.__init__.
  rewrite (bool_decide_eq_true_2 ("pairwise" ∈ ["pointwise"; "pairwise"]))
    by (apply elem_of_cons; right; apply elem_of_cons; left; reflexivity).
  rewrite Hby.
  rewrite (bool_decide_eq_true_2 ("by" ∈ ["by"; "to"]))
    by (apply elem_of_cons; left; reflexivity).
  unfold GeneralInteractionBasedDataLoader._batch_size_adaptation,
    AbstractDataLoader.__init__, AbstractDataLoader.set_batch_size.
  destruct (decide ("pairwise" = "pointwise")) as [E | _]; [discriminate E |].
  run.
  destruct (decide ("pairwise" = "pairwise")) as [_ | ?]; [| congruence].
  run. rewrite Hrt. run.
  destruct (decide ("pairwise" = "pairwise")) as [_ | ?]; [| congruence].
  cbn -[Z.add Z.div Z.mul Z.eqb].
  match goal with
  | |- (foldr _ _ ?cs ?s0).2 = _ /\ _ =>
      destruct (register_negatives_spec (NEG_PREFIX cfg) cs s0)
        as (ty & src & sl & Hloop & Htwin & Hrest)
  end.
  - exact Hdecl.
  - exact Hfresh.
  - unfold mbind', ret in Hloop. rewrite Hloop.
    cbn [fst snd dataset set_dataset batch_size step pr
         Dataset.field2type Dataset.field2source Dataset.field2seqlen
         Dataset.inter_feat] in *.
    split; [reflexivity |].
    split; [exact Htwin |].
    split; [exact Hrest |].
    repeat split.
Qed.

Lemma pairwise_negative_fields_witness :
  Dataset.field2type (dataset (Sample.pairwise_loader true).1) !! "neg_price"
  = Some "float".
Proof.
  destruct (pairwise_negative_fields Sample.cfg Sample.smp "train"
              (Sample.by_args 1 true) 9 false
              (new (Sample.data (Some Sample.items))))
    as (_ & Htwin & _).
  - reflexivity.
  - reflexivity.
  - reflexivity.
  - intros c Hc. simpl in Hc.
    apply elem_of_cons in Hc as [-> | Hc];
      [| apply list_elem_of_singleton in Hc as ->];
      repeat split; vm_compute; eauto.
  - intros c c' Hc Hc'. simpl in Hc, Hc'.
    apply elem_of_cons in Hc as [-> | Hc];
      [| apply list_elem_of_singleton in Hc as ->];
      (apply elem_of_cons in Hc' as [-> | Hc'];
       [| apply list_elem_of_singleton in Hc' as ->]);
      vm_compute; discriminate.
  - destruct (Htwin "price") as (Hty & _).
    + simpl. apply elem_of_cons. right. apply elem_of_cons. left.
      reflexivity.
    + transitivity
        (Dataset.field2type (Sample.data (Some Sample.items)) !! "price");
        [exact Hty | vm_compute; reflexivity].
Defined.

(** X18: a pointwise construction in real-time mode that passes the
    checks declares the label field as a [float] field of source [inter]
    and sequence length 1, whichever the loader, and leaves the other
    declarations and the interaction table as they were; the
    interaction-based loader also keeps the label's name, and the grouped
    loader keeps the dataset's group table and whether [to] was -1. *)
Theorem pointwise_label_field (cfg : Config) (smp : Sampler) (ph : string)
    (nsa : NegSampleArgs) (b : Z) (sh : bool) (s : Loader) :
  let lf := LABEL_FIELD cfg in
  let d := dataset s in
  let declared (d' : Dataset.t) :=
    Dataset.field2type d' !! lf = Some "float"
    /\ Dataset.field2source d' !! lf = Some "inter"
    /\ Dataset.field2seqlen d' !! lf = Some 1
    /\ (forall k, k <> lf ->
          Dataset.field2type d' !! k = Dataset.field2type d !! k
          /\ Dataset.field2source d' !! k = Dataset.field2source d !! k
          /\ Dataset.field2seqlen d' !! k = Dataset.field2seqlen d !! k)
    /\ Dataset.inter_feat d' = Dataset.inter_feat d in
  real_time nsa = true ->
  (strategy nsa = "by" ->
   1 + by_ nsa <> 0 ->
   let made :=
     GeneralInteractionBasedDataLoader.__init__ cfg smp ph nsa b "pointwise"
       sh s in
   made.2 = Ok tt
   /\ declared (dataset made.1)
   /\ label_field made.1 = Some lf
   /\ neg_sample_by made.1 = Some (by_ nsa))
  /\ (strategy nsa = "to" ->
      (if to_ nsa =? -1 then Dataset.item_num d else to_ nsa) <> 0 ->
      let made :=
        GeneralGroupedDataLoader.__init__ cfg smp ph nsa b "pointwise" sh s in
      made.2 = Ok tt
      /\ declared (dataset made.1)
      /\ uid2items made.1 = Some (Dataset.uid2items d)
      /\ full made.1 = Some (to_ nsa =? -1)).
Proof.
  intros lf d declared Hrt.
  assert (Hfmt : "pointwise" ∈ ["pointwise"; "pairwise"])
    by (apply elem_of_cons; left; reflexivity).
  split.
  - intros Hby Hpoint made. unfold made, declared. clear made declared.
    subst d.
    unfold GeneralInteractionBasedDataLoader.__init__.
    destruct (decide (strategy nsa <> "by")) as [? | _]; [contradiction |].
    destruct (decide ("pointwise" = "pairwise" /\ by_ nsa <> 1))
      as [[E _] | _]; [discriminate E |].
    unfold NegSampleBasedDataLoader.__init__.
    rewrite (bool_decide_eq_true_2 _ Hfmt).
    rewrite Hby.
    rewrite (bool_decide_eq_true_2 ("by" ∈ ["by"; "to"]))
      by (apply elem_of_cons; left; reflexivity).
    unfold GeneralInteractionBasedDataLoader._batch_size_adaptation,
      AbstractDataLoader.__init__, AbstractDataLoader.set_batch_size.
    apply Z.eqb_neq in Hpoint.
    destruct (decide ("pointwise" = "pointwise")) as [_ | ?]; [| congruence].
    run.
    destruct (decide ("pointwise" = "pairwise")) as [E | _]; [discriminate E |].
    run. rewrite Hpoint. run. rewrite Hrt. run.
    destruct (b =? (b / (1 + by_ nsa) + 1) * (1 + by_ nsa)); run;
      (destruct (decide ("pointwise" = "pairwise")) as [E | _];
       [discriminate E |]);
      run;
      (split; [reflexivity |]);
      (split; [| split; reflexivity]);
      (split; [apply lookup_insert_eq |]);
      (split; [apply lookup_insert_eq |]);
      (split; [apply lookup_insert_eq |]);
      (split; [| reflexivity]);
      intros k Hk; rewrite !lookup_insert_ne by (intros E; apply Hk;
                                                 symmetry; exact E);
      auto.
  - intros Hto Hnz made. unfold made, declared. clear made declared.
    subst d.
    unfold GeneralGroupedDataLoader.__init__.
    destruct (decide (strategy nsa <> "to")) as [? | _]; [contradiction |].
    destruct (decide ("pointwise" = "pairwise")) as [E | _];
      [discriminate E |].
    unfold NegSampleBasedDataLoader.__init__.
    rewrite (bool_decide_eq_true_2 _ Hfmt).
    rewrite Hto.
    rewrite (bool_decide_eq_true_2 ("to" ∈ ["by"; "to"]))
      by (apply elem_of_cons; right; apply elem_of_cons; left; reflexivity).
    unfold GeneralGroupedDataLoader._batch_size_adaptation,
      AbstractDataLoader.__init__, AbstractDataLoader.set_batch_size.
    apply Z.eqb_neq in Hnz.
    run.
    destruct (to_ nsa =? -1) eqn:Hfull; run; rewrite Hnz; run;
      match goal with
      | |- context [negb (?x =? ?y)] => destruct (x =? y)
      end; run; rewrite ?Hrt; run;
      (split; [reflexivity |]);
      (split; [| split; reflexivity]);
      (split; [apply lookup_insert_eq |]);
      (split; [apply lookup_insert_eq |]);
      (split; [apply lookup_insert_eq |]);
      (split; [| reflexivity]);
      intros k Hk; rewrite !lookup_insert_ne by (intros E; apply Hk;
                                                 symmetry; exact E);
      auto.
Qed.

Lemma pointwise_label_field_witness :
  Dataset.field2type (dataset (Sample.pointwise_loader true).1) !! "label"
  = Some "float"
  /\ label_field (Sample.pointwise_loader true).1 = Some "label".
Proof.
  destruct (pointwise_label_field Sample.cfg Sample.smp "train"
              (Sample.by_args 2 true) 9 false (new (Sample.data None)))
    as [H _]; [reflexivity |].
  destruct H as (_ & (Hty & _) & Hlf & _); [reflexivity | simpl; lia |].
  split; [exact Hty | exact Hlf].
Defined.

(** ** A batch of the interaction-based loader *)

Lemma rows_flat (reg : gmap string string) (df : DataFrame) (a b : nat) :
  Forall (Flat.flat reg) (columns df) ->
  Forall (Flat.flat reg) (columns (Pd.rows df a b)).
Proof.
  intros H. unfold Pd.rows. cbn [columns].
  apply Forall_fmap. eapply Forall_impl; [exact H |].
  intros [k cs] [Hty Hcs]. split; [exact Hty |].
  simpl in *. unfold slice. apply Forall_take, Forall_drop. exact Hcs.
Qed.

Lemma rows_keys (df : DataFrame) (a b : nat) :
  (columns (Pd.rows df a b)).*1 = (columns df).*1.
Proof.
  unfold Pd.rows. cbn [columns]. rewrite <- list_fmap_compose.
  reflexivity.
Qed.

(** X19: a call of [__next__] on an interaction-based loader in
    pre-materialized mode whose table has distinct column names and holds
    whole numbers declared [token] or [float] that the tensor of that type
    takes ([int64] values for [token], numbers of at most [2 ** 53] in size
    for [float]): below the end of the table the call returns the
    Interaction of the [step] rows from the cursor on, column by column, a
    [float] column as the nearest [float32] values, and moves the cursor by
    [step]; the length of the batch is [step], or what is left of the table
    when that is less. *)
Theorem interaction_next_batch (self : Loader) (st : Z) :
  let ds := dataset self in
  let table := Dataset.inter_feat ds in
  let reg := Dataset.field2type ds in
  let a := Z.to_nat (pr self) in
  let b := Z.to_nat (pr self + st) in
  let batch :=
    Interaction.__init__
      (Flat.converted reg
         ((fun kv : string * list cell => (kv.1, slice kv.2 a b))
            <$> columns table)) in
  real_time_neg_sampling self = false ->
  step self = Some st ->
  0 < st ->
  0 <= pr self < Z.of_nat (nrows table) ->
  NoDup (columns table).*1 ->
  Forall (Flat.flat reg) (columns table) ->
  InteractionBasedIteration.__next__ self
    = (set_pr (pr self + st) self, Ok batch)
  /\ (forall k0 cs0 rest,
        columns table = (k0, cs0) :: rest ->
        length cs0 = nrows table ->
        Interaction.__len__ batch
        = Ok (Z.to_nat st `min` (nrows table - a))%nat).
Proof.
  intros ds table reg a b batch Hrt Hst Hpos Hpr Hnd Hflat. split.
  - unfold InteractionBasedIteration.__next__, AbstractDataLoader.__next__,
      mbind'.
    rewrite (interaction_fetch_more self st Hst) by (fold ds table; lia).
    rewrite Hrt.
    rewrite (dataframe_to_interaction_dataset _ self) by reflexivity.
    rewrite conversion_of_numbers.
    + unfold Dataset.__getitem__, Pd.rows. cbn [columns].
      fold ds table reg. rewrite !bound_nonneg by lia. reflexivity.
    + unfold Dataset.__getitem__. rewrite rows_keys. exact Hnd.
    + unfold Dataset.__getitem__. apply rows_flat. exact Hflat.
  - intros k0 cs0 rest Hcols Hlen. unfold batch. rewrite Hcols, fmap_cons.
    cbn [fst snd]. rewrite converted_length.
    unfold slice. rewrite length_take, length_drop, Hlen.
    f_equal. unfold a, b. lia.
Qed.

Lemma interaction_next_batch_witness :
  InteractionBasedIteration.__next__
    (set_pr 2 (set_step 2 (Sample.pointwise_self false)))
  = (set_pr 4 (set_step 2 (Sample.pointwise_self false)),
     Ok (Interaction.__init__
           [("user_id", Tensor1 Long [3]); ("item_id", Tensor1 Long [30])])).
Proof.
  destruct (interaction_next_batch
              (set_pr 2 (set_step 2 (Sample.pointwise_self false))) 2)
    as [Hnext _].
  - reflexivity.
  - reflexivity.
  - lia.
  - simpl. lia.
  - simpl. apply NoDup_cons. split.
    + rewrite list_elem_of_singleton. discriminate.
    + apply NoDup_singleton.
  - apply Forall_cons. split; [| apply Forall_cons; split; [| apply Forall_nil]].
    + split; [left; vm_compute; reflexivity |].
      simpl. repeat (apply Forall_cons; split; [eexists; split; [reflexivity | taken_cell] |]).
      apply Forall_nil. exact I.
    + split; [left; vm_compute; reflexivity |].
      simpl. repeat (apply Forall_cons; split; [eexists; split; [reflexivity | taken_cell] |]).
      apply Forall_nil. exact I.
    + exact I.
  - rewrite Hnext. vm_compute. reflexivity.
Defined.

(** ** The adapted batch size *)

Lemma next_multiple (b t : Z) :
  0 < t -> b < (b / t + 1) * t <= b + t.
Proof.
  intros Ht. pose proof (Z.div_mod b t ltac:(lia)).
  pose proof (Z.mod_pos_bound b t Ht). nia.
Qed.

(** X20: with a positive multiplier ([to] for the grouped loader,
    [1 + by] for the pointwise interaction-based loader) the adapted batch
    size is the least multiple of the multiplier above the batch size asked
    for: it is never the batch size asked for, and exceeds it by at most
    the multiplier; [step] times the multiplier is the adapted batch size,
    except in the pre-materialized interaction-based loader, where [step]
    is the adapted batch size itself. *)
Theorem batch_size_adaptation_bounds (self : Loader) :
  pr self = 0 ->
  (forall to',
     to' = (if to_ (neg_sample_args self) =? -1
            then Dataset.item_num (dataset self)
            else to_ (neg_sample_args self)) ->
     0 < to' ->
     exists self' st,
       GeneralGroupedDataLoader._batch_size_adaptation self = (self', Ok tt)
       /\ step self' = Some st
       /\ batch_size self' = st * to'
       /\ batch_size self < batch_size self' <= batch_size self + to')
  /\ (forall k,
        dl_format self <> "pairwise" ->
        neg_sample_by self = Some k ->
        0 < 1 + k ->
        exists self' st,
          GeneralInteractionBasedDataLoader._batch_size_adaptation self
            = (self', Ok tt)
          /\ step self' = Some st
          /\ batch_size self'
             = (if real_time_neg_sampling self then st * (1 + k) else st)
          /\ (1 + k | batch_size self')
          /\ batch_size self < batch_size self' <= batch_size self + (1 + k)).
Proof.
  intros Hpr. split.
  - intros to' -> Hto.
    pose proof (next_multiple (batch_size self) _ Hto) as Hb.
    unfold GeneralGroupedDataLoader._batch_size_adaptation, mbind', gets,
      modify, lift, floordiv.
    destruct (to_ (neg_sample_args self) =? -1) eqn:Hfull; simpl;
      (match goal with
       | |- context [?t =? 0] =>
           destruct (Z.eqb_spec t 0) as [E | _]; [lia |]
       end);
      simpl; rewrite set_batch_size_idle by (simpl; assumption); simpl;
      eexists _, _; (split; [reflexivity |]);
      match goal with
      | |- context [decide (?a = ?b)] => destruct (decide (a = b)) as [E | E]
      end; simpl; repeat split; try reflexivity; lia.
  - intros k Hfmt Hby Hk.
    pose proof (next_multiple (batch_size self) _ Hk) as Hb.
    unfold GeneralInteractionBasedDataLoader._batch_size_adaptation, mbind',
      gets, modify, getattr, lift, floordiv.
    destruct (decide (dl_format self = "pairwise")); [contradiction |].
    rewrite Hby. simpl.
    destruct (Z.eqb_spec (1 + k) 0) as [E | _]; [lia |]. simpl.
    rewrite set_batch_size_idle by (simpl; assumption). simpl.
    eexists _, _; split; [reflexivity |].
    destruct (decide (batch_size self
                      = (batch_size self / (1 + k) + 1) * (1 + k)))
      as [E | E]; simpl; [lia |].
    split; [reflexivity |].
    split; [destruct (real_time_neg_sampling self); reflexivity |].
    split; [apply Z.divide_factor_r | lia].
Qed.

Lemma batch_size_adaptation_bounds_witness :
  exists self' st,
    GeneralInteractionBasedDataLoader._batch_size_adaptation
      (set_neg_sample_by 2 (set_batch_size_attr 12 (new (Sample.data None))))
    = (self', Ok tt)
    /\ step self' = Some st
    /\ 12 < batch_size self' <= 15.
Proof.
  destruct (batch_size_adaptation_bounds
              (set_neg_sample_by 2
                 (set_batch_size_attr 12 (new (Sample.data None)))))
    as [_ H]; [reflexivity |].
  destruct (H 2) as (self' & st & Hrun & Hst & _ & _ & Hb);
    [simpl; congruence | reflexivity | lia |].
  exists self', st. split; [exact Hrun | split; [exact Hst | exact Hb]].
Defined.

(** X21: a multiplier of zero makes the adaptation raise
    [ZeroDivisionError] with the batch size and [step] as they were: in
    the grouped loader for [to = 0], or [to = -1] with a dataset that has
    no item; in the pointwise interaction-based loader for [by = -1],
    after [times] has been set to 0. *)
Theorem batch_size_adaptation_zero_division (self : Loader) :
  ((if to_ (neg_sample_args self) =? -1
    then Dataset.item_num (dataset self)
    else to_ (neg_sample_args self)) = 0 ->
   exists self',
     GeneralGroupedDataLoader._batch_size_adaptation self
       = (self', Raise ZeroDivisionError)
     /\ to_ (neg_sample_args self') = 0
     /\ step self' = step self
     /\ batch_size self' = batch_size self)
  /\ (dl_format self <> "pairwise" ->
      neg_sample_by self = Some (-1) ->
      GeneralInteractionBasedDataLoader._batch_size_adaptation self
        = (set_times 0 self, Raise ZeroDivisionError)).
Proof.
  split.
  - intros Hzero.
    unfold GeneralGroupedDataLoader._batch_size_adaptation, mbind', gets,
      modify, lift, floordiv.
    destruct (to_ (neg_sample_args self) =? -1) eqn:Hfull; simpl;
      rewrite Hzero; simpl; eexists; repeat split; assumption.
  - intros Hfmt Hby.
    unfold GeneralInteractionBasedDataLoader._batch_size_adaptation, mbind',
      gets, modify, getattr, lift, floordiv.
    destruct (decide (dl_format self = "pairwise")); [contradiction |].
    rewrite Hby. reflexivity.
Qed.

Lemma batch_size_adaptation_zero_division_witness :
  (GeneralInteractionBasedDataLoader._batch_size_adaptation
     (set_neg_sample_by (-1) (new (Sample.data None)))).2
  = Raise ZeroDivisionError.
Proof.
  destruct (batch_size_adaptation_zero_division
              (set_neg_sample_by (-1) (new (Sample.data None))))
    as [_ H].
  rewrite H; [reflexivity | simpl; congruence | reflexivity].
Defined.

(** ** Construction in pre-materialized mode *)

(** The sampling that the grouped constructor runs in pre-materialized
    mode puts the sampled table in the place of the dataset's interaction
    table. *)
Lemma grouped_pre_sampling (self : Loader) (fl : bool) (st : Z)
    (groups : Groups) :
  let u := USER_ID_FIELD (config self) in
  let i := ITEM_ID_FIELD (config self) in
  let l := LABEL_FIELD (config self) in
  let to := to_ (neg_sample_args self) in
  u <> i -> u <> l -> i <> l ->
  real_time_neg_sampling self = false ->
  step self = Some st ->
  st <> 0 ->
  full self = Some fl ->
  uid2items self = Some groups ->
  groups <> [] ->
  (forall j row, groups !! j = Some row ->
     Z.of_nat (Expected.width (sampler self) (phase self) fl to j row) <= to) ->
  (forall j row, groups !! j = Some row ->
     Expected.in_range (sampler self) (phase self) fl to j row) ->
  GeneralGroupedDataLoader._pre_neg_sampling self
  = (on_dataset
       (Dataset.with_inter_feat
          (Expected.frame (sampler self) (phase self) fl to u i l groups))
       (set_next
          (Expected.next_map (sampler self) (phase self) fl to st groups)
          self),
     Ok tt).
Proof.
  intros u i l to Hui Hul Hil Hrt Hst Hnz Hfull Hgroups Hne Hfit Hrange.
  assert (Hrg : Expected.ranged (sampler self) (phase self) fl to 0 groups).
  { apply ranged_lookup. intros k r Hk. exact (Hrange k r Hk). }
  destruct groups as [| row rows]; [congruence |].
  assert (Hto : 0 <= to).
  { pose proof (Hfit 0%nat row eq_refl). lia. }
  assert (Htotal : Z.of_nat (Expected.total (sampler self) (phase self) fl to
                               0 (row :: rows))
                   <= Z.of_nat (length (row :: rows)) * to).
  { assert (Expected.total (sampler self) (phase self) fl to 0 (row :: rows)
            <= length (row :: rows) * Z.to_nat to)%nat; [| nia].
    apply total_le. intros k r Hk. simpl.
    pose proof (Hfit k r Hk). lia. }
  unfold GeneralGroupedDataLoader._pre_neg_sampling, mbind', getattr.
  rewrite Hgroups.
  rewrite (neg_sampling_pre u i l Hui Hul Hil to self fl st row rows); auto.
Qed.

(** X22: the construction of a grouped loader in pre-materialized mode,
    for a dataset with at least one group, distinct user, item and label
    field names, groups that fit the candidate-set size and a step that is
    not zero, ends well and overwrites the interaction table of the shared
    dataset with the sampled table of all groups; the loader has the map
    [next] of that table, [step = floor(batch_size / to) + 1], the batch
    size [step * to], the cursor at 0, the group table of the dataset, and
    the label field is declared a [float] field.  The ids are [int64]
    values, as the buffers take no others. *)
Theorem grouped_construction_pre_materialized (cfg : Config) (smp : Sampler)
    (ph : string) (nsa : NegSampleArgs) (b : Z) (sh : bool) (s : Loader) :
  let d := dataset s in
  let groups := Dataset.uid2items d in
  let fl := to_ nsa =? -1 in
  let to := if fl then Dataset.item_num d else to_ nsa in
  let st := b / to + 1 in
  let u := USER_ID_FIELD cfg in
  let i := ITEM_ID_FIELD cfg in
  let l := LABEL_FIELD cfg in
  let made :=
    GeneralGroupedDataLoader.__init__ cfg smp ph nsa b "pointwise" sh s in
  strategy nsa = "to" ->
  real_time nsa = false ->
  u <> i -> u <> l -> i <> l ->
  to <> 0 ->
  st <> 0 ->
  groups <> [] ->
  (forall j row, groups !! j = Some row ->
     Z.of_nat (Expected.width smp ph fl to j row) <= to) ->
  (forall j row, groups !! j = Some row ->
     Expected.in_range smp ph fl to j row) ->
  made.2 = Ok tt
  /\ Dataset.inter_feat (dataset made.1)
     = Expected.frame smp ph fl to u i l groups
  /\ next made.1 = Some (Expected.next_map smp ph fl to st groups)
  /\ step made.1 = Some st
  /\ batch_size made.1 = st * to
  /\ pr made.1 = 0
  /\ uid2items made.1 = Some groups
  /\ Dataset.field2type (dataset made.1) !! l = Some "float".
Proof.
  intros d groups fl to st u i l made Hto Hrt Hui Hul Hil Hnz Hst Hne Hfit
    Hrange.
  unfold made. clear made.
  assert (Hfmt : "pointwise" ∈ ["pointwise"; "pairwise"])
    by (apply elem_of_cons; left; reflexivity).
  unfold GeneralGroupedDataLoader.__init__.
  destruct (decide (strategy nsa <> "to")) as [? | _]; [contradiction |].
  destruct (decide ("pointwise" = "pairwise")) as [E | _];
    [discriminate E |].
  unfold NegSampleBasedDataLoader.__init__.
  rewrite (bool_decide_eq_true_2 _ Hfmt).
  rewrite Hto.
  rewrite (bool_decide_eq_true_2 ("to" ∈ ["by"; "to"]))
    by (apply elem_of_cons; right; apply elem_of_cons; left; reflexivity).
  unfold GeneralGroupedDataLoader._batch_size_adaptation,
    AbstractDataLoader.__init__, AbstractDataLoader.set_batch_size.
  remember GeneralGroupedDataLoader._pre_neg_sampling as pre eqn:Hpre.
  apply Z.eqb_neq in Hnz.
  subst d groups to st fl.
  run.
  destruct (to_ nsa =? -1) eqn:Hfull; run; rewrite Hnz; run;
    match goal with
    | |- context [negb (?x =? ?y)] =>
        destruct (Z.eqb_spec x y) as [Eb | Eb]
    end; run; rewrite ?Hrt; run;
    match goal with
    | |- context [pre ?s0] =>
        pose proof (grouped_pre_sampling s0 _ _ _ Hui Hul Hil eq_refl
                      eq_refl Hst eq_refl eq_refl Hne Hfit Hrange) as Hrun
    end;
    subst pre; rewrite Hrun; run;
    repeat split;
    first [reflexivity | exact Eb | symmetry; exact Eb
          | apply lookup_insert_eq].
Qed.

Lemma grouped_construction_pre_materialized_witness :
  (Sample.grouped_loader 4 false).2 = Ok tt
  /\ nrows (Dataset.inter_feat (dataset (Sample.grouped_loader 4 false).1))
     = 12%nat
  /\ step (Sample.grouped_loader 4 false).1 = Some 3.
Proof.
  destruct (grouped_construction_pre_materialized Sample.cfg Sample.smp
              "train" (Sample.to_args 4 false) 9 false
              (new (Sample.data None)))
    as (Hok & Htable & _ & Hstep & _).
  - reflexivity.
  - reflexivity.
  - discriminate.
  - discriminate.
  - discriminate.
  - vm_compute. discriminate.
  - vm_compute. discriminate.
  - discriminate.
  - intros j row _.
    pose proof (width_at_most Sample.smp "train" 4 j row) as H.
    simpl in *.
    assert (Hle : (Expected.width Sample.smp "train" false 4 j row
                   <= Z.to_nat 4)%nat).
    { apply H; [lia |]. intros j' uid k. simpl. rewrite length_replicate.
      lia. }
    lia.
  - intros j row Hj.
    destruct j as [| [| [| j]]]; simpl in Hj; try discriminate Hj;
      injection Hj as <-; in_range.
  - split; [exact Hok |]. split; [| exact Hstep].
    unfold Sample.grouped_loader. rewrite Htable. reflexivity.
Defined.

(** ** Ids that the arrays do not take *)

(** A user id of [2 ** 63] does not fit the [int64] buffer: the sampling
    raises at the first assignment. *)
Lemma grouped_sampling_overflow :
  (GeneralGroupedDataLoader._neg_sampling [(9223372036854775808, [10])]
     (Sample.grouped_self true 3)).2
  = Raise (OverflowError "Python int too large to convert to C long").
Proof. vm_compute. reflexivity. Qed.

(** A [token] column with the number [2 ** 63] is not converted, and a
    [float] column stores the nearest [float32] value. *)
Lemma conversion_overflow :
  Torch.of_cells Long [CInt 1; CInt 9223372036854775808]
  = Raise (RuntimeError "Overflow when unpacking long")
  /\ Torch.of_cells Float [CInt 16777217; CInt (-3)]
     = Ok (Tensor1 Float [16777216; -3]).
Proof. split; vm_compute; reflexivity. Qed.
